(** * aiocogeo: partial reads of tiled rasters

    A shallow embedding of [aiocogeo/partial_reads.py] (overview selection,
    tile geometry, mosaic buffer, per-tile and merged-range fetching, clipping)
    and of the byte-range reads of [aiocogeo/filesystems.py].

    Conventions of the embedding:
    - Python [int] is [Z]; Python [float] is modelled by the exact rationals
      [Q] (rounding of binary floating point is not modelled);
    - a raised exception is the [Raise] branch of [result];
    - a numpy array is a shape together with an indexing function;
    - coroutines scheduled with [asyncio.create_task] and awaited with
      [asyncio.gather] run one after the other in creation order, each one
      taking the shared mosaic buffer and handing it to the next. *)

From Stdlib Require Import ZArith QArith Qround Lqa List Bool Lia Permutation.
From Stdlib Require Import Strings.Byte.
From Stdlib Require Strings.String.
Import ListNotations.


(** ** Exceptions *)

Inductive exn : Type :=
| IndexError
| ValueError
| AttributeError
| AssertionError
| ZeroDivisionError
| OSError
| FileNotFoundError
| DecodeError.

Inductive result (A : Type) : Type :=
| Ok (a : A)
| Raise (e : exn).

Arguments Ok {A} a.
Arguments Raise {A} e.

Definition bind {A B : Type} (c : result A) (k : A -> result B) : result B :=
  match c with
  | Ok a => k a
  | Raise e => Raise e
  end.

Declare Scope result_scope.
Delimit Scope result_scope with result.
Notation "x <- c ;; k" := (bind c (fun x => k))
  (at level 61, c at next level, right associativity) : result_scope.
Notation "' p <- c ;; k" := (bind c (fun p => k))
  (at level 61, p pattern, c at next level, right associativity) : result_scope.
Open Scope result_scope.

Definition is_ok {A : Type} (r : result A) : bool :=
  match r with Ok _ => true | Raise _ => false end.

(** ** Python built-ins used by the source *)

Module Py.

(** [range(a, b)] *)
Definition range (a b : Z) : list Z :=
  map (fun i => a + Z.of_nat i)%Z (seq 0 (Z.to_nat (b - a))).

(** [enumerate(l)] *)
Definition enumerate {A : Type} (l : list A) : list (nat * A) :=
  combine (seq 0 (length l)) l.

(** [l[i]]: a negative index counts from the end, an index outside
    [-len, len) raises IndexError. *)
Definition getitem {A : Type} (l : list A) (i : Z) : result A :=
  let n := Z.of_nat (length l) in
  let j := (if i <? 0 then i + n else i)%Z in
  if (j <? 0)%Z then Raise IndexError
  else match nth_error l (Z.to_nat j) with
       | Some a => Ok a
       | None => Raise IndexError
       end.

(** [min(l)] and [max(l)] on integers; an empty argument raises
    ValueError. *)
Definition min (l : list Z) : result Z :=
  match l with
  | [] => Raise ValueError
  | x :: l' => Ok (fold_left Z.min l' x)
  end.

Definition max (l : list Z) : result Z :=
  match l with
  | [] => Raise ValueError
  | x :: l' => Ok (fold_left Z.max l' x)
  end.

(** [slice(start, stop).indices(len)] for step 1: both ends are taken
    from the end when negative, then clamped to [0, len]. *)
Definition clamp (v : Z) (len : nat) : nat :=
  let n := Z.of_nat len in
  Z.to_nat (if (v <? 0)%Z then Z.max 0 (v + n) else Z.min v n).

Definition slice_indices (start stop : Z) (len : nat) : nat * nat :=
  (clamp start len, clamp stop len).

(** [l[start:stop]] *)
Definition slice {A : Type} (l : list A) (start stop : Z) : list A :=
  let '(lo, hi) := slice_indices start stop (length l) in
  firstn (hi - lo) (skipn lo l).

End Py.

(** ** Rational comparisons, as booleans *)

Definition Qlt_bool (x y : Q) : bool := negb (Qle_bool y x).

(** ** Bounding boxes: [PartialReadBase._intersect_bounds] *)

Definition bbox : Type := (Q * Q * Q * Q)%type.

Definition b0 (b : bbox) : Q := let '(x, _, _, _) := b in x.
Definition b1 (b : bbox) : Q := let '(_, x, _, _) := b in x.
Definition b2 (b : bbox) : Q := let '(_, _, x, _) := b in x.
Definition b3 (b : bbox) : Q := let '(_, _, _, x) := b in x.

Definition _intersect_bounds (read_bounds cog_bounds : bbox) : bool :=
  Qlt_bool (b0 cog_bounds) (b2 read_bounds)
  && Qlt_bool (b0 read_bounds) (b2 cog_bounds)
  && Qlt_bool (b1 read_bounds) (b3 cog_bounds)
  && Qlt_bool (b1 cog_bounds) (b3 read_bounds).

(** ** Overview selection: [PartialReadBase._get_overview_level] *)

(** [config.ZOOM_LEVEL_STRATEGY]: one of the three names, or a number. *)
Inductive zoom_level_strategy : Type :=
| AUTO
| LOWER
| UPPER
| PERCENT (p : Z).

(** [int({"AUTO": 50, "LOWER": 100, "UPPER": 0}.get(s, s))] *)
Definition strategy_percentage (s : zoom_level_strategy) : Z :=
  match s with
  | AUTO => 50
  | LOWER => 100
  | UPPER => 0
  | PERCENT p => p
  end.

(** The body of the loop [for i in reversed(range(1, len(...)))], over the
    list of the levels still to visit. *)
Fixpoint overview_walk (available_resolutions : list Q) (target_res : Q)
    (percentage : Z) (levels : list nat) : nat :=
  match levels with
  | [] => 0%nat
  | i :: levels' =>
      let res_current := nth i available_resolutions 0 in
      let res_higher := nth (i - 1) available_resolutions 0 in
      let threshold :=
        res_current - (res_current - res_higher) * (inject_Z percentage / 100) in
      if Qlt_bool threshold target_res || Qeq_bool target_res res_current
      then i
      else overview_walk available_resolutions target_res percentage levels'
  end.

(** [[src_res] + [src_res * decim for decim in self.overviews]] *)
Definition available_resolutions (src_res : Q) (overviews : list Z) : list Q :=
  src_res :: map (fun decim => src_res * inject_Z decim) overviews.

(** [target_gt.a]: the x pixel size of the requested window. *)
Definition target_res (bounds : bbox) (width : Z) : Q :=
  (b2 bounds - b0 bounds) / inject_Z width.

(** [src_res] is [self.geotransform().a], [overviews] is [self.overviews]. *)
Definition _get_overview_level (src_res : Q) (overviews : list Z)
    (strategy : zoom_level_strategy) (bounds : bbox) (width height : Z)
  : result nat :=
  if (width =? 0)%Z || (height =? 0)%Z then Raise ZeroDivisionError
  else
    let percentage := strategy_percentage strategy in
    if negb ((0 <=? percentage)%Z && (percentage <=? 100)%Z)
    then Raise AssertionError
    else
      let res := available_resolutions src_res overviews in
      Ok (overview_walk res (target_res bounds width) percentage
            (rev (seq 1 (length res - 1)))).

(** ** Tile indices: the "Calculate tiles" block of
    [PartialReadBase._calculate_image_tiles] *)

Definition epsilon : Q := 1 # 1000000.

(** [math.floor((coord + 1e-6) / tile_dim)] *)
Definition tile_index (coord : Q) (tile_dim : Z) : result Z :=
  if (tile_dim =? 0)%Z then Raise ZeroDivisionError
  else Ok (Qfloor ((coord + epsilon) / inject_Z tile_dim)).

(** The four tile indices [(xmin, xmax, ymax, ymin)], in the order the
    source computes them, from the pixel coordinates of the top-left and
    bottom-right corners of the request. *)
Definition calculate_tiles (tlx tly brx bry : Q) (tile_width tile_height : Z)
  : result (Z * Z * Z * Z) :=
  xmin <- tile_index tlx tile_width ;;
  xmax <- tile_index brx tile_width ;;
  ymax <- tile_index bry tile_height ;;
  ymin <- tile_index tly tile_height ;;
  Ok (xmin, xmax, ymax, ymin).

(** ** numpy arrays *)

(** What the embedding needs of numpy's element types: the type tags, the
    values, the [0.0] that [np.zeros] writes and the conversion of a value
    to a given element type ([astype], and the store into an array). *)
Class Numpy : Type := {
  dtype : Type;
  elt : Type;
  float64 : dtype;
  zero : elt;
  cast : dtype -> elt -> elt
}.

Section Arrays.
Context `{Numpy}.

(** A band-major array of shape [(nbands, nrows, ncols)].  [mask = None]
    is a plain [np.ndarray]; [mask = Some m] is an [np.ma.MaskedArray]
    whose mask has the shape of the data ([np.ma.nomask] is the mask
    that is false everywhere). *)
Record array : Type := mk_array {
  dtype_of : dtype;
  nbands : nat;
  nrows : nat;
  ncols : nat;
  data : nat -> nat -> nat -> elt;
  mask : option (nat -> nat -> nat -> bool)
}.

Definition shape (a : array) : nat * nat * nat := (nbands a, nrows a, ncols a).

(** The decoded mask of one tile: a two-dimensional boolean array. *)
Record mask2d : Type := mk_mask2d {
  mrows : nat;
  mcols : nat;
  mbit : nat -> nat -> bool
}.

(** The nested lists [a.tolist()] of a function over a shape. *)
Definition tolist {A : Type} (f : nat -> nat -> nat -> A) (b h w : nat)
  : list (list (list A)) :=
  map (fun k => map (fun y => map (fun x => f k y x) (seq 0 w)) (seq 0 h))
      (seq 0 b).

Definition data_tolist (a : array) : list (list (list elt)) :=
  tolist (data a) (nbands a) (nrows a) (ncols a).

Definition mask_tolist (a : array) : option (list (list (list bool))) :=
  option_map (fun m => tolist m (nbands a) (nrows a) (ncols a)) (mask a).

(** [np.zeros(shape)]: a negative dimension raises ValueError. *)
Definition np_zeros (shp : Z * Z * Z) : result array :=
  let '(b, h, w) := shp in
  if ((b <? 0) || (h <? 0) || (w <? 0))%Z then Raise ValueError
  else Ok {| dtype_of := float64;
             nbands := Z.to_nat b; nrows := Z.to_nat h; ncols := Z.to_nat w;
             data := fun _ _ _ => zero;
             mask := None |}.

(** [a.astype(dt)] *)
Definition astype (a : array) (dt : dtype) : array :=
  {| dtype_of := dt;
     nbands := nbands a; nrows := nrows a; ncols := ncols a;
     data := fun k y x => cast dt (data a k y x);
     mask := mask a |}.

(** [np.ma.masked_array(a)] *)
Definition masked_array (a : array) : array :=
  {| dtype_of := dtype_of a;
     nbands := nbands a; nrows := nrows a; ncols := ncols a;
     data := data a;
     mask := match mask a with
             | Some m => Some m
             | None => Some (fun _ _ _ => false)
             end |}.

(** [np.ma.masked_array(a, m)] for a mask [m] of the shape of [a]; a mask
    that [a] already carries is kept ([keep_mask=True]). *)
Definition masked_array_with (a : array) (m : nat -> nat -> nat -> bool)
  : array :=
  {| dtype_of := dtype_of a;
     nbands := nbands a; nrows := nrows a; ncols := ncols a;
     data := data a;
     mask := match mask a with
             | Some m0 => Some (fun k y x => m k y x || m0 k y x)
             | None => Some m
             end |}.

(** Broadcasting of one axis: a source axis of length [src] fits a
    destination axis of length [dst] when the lengths agree or [src] is 1,
    and then destination index [i] reads source index [bcast src dst i]. *)
Definition can_bcast (src dst : nat) : bool :=
  (src =? dst)%nat || (src =? 1)%nat.

Definition bcast (src dst i : nat) : nat :=
  if (src =? dst)%nat then i else 0%nat.

(** [np.broadcast_to(m, (b, h, w))] for a two-dimensional [m]. *)
Definition broadcast_to (m : mask2d) (shp : nat * nat * nat)
  : result (nat -> nat -> nat -> bool) :=
  let '(_, h, w) := shp in
  if can_bcast (mrows m) h && can_bcast (mcols m) w
  then Ok (fun _ y x => mbit m (bcast (mrows m) h y) (bcast (mcols m) w x))
  else Raise ValueError.

(** [np.invert] on a boolean array *)
Definition invert (m : nat -> nat -> nat -> bool) : nat -> nat -> nat -> bool :=
  fun k y x => negb (m k y x).

(** [m.any()] over a shape *)
Definition any (m : nat -> nat -> nat -> bool) (b h w : nat) : bool :=
  existsb (fun k => existsb (fun y => existsb (fun x => m k y x) (seq 0 w))
                      (seq 0 h))
          (seq 0 b).

(** [np.ma.is_masked(a)]: [a] is a masked array with some mask bit set. *)
Definition is_masked_array (a : array) : bool :=
  match mask a with
  | None => false
  | Some m => any m (nbands a) (nrows a) (ncols a)
  end.

(** The rows [ylo, yhi) and columns [xlo, xhi) of every band. *)
Definition in_region (ylo yhi xlo xhi y x : nat) : bool :=
  (ylo <=? y)%nat && (y <? yhi)%nat && (xlo <=? x)%nat && (x <? xhi)%nat.

(** The bits of [getmask(a)] read at a destination index of a region of
    shape [(b, h, w)]. *)
Definition mask_bits (a : array) (b h w : nat) : nat -> nat -> nat -> bool :=
  fun k y x =>
    match mask a with
    | None => false
    | Some m => m (bcast (nbands a) b k) (bcast (nrows a) h y)
                  (bcast (ncols a) w x)
    end.

Definition fits (a : array) (b h w : nat) : bool :=
  can_bcast (nbands a) b && can_bcast (nrows a) h && can_bcast (ncols a) w.

(** [fused[:, ylo:yhi, xlo:xhi] = arr], the bounds already normalised:
    the values are converted to the element type of [fused]; a masked
    [fused] takes the mask of [arr] too; a shape that does not broadcast
    to the region raises ValueError. *)
Definition setitem (fused : array) (ylo yhi xlo xhi : nat) (arr : array)
  : result array :=
  let h := (yhi - ylo)%nat in
  let w := (xhi - xlo)%nat in
  if fits arr (nbands fused) h w then
    Ok {| dtype_of := dtype_of fused;
          nbands := nbands fused; nrows := nrows fused; ncols := ncols fused;
          data := fun k y x =>
            if in_region ylo yhi xlo xhi y x
            then cast (dtype_of fused)
                   (data arr (bcast (nbands arr) (nbands fused) k)
                             (bcast (nrows arr) h (y - ylo))
                             (bcast (ncols arr) w (x - xlo)))
            else data fused k y x;
          mask :=
            match mask fused with
            | None => None
            | Some fm =>
                Some (fun k y x =>
                        if in_region ylo yhi xlo xhi y x
                        then mask_bits arr (nbands fused) h w
                               k (y - ylo)%nat (x - xlo)%nat
                        else fm k y x)
            end |}
  else Raise ValueError.

(** [fused.mask[:, ylo:yhi, xlo:xhi] = arr.mask]: a plain [np.ndarray]
    has no attribute [mask]. *)
Definition setitem_mask (fused : array) (ylo yhi xlo xhi : nat) (arr : array)
  : result array :=
  let h := (yhi - ylo)%nat in
  let w := (xhi - xlo)%nat in
  match mask fused with
  | None => Raise AttributeError
  | Some fm =>
      if fits arr (nbands fused) h w then
        Ok {| dtype_of := dtype_of fused;
              nbands := nbands fused; nrows := nrows fused;
              ncols := ncols fused;
              data := data fused;
              mask :=
                Some (fun k y x =>
                        if in_region ylo yhi xlo xhi y x
                        then mask_bits arr (nbands fused) h w
                               k (y - ylo)%nat (x - xlo)%nat
                        else fm k y x) |}
      else Raise ValueError
  end.

(** [arr[:, y0:y1, x0:x1]] *)
Definition getitem_slices (arr : array) (y0 y1 x0 x1 : Z) : array :=
  let '(ylo, yhi) := Py.slice_indices y0 y1 (nrows arr) in
  let '(xlo, xhi) := Py.slice_indices x0 x1 (ncols arr) in
  {| dtype_of := dtype_of arr;
     nbands := nbands arr;
     nrows := yhi - ylo;
     ncols := xhi - xlo;
     data := fun k y x => data arr k (ylo + y)%nat (xlo + x)%nat;
     mask := option_map
               (fun m k y x => m k (ylo + y)%nat (xlo + x)%nat) (mask arr) |}.

End Arrays.

(** ** Byte-range reads: [aiocogeo/filesystems.py] *)

Definition bytes : Type := list byte.

(** The storage behind a [Filesystem].  A local file is its content; an
    HTTP resource is the server's answer to [Range: bytes=first-last],
    [None] standing for a client or response error ([S3Filesystem] asks
    for the same range and fails the same way).  The request counters
    ([_total_requests] and the like) do not reach the returned bytes and are
    left out. *)
Inductive Filesystem : Type :=
| LocalFilesystem (file : bytes)
| HttpFilesystem (server : Z -> Z -> option bytes).

(** [await file.seek(start)] then [await file.read(size)] on a file opened
    in binary mode: a negative position is refused by the operating system,
    the size -1 reads up to the end of the file and a size below -1 is
    refused. *)
Definition seek_read (file : bytes) (start size : Z) : result bytes :=
  if (start <? 0)%Z then Raise OSError
  else
    let rest := skipn (Z.to_nat start) file in
    if (size <? -1)%Z then Raise ValueError
    else Ok (if (size =? -1)%Z then rest else firstn (Z.to_nat size) rest).

(** [LocalFilesystem._range_request] and [HttpFilesystem._range_request] *)
Definition _range_request (fs : Filesystem) (start offset : Z) : result bytes :=
  match fs with
  | LocalFilesystem file => seek_read file start (offset + 1)
  | HttpFilesystem server =>
      match server start (start + offset)%Z with
      | Some data => Ok data
      | None => Raise FileNotFoundError
      end
  end.

(** [Filesystem.range_request]: the cache in front of [_range_request]
    returns what the request returned before for the same file, start and
    offset. *)
Definition range_request (fs : Filesystem) (start offset : Z) : result bytes :=
  _range_request fs start offset.

(** ** Partial reads: [aiocogeo/partial_reads.py] *)

Section PartialReads.
Context `{Numpy}.

(** What the source uses of an image file directory ([ImageIFD],
    [MaskIFD]): the offset and byte-count tables of its tiles, the number
    of tiles per row and per column, and the two decoders. *)
Record IFD : Type := mk_IFD {
  TileOffsets : list Z;
  TileByteCounts : list Z;
  tile_count : Z * Z;
  _decompress : bytes -> result array;
  _decompress_mask : bytes -> result mask2d
}.

Record TileMetadata : Type := mk_TileMetadata {
  tlx : Z;
  tly : Z;
  width : Z;
  height : Z;
  tile_width : Z;
  tile_height : Z;
  xmin : Z;
  ymin : Z;
  xmax : Z;
  ymax : Z;
  bands : Z;
  dtype_ : dtype;
  ovr_level : Z;
  x_coord : list Q;
  y_coord : list Q
}.

(** The abstract members of [PartialReadBase] that the methods below
    call, and the attributes of the reader that [PartialReadInterface]
    reads. *)
Record PartialReadBase : Type := mk_PartialReadBase {
  is_masked : bool;
  nodata : option Z;
  get_tile : Z -> Z -> Z -> result array
}.

Record PartialReadInterface : Type := mk_PartialReadInterface {
  base :> PartialReadBase;
  ifds : list IFD;
  mask_ifds : list IFD;
  _file_reader : Filesystem
}.

Definition _add_mask (self : PartialReadBase) : bool :=
  if is_masked self then true
  else match nodata self with
       | Some _ => true
       | None => false
       end.

Definition _init_array (self : PartialReadBase) (img_tiles : TileMetadata)
  : result array :=
  fused <- np_zeros
             (bands img_tiles,
              (ymax img_tiles + 1 - ymin img_tiles) * tile_height img_tiles,
              (xmax img_tiles + 1 - xmin img_tiles) * tile_width img_tiles)%Z ;;
  let fused := astype fused (dtype_ img_tiles) in
  Ok (if _add_mask self then masked_array fused else fused).

Definition _stitch_image_tile (arr fused_arr : array) (idx idy : Z)
    (tile_width tile_height : Z) : result array :=
  let '(ylo, yhi) :=
    Py.slice_indices (idy * tile_height) ((idy + 1) * tile_height)
      (nrows fused_arr) in
  let '(xlo, xhi) :=
    Py.slice_indices (idx * tile_width) ((idx + 1) * tile_width)
      (ncols fused_arr) in
  fused_arr <- setitem fused_arr ylo yhi xlo xhi arr ;;
  if is_masked_array arr
  then setitem_mask fused_arr ylo yhi xlo xhi arr
  else Ok fused_arr.

Definition _get_and_stitch_tile (self : PartialReadBase) (xtile ytile : Z)
    (idx idy : Z) (img_tiles : TileMetadata) (fused_arr : array)
  : result array :=
  tile <- get_tile self xtile ytile (ovr_level img_tiles) ;;
  _stitch_image_tile tile fused_arr idx idy
    (tile_width img_tiles) (tile_height img_tiles).

(** [await asyncio.gather] over tasks that write into one buffer: the
    tasks run in the order of their creation; the first exception ends
    the wait and is the one the caller sees. *)
Fixpoint gather (tasks : list (array -> result array)) (arr : array)
  : result array :=
  match tasks with
  | [] => Ok arr
  | task :: tasks' => arr' <- task arr ;; gather tasks' arr'
  end.

(** [enumerate(range(a, b + 1))], the positions as integers *)
Definition enumerate_range (a b : Z) : list (Z * Z) :=
  map (fun p => (Z.of_nat (fst p), snd p)) (Py.enumerate (Py.range a (b + 1))).

Definition _request_tiles (self : PartialReadBase) (img_tiles : TileMetadata)
  : result array :=
  img_arr <- _init_array self img_tiles ;;
  let tile_tasks :=
    flat_map
      (fun '(idx, xtile) =>
         map (fun '(idy, ytile) =>
                _get_and_stitch_tile self xtile ytile idx idy img_tiles)
             (enumerate_range (ymin img_tiles) (ymax img_tiles)))
      (enumerate_range (xmin img_tiles) (xmax img_tiles)) in
  gather tile_tasks img_arr.

Definition _clip_array (arr : array) (img_tiles : TileMetadata) : array :=
  getitem_slices arr
    (tly img_tiles) (tly img_tiles + height img_tiles)
    (tlx img_tiles) (tlx img_tiles + width img_tiles).

(** [_resample] hands the clipped array to PIL; it is a parameter here. *)
Definition _postprocess
    (_resample : array -> TileMetadata -> Z * Z -> Z -> result array)
    (arr : array) (img_tiles : TileMetadata) (out_shape : option (Z * Z))
    (resample_method : Z) : result array :=
  let clipped := _clip_array arr img_tiles in
  match out_shape with
  | None => Ok clipped
  | Some out_shape => _resample clipped img_tiles out_shape resample_method
  end.

Definition _extract_tile (ifd : IFD) (img_bytes : bytes) (tile_index : Z)
    (offset : Z) : result bytes :=
  byte_count <- Py.getitem (TileByteCounts ifd) tile_index ;;
  tile_offset <- Py.getitem (TileOffsets ifd) tile_index ;;
  let tile_start := (tile_offset - offset)%Z in
  Ok (Py.slice img_bytes tile_start (tile_start + byte_count)).

Definition _merge_range_requests (ifd : IFD) (tile_indices : list Z)
    (offset : Z) : result (Z * Z) :=
  last <- Py.max tile_indices ;;
  last_offset <- Py.getitem (TileOffsets ifd) last ;;
  last_count <- Py.getitem (TileByteCounts ifd) last ;;
  let byte_count := (last_offset + last_count)%Z in
  Ok (offset, (byte_count - offset - 1)%Z).

(** The start of the merged range of a row and the arguments of its
    range request: [offset = ifd.TileOffsets[min(tile_indices)]] and
    [_merge_range_requests(ifd, tile_indices, offset)]. *)
Definition row_request (ifd : IFD) (tile_indices : list Z)
  : result (Z * (Z * Z)) :=
  first <- Py.min tile_indices ;;
  offset <- Py.getitem (TileOffsets ifd) first ;;
  rng <- _merge_range_requests ifd tile_indices offset ;;
  Ok (offset, rng).

(** [np.ma.masked_array(decoded,
       np.invert(np.broadcast_to(mask_decoded, decoded.shape)))] *)
Definition attach_mask (decoded : array) (mask_decoded : mask2d)
  : result array :=
  m <- broadcast_to mask_decoded (shape decoded) ;;
  Ok (masked_array_with decoded (invert m)).

(** The body of the loop of [_request_merged_tile] up to the stitch: the
    tile [tile_idx] cut out of the response and decoded, with its mask
    when the array carries one.  [mask_part] is the mask directory, the
    response of its range request and the start of that range. *)
Definition merged_tile (ifd : IFD) (response0 : bytes) (offset : Z)
    (mask_part : option (IFD * bytes * Z)) (tile_idx : Z) : result array :=
  tile_bytes <- _extract_tile ifd response0 tile_idx offset ;;
  decoded <- _decompress ifd tile_bytes ;;
  match mask_part with
  | None => Ok decoded
  | Some (mask_ifd, response1, mask_offset) =>
      mask_bytes <- _extract_tile mask_ifd response1 tile_idx mask_offset ;;
      mask_decoded <- _decompress_mask ifd mask_bytes ;;
      attach_mask decoded mask_decoded
  end.

Definition _request_merged_tile (self : PartialReadInterface) (arr : array)
    (indices : list (Z * Z * Z)) (img_tiles : TileMetadata) : result array :=
  let tile_indices := map (fun i => fst (fst i)) indices in
  ifd <- Py.getitem (ifds self) (ovr_level img_tiles) ;;
  '(offset, (start, len)) <- row_request ifd tile_indices ;;
  mask_request <-
    (if _add_mask self then
       mask_ifd <- Py.getitem (mask_ifds self) (ovr_level img_tiles) ;;
       r <- row_request mask_ifd tile_indices ;;
       Ok (Some (mask_ifd, r))
     else Ok None) ;;
  response0 <- range_request (_file_reader self) start len ;;
  mask_part <-
    match mask_request with
    | None => Ok None
    | Some (mask_ifd, (mask_offset, (mask_start, mask_len))) =>
        response1 <- range_request (_file_reader self) mask_start mask_len ;;
        Ok (Some (mask_ifd, response1, mask_offset))
    end ;;
  gather
    (map (fun '(tile_idx, idx, idy) => fun arr =>
            decoded <- merged_tile ifd response0 offset mask_part tile_idx ;;
            _stitch_image_tile decoded arr idx idy
              (tile_width img_tiles) (tile_height img_tiles))
         indices)
    arr.

(** The [indices] of the row [ytile], placed at row [idy] of the mosaic. *)
Definition row_indices (ifd : IFD) (img_tiles : TileMetadata) (idy ytile : Z)
  : list (Z * Z * Z) :=
  map (fun '(idx, xtile) =>
         ((ytile * fst (tile_count ifd) + xtile)%Z, idx, idy))
      (enumerate_range (xmin img_tiles) (xmax img_tiles)).

Definition _request_merged_tiles (self : PartialReadInterface)
    (img_tiles : TileMetadata) : result array :=
  ifd <- Py.getitem (ifds self) (ovr_level img_tiles) ;;
  img_arr <- _init_array self img_tiles ;;
  let futures :=
    map (fun '(idy, ytile) => fun arr =>
           _request_merged_tile self arr
             (row_indices ifd img_tiles idy ytile) img_tiles)
        (enumerate_range (ymin img_tiles) (ymax img_tiles)) in
  gather futures img_arr.

(** Modelled from the spec: [get_tile] is abstract in [PartialReadBase]
    and its implementation is not part of the source at hand.  The spec
    has the per-tile mode "fetch that tile's exact byte range via the
    storage collaborator, decode via the format collaborator", with the
    flat tile index [row * tile_grid_width + col] and a range request
    [fetch_range(start, length_minus_one)]; a tile of a source with an
    internal mask carries "the logical complement of the decoded mask
    bytes", read from the mask directory of the level. *)
Definition get_tile_spec (self : PartialReadInterface) (x y z : Z)
  : result array :=
  ifd <- Py.getitem (ifds self) z ;;
  let tile_index := (y * fst (tile_count ifd) + x)%Z in
  tile_offset <- Py.getitem (TileOffsets ifd) tile_index ;;
  byte_count <- Py.getitem (TileByteCounts ifd) tile_index ;;
  mask_request <-
    (if is_masked self then
       mask_ifd <- Py.getitem (mask_ifds self) z ;;
       mask_offset <- Py.getitem (TileOffsets mask_ifd) tile_index ;;
       mask_count <- Py.getitem (TileByteCounts mask_ifd) tile_index ;;
       Ok (Some (mask_offset, mask_count))
     else Ok None) ;;
  tile_bytes <- range_request (_file_reader self) tile_offset (byte_count - 1) ;;
  decoded <- _decompress ifd tile_bytes ;;
  match mask_request with
  | None => Ok decoded
  | Some (mask_offset, mask_count) =>
      mask_bytes <-
        range_request (_file_reader self) mask_offset (mask_count - 1) ;;
      mask_decoded <- _decompress_mask ifd mask_bytes ;;
      attach_mask decoded mask_decoded
  end.

(** The per-tile reader of the spec: [self] with [get_tile_spec] as its
    [get_tile]. *)
Definition per_tile_reader (self : PartialReadInterface) : PartialReadBase :=
  {| is_masked := is_masked self;
     nodata := nodata self;
     get_tile := get_tile_spec self |}.

End PartialReads.

(** ** Notions used to state and prove the properties *)

Section Observations.
Context `{Numpy}.

(** The mask bit of a masked array at an index. *)
Definition mask_at (a : array) (k y x : nat) : option bool :=
  option_map (fun m => m k y x) (mask a).

(** Two arrays are the same when they agree on element type, shape,
    values and mask. *)
Definition same_array (a b : array) : Prop :=
  dtype_of a = dtype_of b /\ shape a = shape b
  /\ data_tolist a = data_tolist b /\ mask_tolist a = mask_tolist b.

(** Two calls agree when both raise or both return the same array. *)
Definition result_equiv (r1 r2 : result array) : Prop :=
  match r1, r2 with
  | Ok a, Ok b => same_array a b
  | Raise _, Raise _ => True
  | _, _ => False
  end.

(** What a stitch leaves unchanged in the mosaic buffer: its element
    type, its shape and whether it is masked. *)
Definition frame : Type := (dtype * nat * nat * nat * bool)%type.

Definition frame_of (a : array) : frame :=
  (dtype_of a, nbands a, nrows a, ncols a,
   match mask a with Some _ => true | None => false end).

(** A tile to stitch at position [(tk_idx, tk_idy)] of the tile range. *)
Record tile_task : Type := mk_tile_task {
  tk_tile : result array;
  tk_idx : Z;
  tk_idy : Z
}.

Definition run_task (tile_width tile_height : Z) (k : tile_task)
    (arr : array) : result array :=
  tile <- tk_tile k ;;
  _stitch_image_tile tile arr (tk_idx k) (tk_idy k) tile_width tile_height.

(** The rows and the columns of the slot of a task in a buffer of [h]
    rows and [w] columns. *)
Definition slot_rows (tile_height : Z) (h : nat) (k : tile_task) : nat * nat :=
  Py.slice_indices (tk_idy k * tile_height) ((tk_idy k + 1) * tile_height) h.

Definition slot_cols (tile_width : Z) (w : nat) (k : tile_task) : nat * nat :=
  Py.slice_indices (tk_idx k * tile_width) ((tk_idx k + 1) * tile_width) w.

Definition covers (tile_width tile_height : Z) (f : frame) (k : tile_task)
    (y x : nat) : bool :=
  let '(_, _, h, w, _) := f in
  in_region (fst (slot_rows tile_height h k)) (snd (slot_rows tile_height h k))
            (fst (slot_cols tile_width w k)) (snd (slot_cols tile_width w k))
            y x.

(** The value and the mask bit that the stitch of tile [t] by task [k]
    writes at an index of its slot. *)
Definition written (tile_width tile_height : Z) (f : frame) (k : tile_task)
    (t : array) (b y x : nat) : elt * option bool :=
  let '(dt, nb, h, w, masked) := f in
  let '(ylo, yhi) := slot_rows tile_height h k in
  let '(xlo, xhi) := slot_cols tile_width w k in
  (cast dt (data t (bcast (nbands t) nb b)
                   (bcast (nrows t) (yhi - ylo) (y - ylo))
                   (bcast (ncols t) (xhi - xlo) (x - xlo))),
   if masked
   then Some (mask_bits t nb (yhi - ylo) (xhi - xlo) b (y - ylo) (x - xlo))
   else None).

(** The stitch of tile [t] by task [k] into a buffer of frame [f] goes
    through. *)
Definition stitch_ok (tile_width tile_height : Z) (f : frame) (k : tile_task)
    (t : array) : bool :=
  let '(_, nb, h, w, masked) := f in
  let '(ylo, yhi) := slot_rows tile_height h k in
  let '(xlo, xhi) := slot_cols tile_width w k in
  fits t nb (yhi - ylo) (xhi - xlo) && (negb (is_masked_array t) || masked).

Definition obs (a : array) (b y x : nat) : elt * option bool :=
  (data a b y x, mask_at a b y x).

(** The tasks of the per-tile mode, in the order of their creation. *)
Definition per_tile_tasks (self : PartialReadBase) (img_tiles : TileMetadata)
  : list tile_task :=
  flat_map
    (fun '(idx, xtile) =>
       map (fun '(idy, ytile) =>
              {| tk_tile := get_tile self xtile ytile (ovr_level img_tiles);
                 tk_idx := idx; tk_idy := idy |})
           (enumerate_range (ymin img_tiles) (ymax img_tiles)))
    (enumerate_range (xmin img_tiles) (xmax img_tiles)).

(** The same tiles in the order of the merged mode: row after row. *)
Definition row_major_tasks (self : PartialReadBase) (img_tiles : TileMetadata)
  : list tile_task :=
  flat_map
    (fun '(idy, ytile) =>
       map (fun '(idx, xtile) =>
              {| tk_tile := get_tile self xtile ytile (ovr_level img_tiles);
                 tk_idx := idx; tk_idy := idy |})
           (enumerate_range (xmin img_tiles) (xmax img_tiles)))
    (enumerate_range (ymin img_tiles) (ymax img_tiles)).

(** The tiles of a row lie in the file between the start of the tile of
    lowest index and the end of the tile of highest index: every offset
    and byte count is found, the first offset is not negative, no byte
    count is negative and every tile starts at or after the first offset
    and ends at or before the end of the last tile. *)
Definition row_in_order (ifd : IFD) (tile_indices : list Z) : bool :=
  match row_request ifd tile_indices with
  | Ok (offset, (_, len)) =>
      (0 <=? offset)%Z
      && forallb
           (fun i =>
              match Py.getitem (TileOffsets ifd) i,
                    Py.getitem (TileByteCounts ifd) i with
              | Ok o, Ok c =>
                  (offset <=? o)%Z && (0 <=? c)%Z
                  && (o + c <=? offset + len + 1)%Z
              | _, _ => false
              end)
           tile_indices
  | Raise _ => false
  end.

(** The flat tile indices of row [ytile] of a request. *)
Definition row_tile_indices (ifd : IFD) (img_tiles : TileMetadata) (ytile : Z)
  : list Z :=
  map (fun xtile => (ytile * fst (tile_count ifd) + xtile)%Z)
      (Py.range (xmin img_tiles) (xmax img_tiles + 1)).

(** The layout that merged range requests rely on, for a request: at its
    overview level there is a directory (and a mask directory when the
    source has an internal mask) whose tiles are in order in every
    requested row. *)
Definition request_in_order (self : PartialReadInterface)
    (img_tiles : TileMetadata) : Prop :=
  exists ifd,
    Py.getitem (ifds self) (ovr_level img_tiles) = Ok ifd
    /\ (forall ytile,
          (ymin img_tiles <= ytile <= ymax img_tiles)%Z ->
          row_in_order ifd (row_tile_indices ifd img_tiles ytile) = true)
    /\ (is_masked self = true ->
        exists mask_ifd,
          Py.getitem (mask_ifds self) (ovr_level img_tiles) = Ok mask_ifd
          /\ forall ytile,
               (ymin img_tiles <= ytile <= ymax img_tiles)%Z ->
               row_in_order mask_ifd (row_tile_indices ifd img_tiles ytile)
               = true).

End Observations.

(** A storage serves a file when each of its range requests returns the
    bytes of that file at the requested positions. *)
Definition serves (fs : Filesystem) (file : bytes) : Prop :=
  forall start offset : Z,
    (0 <= start)%Z -> (0 <= offset + 1)%Z ->
    range_request fs start offset
    = Ok (firstn (Z.to_nat (offset + 1)) (skipn (Z.to_nat start) file)).

(** ** Where the failure of a partial read comes from *)

Section Failures.
Context `{Numpy}.

(** The exception [e] of a per-tile read is the one raised by the
    allocation of the buffer or by the task of one tile of the request. *)
Definition raised_in_request_tiles (self : PartialReadBase)
    (img_tiles : TileMetadata) (e : exn) : Prop :=
  _init_array self img_tiles = Raise e
  \/ exists idx xtile idy ytile arr,
       In (idx, xtile) (enumerate_range (xmin img_tiles) (xmax img_tiles))
       /\ In (idy, ytile) (enumerate_range (ymin img_tiles) (ymax img_tiles))
       /\ _get_and_stitch_tile self xtile ytile idx idy img_tiles arr
          = Raise e.

(** The exception [e] of a merged-range read is the one raised by the
    lookup of the directory, by the allocation of the buffer or by the
    task of one row of the request. *)
Definition raised_in_request_merged_tiles (self : PartialReadInterface)
    (img_tiles : TileMetadata) (e : exn) : Prop :=
  Py.getitem (ifds self) (ovr_level img_tiles) = Raise e
  \/ _init_array self img_tiles = Raise e
  \/ exists ifd idy ytile arr,
       Py.getitem (ifds self) (ovr_level img_tiles) = Ok ifd
       /\ In (idy, ytile) (enumerate_range (ymin img_tiles) (ymax img_tiles))
       /\ _request_merged_tile self arr
            (row_indices ifd img_tiles idy ytile) img_tiles = Raise e.

End Failures.

(** ** A small file, for examples

    One band of 8-bit pixels in tiles of 2 by 2 pixels, a grid of 2 by 2
    tiles, one byte per pixel and one byte per mask bit; the four image
    tiles are stored first, the four mask tiles after them. *)
Module Example.

Inductive pixel_type : Type := uint8 | f64.

#[export] Instance numpy : Numpy :=
  {| dtype := pixel_type;
     elt := Z;
     float64 := f64;
     zero := 0%Z;
     cast := fun dt v => match dt with
                         | uint8 => (v mod 256)%Z
                         | f64 => v
                         end |}.

Definition byte_of (n : N) : byte :=
  match Byte.of_N n with Some b => b | None => x00 end.

Definition pixel_of (b : byte) : Z := Z.of_N (Byte.to_N b).

Definition decode (tile : bytes) : result array :=
  if (length tile =? 4)%nat then
    Ok {| dtype_of := uint8; nbands := 1; nrows := 2; ncols := 2;
          data := fun _ y x => pixel_of (nth (2 * y + x) tile x00);
          mask := None |}
  else Raise DecodeError.

Definition decode_mask (tile : bytes) : result mask2d :=
  if (length tile =? 4)%nat then
    Ok {| mrows := 2; mcols := 2;
          mbit := fun y x => negb (pixel_of (nth (2 * y + x) tile x00) =? 0)%Z |}
  else Raise DecodeError.

Definition file : bytes :=
  map byte_of
    [11; 12; 13; 14;  21; 22; 23; 24;  31; 32; 33; 34;  41; 42; 43; 44;
     1; 1; 1; 0;  1; 1; 1; 1;  0; 0; 1; 1;  1; 0; 1; 0]%N.

Definition image_ifd : IFD :=
  {| TileOffsets := [0; 4; 8; 12]%Z;
     TileByteCounts := [4; 4; 4; 4]%Z;
     tile_count := (2, 2)%Z;
     _decompress := decode;
     _decompress_mask := decode_mask |}.

Definition mask_ifd : IFD :=
  {| TileOffsets := [16; 20; 24; 28]%Z;
     TileByteCounts := [4; 4; 4; 4]%Z;
     tile_count := (2, 2)%Z;
     _decompress := decode;
     _decompress_mask := decode_mask |}.

(** A directory of one row of three tiles over the same file, the tile
    of index 1 stored before the two others. *)
Definition shuffled_ifd : IFD :=
  {| TileOffsets := [8; 0; 12]%Z;
     TileByteCounts := [4; 4; 4]%Z;
     tile_count := (3, 1)%Z;
     _decompress := decode;
     _decompress_mask := decode_mask |}.

Definition reader (masked : bool) (ifd : IFD) (fs : Filesystem)
  : PartialReadInterface :=
  {| base := {| is_masked := masked; nodata := None;
                get_tile := fun _ _ _ => Raise FileNotFoundError |};
     ifds := [ifd];
     mask_ifds := if masked then [mask_ifd] else [];
     _file_reader := fs |}.

(** The request of the whole grid, and of a row of three tiles. *)
Definition whole_grid : TileMetadata :=
  {| tlx := 1; tly := 0; width := 2; height := 3;
     tile_width := 2; tile_height := 2;
     xmin := 0; ymin := 0; xmax := 1; ymax := 1;
     bands := 1; dtype_ := uint8; ovr_level := 0;
     x_coord := []; y_coord := [] |}.

Definition row_of_three : TileMetadata :=
  {| tlx := 0; tly := 0; width := 6; height := 2;
     tile_width := 2; tile_height := 2;
     xmin := 0; ymin := 0; xmax := 2; ymax := 0;
     bands := 1; dtype_ := uint8; ovr_level := 0;
     x_coord := []; y_coord := [] |}.

(** A mosaic of 4 rows and 4 columns whose element at row [y], column
    [x] is [4 * y + x]. *)
Definition ramp : array :=
  {| dtype_of := uint8; nbands := 1; nrows := 4; ncols := 4;
     data := fun _ y x => Z.of_nat (4 * y + x);
     mask := None |}.

Definition tolists (r : result array)
  : result (list (list (list Z)) * option (list (list (list bool)))) :=
  a <- r ;; Ok (data_tolist a, mask_tolist a).

End Example.

(** ** The selection rule of the overview level, as stated

    Level [i] qualifies for a target resolution when the target is above
    the threshold between level [i] and the finer level [i - 1], or equal
    to the resolution of level [i]. *)
Definition level_qualifies (res : list Q) (target : Q) (p : Z) (i : nat) : Prop :=
  nth i res 0 - (nth i res 0 - nth (i - 1) res 0) * (inject_Z p / 100) < target
  \/ target == nth i res 0.

(** Every level is at least as coarse as the level before it. *)
Definition nondecreasing (res : list Q) : Prop :=
  forall i, (1 <= i < length res)%nat -> nth (i - 1) res 0 <= nth i res 0.

(** ** Geometry of a partial read: [PartialReadBase._calculate_image_tiles] *)

(** The [affine] package: the transform [(a, b, c, d, e, f)] maps [(x, y)]
    to [(a x + b y + c, d x + e y + f)]; [~t] is its inverse and raises
    [TransformNotInvertibleError] when the determinant is zero. *)
Record Affine : Type := mk_Affine {
  af_a : Q; af_b : Q; af_c : Q;
  af_d : Q; af_e : Q; af_f : Q
}.

Definition affine_apply (t : Affine) (p : Q * Q) : Q * Q :=
  (fst p * af_a t + snd p * af_b t + af_c t,
   fst p * af_d t + snd p * af_e t + af_f t).

Definition determinant (t : Affine) : Q := af_a t * af_e t - af_b t * af_d t.

(** [~t], [None] standing for [TransformNotInvertibleError]. *)
Definition affine_invert (t : Affine) : option Affine :=
  if Qeq_bool (determinant t) 0 then None
  else
    let idet := / determinant t in
    let ra := af_e t * idet in
    let rb := - af_b t * idet in
    let rd := - af_d t * idet in
    let re := af_a t * idet in
    Some {| af_a := ra; af_b := rb; af_c := - af_c t * ra - af_f t * rb;
            af_d := rd; af_e := re; af_f := - af_c t * rd - af_f t * re |}.

(** [round(x)] to an integer: to the nearest one, a half to the even one. *)
Definition py_round (x : Q) : Z :=
  let f := Qfloor x in
  let r := x - inject_Z f in
  if Qlt_bool r (1 # 2) then f
  else if Qlt_bool (1 # 2) r then (f + 1)%Z
  else if Z.even f then f else (f + 1)%Z.

(** What a call of [_calculate_image_tiles] ends in: the metadata, a
    built-in exception, or the exception of the [affine] package. *)
Inductive geometry (A : Type) : Type :=
| Computed (a : A)
| Raised (e : exn)
| TransformNotInvertibleError.

Arguments Computed {A} a.
Arguments Raised {A} e.
Arguments TransformNotInvertibleError {A}.

Section Geometry.
Context `{Numpy}.

(** [geotransform] is [self.geotransform(ovr_level)]. *)
Definition _calculate_image_tiles (geotransform : Affine) (bounds : bbox)
    (tile_width tile_height : Z) (band_count : Z) (ovr_level : Z)
    (dtype : dtype) : geometry TileMetadata :=
  match affine_invert geotransform with
  | None => TransformNotInvertibleError
  | Some invgt =>
      let '(tlx, tly) := affine_apply invgt (b0 bounds, b3 bounds) in
      let '(brx, bry) := affine_apply invgt (b2 bounds, b1 bounds) in
      match calculate_tiles tlx tly brx bry tile_width tile_height with
      | Raise e => Raised e
      | Ok (xmin, xmax, ymax, ymin) =>
          let tile_bounds0 := inject_Z (xmin * tile_width) in
          let tile_bounds1 := inject_Z (ymin * tile_height) in
          let '(_tlx, _tly) :=
            affine_apply geotransform (tile_bounds0, tile_bounds1) in
          let fused_gt :=
            {| af_a := af_a geotransform; af_b := af_b geotransform;
               af_c := _tlx;
               af_d := af_d geotransform; af_e := af_e geotransform;
               af_f := _tly |} in
          match affine_invert fused_gt with
          | None => TransformNotInvertibleError
          | Some inv_fused_gt =>
              let origin := affine_apply inv_fused_gt (b0 bounds, b3 bounds) in
              let xorigin := py_round (fst origin) in
              let yorigin := py_round (snd origin) in
              let width := py_round (brx - tlx) in
              let height := py_round (bry - tly) in
              Computed
                {| tlx := xorigin; tly := yorigin;
                   width := width; height := height;
                   tile_width := tile_width; tile_height := tile_height;
                   xmin := xmin; ymin := ymin; xmax := xmax; ymax := ymax;
                   bands := band_count; dtype_ := dtype;
                   ovr_level := ovr_level;
                   x_coord :=
                     map (fun q => _tlx + (inject_Z xorigin + (1 # 2)
                                           + inject_Z q) * af_a geotransform)
                         (Py.range 0 width);
                   y_coord :=
                     map (fun q => _tly + (inject_Z yorigin + (1 # 2)
                                           + inject_Z q) * af_e geotransform)
                         (Py.range 0 height) |}
          end
      end
  end.

End Geometry.

(** ** The read cursor of a [Filesystem]: [read], [incr], [seek], [tell] *)

(** The attributes that the cursor uses: the bytes held, the offset into
    them and the byte order mark. *)
Record Cursor : Type := mk_Cursor {
  cur_data : bytes;
  _offset : Z;
  _endian : String.string
}.

(** The byte order mark ["<"] of a little-endian file. *)
Definition byte_order_little : String.string :=
  String.String (Ascii.ascii_of_nat 60) String.EmptyString.

(** [int.from_bytes(data, "little")] and [int.from_bytes(data, "big")],
    unsigned. *)
Fixpoint from_bytes_little (data : bytes) : Z :=
  match data with
  | [] => 0
  | b :: data' => Z.of_N (Byte.to_N b) + 256 * from_bytes_little data'
  end%Z.

Definition from_bytes_big (data : bytes) : Z := from_bytes_little (rev data).

(** What [read] returns: an integer when [cast_to_int], the bytes otherwise. *)
Inductive read_value : Type :=
| ReadInt (n : Z)
| ReadBytes (data : bytes).

Definition incr (self : Cursor) (offset : Z) : Cursor :=
  {| cur_data := cur_data self;
     _offset := _offset self + offset;
     _endian := _endian self |}.

Definition seek (self : Cursor) (offset : Z) : Cursor :=
  {| cur_data := cur_data self; _offset := offset; _endian := _endian self |}.

Definition tell (self : Cursor) : Z := _offset self.

Definition read (self : Cursor) (offset : Z) (cast_to_int : bool)
  : read_value * Cursor :=
  let data :=
    Py.slice (cur_data self) (_offset self) (_offset self + offset) in
  let self' := incr self offset in
  let little := String.eqb (_endian self) byte_order_little in
  (if cast_to_int
   then ReadInt (if little then from_bytes_little data else from_bytes_big data)
   else ReadBytes data,
   self').

(** ** The request counters of [LocalFilesystem._range_request] *)

Record Counters : Type := mk_Counters {
  _total_bytes_requested : Z;
  _total_requests : Z;
  _requested_ranges : list (Z * Z)
}.

(** The counters that [__post_init__] sets. *)
Definition post_init : Counters :=
  {| _total_bytes_requested := 0; _total_requests := 0;
     _requested_ranges := [] |}.

(** [LocalFilesystem._range_request] with its counters: the bytes read,
    then the three updates. *)
Definition local_range_request (file : bytes) (c : Counters) (start offset : Z)
  : result (bytes * Counters) :=
  data <- seek_read file start (offset + 1) ;;
  Ok (data,
      {| _total_bytes_requested := _total_bytes_requested c + (offset - start + 1);
         _total_requests := _total_requests c + 1;
         _requested_ranges := _requested_ranges c ++ [(start, (start + offset)%Z)] |}).

(** A sequence of range requests on one local file, each one starting from
    the counters that the one before left. *)
Fixpoint local_range_requests (file : bytes) (c : Counters)
    (requests : list (Z * Z)) : result (list bytes * Counters) :=
  match requests with
  | [] => Ok ([], c)
  | (start, offset) :: requests' =>
      '(data, c') <- local_range_request file c start offset ;;
      '(rest, c'') <- local_range_requests file c' requests' ;;
      Ok (data :: rest, c'')
  end.

(** ** Further notions for the properties *)

(** The sum of a list of integers. *)
Definition sum_list (l : list Z) : Z := fold_right Z.add 0%Z l.

(** Examples for the geometry and the cursor. *)
Module GeoExample.

(** A north-up geotransform with pixels of 10 units, origin [(100, 900)]. *)
Definition north_up : Affine :=
  {| af_a := 10; af_b := 0; af_c := 100; af_d := 0; af_e := -(10); af_f := 900 |}.

Definition cursor : Cursor :=
  {| cur_data := map Example.byte_of [1; 2; 3; 4]%N;
     _offset := 0; _endian := byte_order_little |}.

End GeoExample.

(** Tiles for the examples of the stitch. *)
Module TileExample.
Import Example.

(** A plain tile of 2 by 2 pixels. *)
Definition tile : array :=
  {| dtype_of := Example.uint8; nbands := 1; nrows := 2; ncols := 2;
     data := fun _ y x => Z.of_nat (100 + 2 * y + x);
     mask := None |}.

(** The same tile with its first pixel masked. *)
Definition masked_tile : array :=
  {| dtype_of := Example.uint8; nbands := 1; nrows := 2; ncols := 2;
     data := fun _ y x => Z.of_nat (100 + 2 * y + x);
     mask := Some (fun _ y x => (y =? 0)%nat && (x =? 0)%nat) |}.

(** A request with two rows and no column. *)
Definition no_column : TileMetadata :=
  {| tlx := 0; tly := 0; width := 0; height := 4;
     tile_width := 2; tile_height := 2;
     xmin := 0; ymin := 0; xmax := -1; ymax := 1;
     bands := 1; dtype_ := uint8; ovr_level := 0;
     x_coord := []; y_coord := [] |}.

(** A window of 3 rows and 5 columns at row 3, column 2: it reaches past
    the last row and column of a mosaic of 4 by 4 pixels. *)
Definition overhang : TileMetadata :=
  {| tlx := 2; tly := 3; width := 5; height := 3;
     tile_width := 2; tile_height := 2;
     xmin := 0; ymin := 0; xmax := 1; ymax := 1;
     bands := 1; dtype_ := uint8; ovr_level := 0;
     x_coord := []; y_coord := [] |}.

End TileExample.

(** * Properties *)

(** ** Rational comparisons *)

Lemma Qlt_bool_iff (x y : Q) : Qlt_bool x y = true <-> x < y.
Proof.
  unfold Qlt_bool. rewrite negb_true_iff.
  split; intro Hxy.
  - destruct (Qlt_le_dec x y) as [Hlt | Hle]; [assumption |].
    apply Qle_bool_iff in Hle. congruence.
  - destruct (Qle_bool y x) eqn:E; [| reflexivity].
    apply Qle_bool_iff in E. exfalso. apply (Qlt_not_le _ _ Hxy E).
Qed.

Lemma Qlt_bool_false_iff (x y : Q) : Qlt_bool x y = false <-> y <= x.
Proof.
  unfold Qlt_bool. rewrite negb_false_iff. apply Qle_bool_iff.
Qed.

(** ** Bounding boxes *)

(** C10. The intersection test holds exactly when the four strict
    inequalities hold, so two boxes that share only an edge or a corner
    (one of the four pairs of opposite sides coincides) do not intersect. *)
Theorem intersect_bounds_strict (read_bounds cog_bounds : bbox) :
  (_intersect_bounds read_bounds cog_bounds = true <->
     b0 cog_bounds < b2 read_bounds /\ b2 cog_bounds > b0 read_bounds /\
     b3 cog_bounds > b1 read_bounds /\ b1 cog_bounds < b3 read_bounds)
  /\ (b2 cog_bounds == b0 read_bounds \/ b0 cog_bounds == b2 read_bounds \/
      b3 cog_bounds == b1 read_bounds \/ b1 cog_bounds == b3 read_bounds ->
      _intersect_bounds read_bounds cog_bounds = false).
Proof.
  assert (Hiff : _intersect_bounds read_bounds cog_bounds = true <->
     b0 cog_bounds < b2 read_bounds /\ b2 cog_bounds > b0 read_bounds /\
     b3 cog_bounds > b1 read_bounds /\ b1 cog_bounds < b3 read_bounds).
  { unfold _intersect_bounds.
    rewrite !andb_true_iff, !Qlt_bool_iff. tauto. }
  split; [exact Hiff |].
  intros Htouch.
  apply not_true_is_false. intro E. apply Hiff in E. destruct E as (H0 & H1 & H2 & H3).
  destruct Htouch as [Ht | [Ht | [Ht | Ht]]]; rewrite Ht in *;
    eapply Qlt_irrefl; eassumption.
Qed.

(** A box and its right-hand neighbour, sharing the edge [x = 1]. *)
Lemma intersect_bounds_strict_witness :
  _intersect_bounds (1, 0, 2, 1) (0, 0, 1, 1) = false.
Proof.
  apply (proj2 (intersect_bounds_strict (1, 0, 2, 1) (0, 0, 1, 1))).
  left. reflexivity.
Defined.

(** ** Tile indices *)

Lemma Qfloor_unique (x : Q) (k : Z) :
  inject_Z k <= x -> x < inject_Z (k + 1) -> Qfloor x = k.
Proof.
  intros Hle Hlt.
  assert (H1 : (k <= Qfloor x)%Z).
  { rewrite <- (Qfloor_Z k). apply Qfloor_resp_le. exact Hle. }
  assert (H2 : (Qfloor x < k + 1)%Z).
  { rewrite Zlt_Qlt. eapply Qle_lt_trans; [apply Qfloor_le | exact Hlt]. }
  lia.
Qed.

Lemma tile_index_boundary (tile_dim k : Z) :
  (0 < tile_dim)%Z ->
  tile_index (inject_Z (k * tile_dim)) tile_dim = Ok k.
Proof.
  intros Hpos. unfold tile_index.
  destruct (Z.eqb_spec tile_dim 0) as [-> | _]; [lia |].
  f_equal. apply Qfloor_unique.
  - assert (Hd : 0 < inject_Z tile_dim).
    { change 0 with (inject_Z 0). rewrite <- Zlt_Qlt. exact Hpos. }
    apply Qle_shift_div_l; [exact Hd |].
    rewrite inject_Z_mult. unfold epsilon. lra.
  - assert (Hd : inject_Z 1 <= inject_Z tile_dim).
    { rewrite <- Zle_Qle. lia. }
    apply Qlt_shift_div_r.
    + eapply Qlt_le_trans; [| exact Hd]. reflexivity.
    + rewrite inject_Z_mult, inject_Z_plus. unfold epsilon.
      change (inject_Z 1) with 1 in *. lra.
Qed.

(** C5. With a positive tile dimension, the pixel coordinate
    [k * tile_dim] of a tile boundary has tile index [k], for every integer
    [k]; so a request whose corners lie on tile boundaries gets exactly the
    tile indices of those boundaries. *)
Theorem tile_on_boundary (tile_width tile_height kx0 ky0 kx1 ky1 : Z) :
  (0 < tile_width)%Z -> (0 < tile_height)%Z ->
  tile_index (inject_Z (kx0 * tile_width)) tile_width = Ok kx0
  /\ calculate_tiles
       (inject_Z (kx0 * tile_width)) (inject_Z (ky0 * tile_height))
       (inject_Z (kx1 * tile_width)) (inject_Z (ky1 * tile_height))
       tile_width tile_height
     = Ok (kx0, kx1, ky1, ky0).
Proof.
  intros Hw Hh. split.
  - apply tile_index_boundary; assumption.
  - unfold calculate_tiles.
    rewrite !tile_index_boundary by assumption. reflexivity.
Qed.

(** The coordinate [3 * 256] with tiles of 256 pixels. *)
Lemma tile_on_boundary_witness :
  tile_index (inject_Z (3 * 256)) 256 = Ok 3%Z
  /\ calculate_tiles (inject_Z (3 * 256)) (inject_Z (5 * 256))
       (inject_Z (4 * 256)) (inject_Z (6 * 256)) 256 256
     = Ok (3, 4, 6, 5)%Z.
Proof.
  apply (tile_on_boundary 256 256 3 5 4 6); reflexivity.
Defined.

(** ** Overview selection *)

Section OverviewWalk.
Variables (res : list Q) (p : Z).

Lemma walk_step (t : Q) (m : nat) :
  overview_walk res t p (rev (seq 1 (S m))) =
  if Qlt_bool (nth (S m) res 0
               - (nth (S m) res 0 - nth (S m - 1) res 0) * (inject_Z p / 100)) t
     || Qeq_bool t (nth (S m) res 0)
  then S m
  else overview_walk res t p (rev (seq 1 m)).
Proof.
  rewrite seq_S, rev_app_distr. reflexivity.
Qed.

Lemma qualifies_reflect (t : Q) (i : nat) :
  Qlt_bool (nth i res 0 - (nth i res 0 - nth (i - 1) res 0) * (inject_Z p / 100)) t
  || Qeq_bool t (nth i res 0) = true
  <-> level_qualifies res t p i.
Proof.
  unfold level_qualifies.
  rewrite orb_true_iff, Qlt_bool_iff, Qeq_bool_iff. reflexivity.
Qed.

(** The walk over the levels [m, m - 1, ..., 1] returns the first one
    that qualifies, and 0 when none does. *)
Lemma walk_first (t : Q) (m : nat) :
  let r := overview_walk res t p (rev (seq 1 m)) in
  (r = 0%nat /\ forall i, (1 <= i <= m)%nat -> ~ level_qualifies res t p i)
  \/ ((1 <= r <= m)%nat /\ level_qualifies res t p r
      /\ forall j, (r < j <= m)%nat -> ~ level_qualifies res t p j).
Proof.
  induction m as [| m IH]; cbn zeta.
  - left. split; [reflexivity | intros i Hi; lia].
  - rewrite walk_step.
    destruct (Qlt_bool _ t || Qeq_bool t _) eqn:E.
    + right. split; [lia |]. split.
      * apply qualifies_reflect. exact E.
      * intros j Hj. lia.
    + assert (Hno : ~ level_qualifies res t p (S m)).
      { intro Hq. apply qualifies_reflect in Hq. congruence. }
      cbn zeta in IH. destruct IH as [[Hr Hall] | (Hr & Hq & Hall)].
      * left. split; [exact Hr |].
        intros i Hi. destruct (Nat.eq_dec i (S m)) as [-> | Hne];
          [exact Hno | apply Hall; lia].
      * right. split; [lia |]. split; [exact Hq |].
        intros j Hj. destruct (Nat.eq_dec j (S m)) as [-> | Hne];
          [exact Hno | apply Hall; lia].
Qed.

(** A level that qualifies for a target still qualifies for a coarser
    target, when the level is at least as coarse as the one before it. *)
Lemma qualifies_mono (t1 t2 : Q) (i : nat) :
  (0 <= p <= 100)%Z ->
  nth (i - 1) res 0 <= nth i res 0 ->
  t1 <= t2 ->
  level_qualifies res t1 p i -> level_qualifies res t2 p i.
Proof.
  intros Hp Hsorted Ht. unfold level_qualifies.
  set (c := nth i res 0) in *. set (h := nth (i - 1) res 0) in *.
  assert (Hq : 0 <= inject_Z p / 100).
  { apply Qle_shift_div_l; [reflexivity |].
    change (0 * 100) with (inject_Z 0). rewrite <- Zle_Qle. lia. }
  assert (Hthr : c - (c - h) * (inject_Z p / 100) <= c).
  { assert (0 <= (c - h) * (inject_Z p / 100))
      by (apply Qmult_le_0_compat; [lra | exact Hq]).
    lra. }
  intros [Hlt | Heq].
  - left. lra.
  - destruct (Qlt_le_dec (c - (c - h) * (inject_Z p / 100)) t2) as [Hgt | Hle].
    + left. exact Hgt.
    + right. rewrite Heq in Ht. lra.
Qed.

End OverviewWalk.

(** With a percentage in [0, 100] and a request of non-zero width and
    height, the selection is the walk over the levels, coarsest first. *)
Lemma get_overview_level_walk
    (src_res : Q) (overviews : list Z) (strategy : zoom_level_strategy)
    (bounds : bbox) (width height : Z) :
  (0 <= strategy_percentage strategy <= 100)%Z ->
  width <> 0%Z -> height <> 0%Z ->
  _get_overview_level src_res overviews strategy bounds width height
  = Ok (overview_walk (available_resolutions src_res overviews)
          (target_res bounds width) (strategy_percentage strategy)
          (rev (seq 1 (length (available_resolutions src_res overviews) - 1)))).
Proof.
  intros Hp Hw Hh. unfold _get_overview_level.
  destruct (Z.eqb_spec width 0) as [? | _]; [contradiction |].
  destruct (Z.eqb_spec height 0) as [? | _]; [contradiction |].
  cbn [orb].
  replace ((0 <=? strategy_percentage strategy)%Z
           && (strategy_percentage strategy <=? 100)%Z) with true
    by (symmetry; apply andb_true_iff; split; apply Z.leb_le; lia).
  reflexivity.
Qed.



(** C4, as stated, fails: with the overviews listed as 4 then 2 the
    resolutions are 1, 4, 2; the target 2 equals the resolution of level 2
    and selects it, while the coarser target 2.2 is below both thresholds
    (3 and 2.5) and selects level 0. *)
Lemma get_overview_level_not_monotone :
  ~ (forall (src_res : Q) (overviews : list Z) (strategy : zoom_level_strategy)
            (bounds1 bounds2 : bbox) (width1 height1 width2 height2 : Z),
        (0 <= strategy_percentage strategy <= 100)%Z ->
        width1 <> 0%Z -> height1 <> 0%Z -> width2 <> 0%Z -> height2 <> 0%Z ->
        target_res bounds1 width1 <= target_res bounds2 width2 ->
        forall l1 l2 : nat,
          _get_overview_level src_res overviews strategy bounds1 width1 height1
            = Ok l1 ->
          _get_overview_level src_res overviews strategy bounds2 width2 height2
            = Ok l2 ->
          (l1 <= l2)%nat).
Proof.
  intro Hmono.
  assert (Hle : (2 <= 0)%nat).
  { apply (Hmono 1 [4; 2]%Z AUTO (0, 0, 2, 2) (0, 0, 22, 22)
             1%Z 1%Z 10%Z 10%Z);
      try (simpl; lia); try discriminate; try reflexivity. }
  lia.
Qed.

(** C4, amended. For a percentage in [0, 100] and a list of available
    resolutions in which every level is at least as coarse as the level
    before it, the selection is monotonic in the target resolution: a finer
    target never selects a coarser level. *)
Theorem get_overview_level_monotone
    (src_res : Q) (overviews : list Z) (strategy : zoom_level_strategy)
    (bounds1 bounds2 : bbox) (width1 height1 width2 height2 : Z) :
  (0 <= strategy_percentage strategy <= 100)%Z ->
  width1 <> 0%Z -> height1 <> 0%Z -> width2 <> 0%Z -> height2 <> 0%Z ->
  nondecreasing (available_resolutions src_res overviews) ->
  target_res bounds1 width1 <= target_res bounds2 width2 ->
  exists l1 l2 : nat,
    _get_overview_level src_res overviews strategy bounds1 width1 height1 = Ok l1
    /\ _get_overview_level src_res overviews strategy bounds2 width2 height2
       = Ok l2
    /\ (l1 <= l2)%nat.
Proof.
  intros Hp Hw1 Hh1 Hw2 Hh2 Hsorted Ht.
  rewrite !get_overview_level_walk by assumption.
  set (res := available_resolutions src_res overviews) in *.
  set (p := strategy_percentage strategy) in *.
  assert (Hlen : (1 <= length res)%nat) by (unfold res; simpl; lia).
  eexists. eexists. split; [reflexivity |]. split; [reflexivity |].
  pose proof (walk_first res p (target_res bounds1 width1) (length res - 1))
    as W1.
  pose proof (walk_first res p (target_res bounds2 width2) (length res - 1))
    as W2.
  cbn zeta in W1, W2.
  set (l1 := overview_walk res (target_res bounds1 width1) p _) in *.
  set (l2 := overview_walk res (target_res bounds2 width2) p _) in *.
  destruct W1 as [[-> _] | (Hl1 & Hq1 & _)]; [lia |].
  assert (Hq2 : level_qualifies res (target_res bounds2 width2) p l1).
  { eapply qualifies_mono; [exact Hp | | exact Ht | exact Hq1].
    apply Hsorted. lia. }
  destruct (le_lt_dec l1 l2) as [Hle | Hgt]; [exact Hle |].
  exfalso.
  destruct W2 as [[_ Hall] | (_ & _ & Hall)]; apply (Hall l1); try lia;
    exact Hq2.
Qed.

(** Resolutions 1, 2, 4 and the targets 2 and 2.2. *)
Lemma get_overview_level_monotone_witness :
  exists l1 l2 : nat,
    _get_overview_level 1 [2; 4]%Z AUTO (0, 0, 2, 2) 1 1 = Ok l1
    /\ _get_overview_level 1 [2; 4]%Z AUTO (0, 0, 22, 22) 10 10 = Ok l2
    /\ (l1 <= l2)%nat.
Proof.
  apply (get_overview_level_monotone 1 [2; 4]%Z AUTO
           (0, 0, 2, 2) (0, 0, 22, 22) 1 1 10 10);
    try (simpl; lia); try (intro; discriminate).
  intros i Hi. simpl in Hi.
  destruct i as [| [| [| i]]]; try lia; simpl; unfold Qle; simpl; lia.
Defined.


(** ** Python built-ins *)

Lemma bind_ok {A B : Type} (c : result A) (k : A -> result B) (b : B) :
  bind c k = Ok b -> exists a, c = Ok a /\ k a = Ok b.
Proof.
  destruct c as [a | e]; simpl; intro Hb; [eauto | discriminate].
Qed.

Lemma clamp_inside (v : Z) (len : nat) :
  (0 <= v <= Z.of_nat len)%Z -> Py.clamp v len = Z.to_nat v.
Proof.
  intros Hv. unfold Py.clamp.
  destruct (Z.ltb_spec v 0); [lia |]. f_equal. lia.
Qed.

Lemma clamp_le (v : Z) (len : nat) : (Py.clamp v len <= len)%nat.
Proof.
  unfold Py.clamp. destruct (Z.ltb_spec v 0); lia.
Qed.

Lemma clamp_nonneg (v : Z) (len : nat) :
  (0 <= v)%Z -> Py.clamp v len = Nat.min (Z.to_nat v) len.
Proof.
  intros Hv. unfold Py.clamp. destruct (Z.ltb_spec v 0); lia.
Qed.

Lemma fold_min_lower (l : list Z) (x : Z) :
  (forall e, In e l -> (x <= e)%Z) -> fold_left Z.min l x = x.
Proof.
  revert x. induction l as [| a l IH]; intros x Hx; simpl; [reflexivity |].
  rewrite Z.min_l by (apply Hx; left; reflexivity).
  apply IH. intros e He. apply Hx. right. exact He.
Qed.

Lemma fold_max_upper (l : list Z) (x m : Z) :
  In m (x :: l) -> (forall e, In e (x :: l) -> (e <= m)%Z) ->
  fold_left Z.max l x = m.
Proof.
  revert x. induction l as [| a l IH]; intros x Hin Hub; simpl.
  - destruct Hin as [-> | []]. reflexivity.
  - apply IH.
    + destruct Hin as [-> | [-> | Hin]].
      * left. apply Z.max_l. apply Hub. right. left. reflexivity.
      * left. apply Z.max_r. apply Hub. left. reflexivity.
      * right. exact Hin.
    + intros e [<- | He].
      * apply Z.max_lub; apply Hub; [left | right; left]; reflexivity.
      * apply Hub. right. right. exact He.
Qed.

Lemma range_cons (a b : Z) :
  (a < b)%Z -> Py.range a b = a :: Py.range (a + 1) b.
Proof.
  intros Hab. unfold Py.range.
  replace (Z.to_nat (b - a)) with (S (Z.to_nat (b - (a + 1)))) by lia.
  simpl. f_equal; [lia |].
  rewrite <- seq_shift, map_map. apply map_ext. intros i. lia.
Qed.

Lemma range_nil (a b : Z) : (b <= a)%Z -> Py.range a b = [].
Proof.
  intros Hab. unfold Py.range.
  replace (Z.to_nat (b - a)) with 0%nat by lia. reflexivity.
Qed.

Lemma in_range (a b e : Z) : In e (Py.range a b) <-> (a <= e < b)%Z.
Proof.
  unfold Py.range. rewrite in_map_iff. split.
  - intros (i & <- & Hi). apply in_seq in Hi. lia.
  - intros He. exists (Z.to_nat (e - a)). split; [lia |].
    apply in_seq. lia.
Qed.

Lemma map_snd_enumerate {A : Type} (l : list A) :
  map snd (Py.enumerate l) = l.
Proof.
  unfold Py.enumerate. generalize 0%nat.
  induction l as [| a l IH]; intros n; simpl; [reflexivity |].
  f_equal. apply IH.
Qed.

Lemma map_snd_enumerate_range (a b : Z) :
  map snd (enumerate_range a b) = Py.range a (b + 1).
Proof.
  unfold enumerate_range. rewrite map_map. simpl.
  apply map_snd_enumerate.
Qed.

Lemma in_combine_seq_map {A : Type} (f : nat -> A) (j : nat) (w : A) (m s : nat) :
  In (j, w) (combine (seq s m) (map f (seq s m)))
  <-> (s <= j < s + m)%nat /\ w = f j.
Proof.
  revert s. induction m as [| m IH]; intros s; simpl.
  - split; [tauto | lia].
  - rewrite IH. split.
    + intros [Heq | [Hj Hw]].
      * inversion Heq; subst. split; [lia | reflexivity].
      * split; [lia | exact Hw].
    + intros [Hj Hw]. destruct (Nat.eq_dec s j) as [-> | Hne].
      * left. subst w. reflexivity.
      * right. split; [lia | exact Hw].
Qed.

(** The positions that [enumerate_range] pairs with the tiles: the tile
    at position [i] is [a + i]. *)
Lemma in_enumerate_range (a b i v : Z) :
  In (i, v) (enumerate_range a b) <-> (0 <= i /\ v = a + i /\ a + i <= b)%Z.
Proof.
  unfold enumerate_range, Py.enumerate, Py.range.
  rewrite length_map, length_seq, in_map_iff. split.
  - intros ([j w] & Heq & Hin). simpl in Heq.
    apply in_combine_seq_map in Hin. destruct Hin as [Hj Hw].
    inversion Heq; subst. lia.
  - intros (Hi & Hv & Hb).
    exists (Z.to_nat i, v). split; [simpl; f_equal; lia |].
    apply in_combine_seq_map. split; lia.
Qed.

Section RowIndices.
Context `{Numpy}.

Lemma row_indices_tiles (ifd : IFD) (img_tiles : TileMetadata) (idy ytile : Z) :
  map (fun i => fst (fst i)) (row_indices ifd img_tiles idy ytile)
  = row_tile_indices ifd img_tiles ytile.
Proof.
  unfold row_indices, row_tile_indices.
  rewrite <- map_snd_enumerate_range, !map_map.
  apply map_ext. intros [idx xtile]. reflexivity.
Qed.

Lemma row_tile_indices_min (ifd : IFD) (img_tiles : TileMetadata) (ytile : Z) :
  (xmin img_tiles <= xmax img_tiles)%Z ->
  Py.min (row_tile_indices ifd img_tiles ytile)
  = Ok (ytile * fst (tile_count ifd) + xmin img_tiles)%Z.
Proof.
  intros Hx. unfold row_tile_indices.
  rewrite range_cons by lia. simpl. f_equal.
  apply fold_min_lower. intros e He.
  apply in_map_iff in He. destruct He as (x & <- & Hin).
  apply in_range in Hin. lia.
Qed.

Lemma row_tile_indices_max (ifd : IFD) (img_tiles : TileMetadata) (ytile : Z) :
  (xmin img_tiles <= xmax img_tiles)%Z ->
  Py.max (row_tile_indices ifd img_tiles ytile)
  = Ok (ytile * fst (tile_count ifd) + xmax img_tiles)%Z.
Proof.
  intros Hx. unfold row_tile_indices.
  destruct (map _ (Py.range _ _)) as [| a l] eqn:E.
  - rewrite range_cons in E by lia. discriminate.
  - simpl. f_equal. apply fold_max_upper; rewrite <- E.
    + apply in_map_iff. exists (xmax img_tiles). split; [reflexivity |].
      apply in_range. lia.
    + intros e He. apply in_map_iff in He. destruct He as (x & <- & Hin).
      apply in_range in Hin. lia.
Qed.

End RowIndices.

(** ** The mosaic buffer *)

Section MosaicBuffer.
Context `{Numpy}.

(** C9. Every buffer that [_init_array] returns has the element type of
    the metadata and the shape
    [(bands, (ymax - ymin + 1) * tile_height, (xmax - xmin + 1) * tile_width)];
    each of its values is the zero that [np.zeros] writes, converted to
    that element type; it is a masked array exactly when the source has an
    internal mask or a nodata value, and then no mask bit is set.  The
    buffer is returned whenever the three dimensions are not negative. *)
Theorem init_array_zeroed (self : PartialReadBase) (img_tiles : TileMetadata) :
  let h := ((ymax img_tiles - ymin img_tiles + 1) * tile_height img_tiles)%Z in
  let w := ((xmax img_tiles - xmin img_tiles + 1) * tile_width img_tiles)%Z in
  (forall fused,
      _init_array self img_tiles = Ok fused ->
      dtype_of fused = dtype_ img_tiles
      /\ (Z.of_nat (nbands fused), Z.of_nat (nrows fused),
          Z.of_nat (ncols fused)) = (bands img_tiles, h, w)
      /\ (forall k y x, data fused k y x = cast (dtype_ img_tiles) zero)
      /\ (mask fused <> None <->
          is_masked self = true \/ nodata self <> None)
      /\ (forall m k y x, mask fused = Some m -> m k y x = false))
  /\ ((0 <= bands img_tiles)%Z -> (0 <= h)%Z -> (0 <= w)%Z ->
      exists fused, _init_array self img_tiles = Ok fused).
Proof.
  intros h w. unfold _init_array, np_zeros.
  replace ((ymax img_tiles + 1 - ymin img_tiles) * tile_height img_tiles)%Z
    with h by (unfold h; ring).
  replace ((xmax img_tiles + 1 - xmin img_tiles) * tile_width img_tiles)%Z
    with w by (unfold w; ring).
  split.
  - intros fused.
    destruct (Z.ltb_spec (bands img_tiles) 0); [discriminate |].
    destruct (Z.ltb_spec h 0); [discriminate |].
    destruct (Z.ltb_spec w 0); [discriminate |].
    simpl. intros Hfused. inversion Hfused; subst fused; clear Hfused.
    assert (Hadd : _add_mask self = true <->
                   is_masked self = true \/ nodata self <> None).
    { unfold _add_mask. destruct (is_masked self), (nodata self);
        split; intros Hm; try reflexivity; try discriminate; auto.
      - right. discriminate.
      - destruct Hm as [Hm | Hm]; [discriminate | contradiction]. }
    destruct (_add_mask self) eqn:E; simpl.
    + split; [reflexivity |]. split; [f_equal; [f_equal |]; lia |].
      split; [reflexivity |]. split.
      * split; [intros _; apply Hadd; reflexivity | intros _; discriminate].
      * intros m k y x Hm. injection Hm as <-. reflexivity.
    + split; [reflexivity |]. split; [f_equal; [f_equal |]; lia |].
      split; [reflexivity |]. split.
      * split; [intros Hn; contradiction |].
        intros Hm. apply Hadd in Hm. discriminate.
      * intros m k y x Hm. discriminate.
  - intros Hb Hh Hw.
    destruct (Z.ltb_spec (bands img_tiles) 0); [lia |].
    destruct (Z.ltb_spec h 0); [lia |].
    destruct (Z.ltb_spec w 0); [lia |].
    simpl. eexists. reflexivity.
Qed.

(** C6. With no output shape, [_postprocess] returns the slice
    [arr[:, tly : tly + height, tlx : tlx + width]] of the mosaic, whatever
    the resampling function is; when the window lies inside the mosaic
    the slice has all the bands and [height] rows of [width] columns, and
    its element at [(k, y, x)] is the element of the mosaic at
    [(k, tly + y, tlx + x)], value and mask bit. *)
Theorem postprocess_none_is_crop
    (_resample : array -> TileMetadata -> Z * Z -> Z -> result array)
    (arr : array) (img_tiles : TileMetadata) (resample_method : Z) :
  let clipped :=
    getitem_slices arr
      (tly img_tiles) (tly img_tiles + height img_tiles)
      (tlx img_tiles) (tlx img_tiles + width img_tiles) in
  _postprocess _resample arr img_tiles None resample_method = Ok clipped
  /\ ((0 <= tly img_tiles)%Z -> (0 <= height img_tiles)%Z ->
      (tly img_tiles + height img_tiles <= Z.of_nat (nrows arr))%Z ->
      (0 <= tlx img_tiles)%Z -> (0 <= width img_tiles)%Z ->
      (tlx img_tiles + width img_tiles <= Z.of_nat (ncols arr))%Z ->
      dtype_of clipped = dtype_of arr
      /\ nbands clipped = nbands arr
      /\ Z.of_nat (nrows clipped) = height img_tiles
      /\ Z.of_nat (ncols clipped) = width img_tiles
      /\ forall k y x,
           data clipped k y x
           = data arr k (Z.to_nat (tly img_tiles) + y)%nat
                        (Z.to_nat (tlx img_tiles) + x)%nat
           /\ mask_at clipped k y x
              = mask_at arr k (Z.to_nat (tly img_tiles) + y)%nat
                              (Z.to_nat (tlx img_tiles) + x)%nat).
Proof.
  intros clipped. split; [reflexivity |].
  intros Hy Hh Hyh Hx Hw Hxw.
  unfold clipped, getitem_slices, Py.slice_indices.
  rewrite !clamp_inside by lia. unfold mask_at. simpl.
  repeat split; try lia.
  destruct (mask arr); reflexivity.
Qed.

End MosaicBuffer.

(** The buffer of the request of the whole example grid. *)
Lemma init_array_zeroed_witness :
  exists fused,
    _init_array (Example.reader true Example.image_ifd
                   (LocalFilesystem Example.file)) Example.whole_grid
    = Ok fused
    /\ Example.tolists (Ok fused)
       = Ok ([[[0; 0; 0; 0]; [0; 0; 0; 0]; [0; 0; 0; 0]; [0; 0; 0; 0]]]%Z,
             Some [[[false; false; false; false]; [false; false; false; false];
                    [false; false; false; false]; [false; false; false; false]]]).
Proof.
  destruct (proj2 (init_array_zeroed
                     (Example.reader true Example.image_ifd
                        (LocalFilesystem Example.file)) Example.whole_grid))
    as [fused Hfused]; try (simpl; lia).
  exists fused. split; [exact Hfused |].
  vm_compute in Hfused. inversion Hfused. reflexivity.
Defined.

(** The window of 3 rows and 2 columns at row 0, column 1 of a mosaic of 4
    rows and 4 columns. *)
Lemma postprocess_none_is_crop_witness :
  _postprocess (fun a _ _ _ => Ok a) Example.ramp Example.whole_grid None 0
  = Ok (getitem_slices Example.ramp 0 3 1 3)
  /\ Z.of_nat (nrows (getitem_slices Example.ramp 0 3 1 3)) = 3%Z
  /\ Z.of_nat (ncols (getitem_slices Example.ramp 0 3 1 3)) = 2%Z
  /\ data (getitem_slices Example.ramp 0 3 1 3) 0 2 1
     = data Example.ramp 0 2 2.
Proof.
  destruct (postprocess_none_is_crop (fun a _ _ _ => Ok a) Example.ramp
              Example.whole_grid 0) as [Hcrop Hin].
  split; [exact Hcrop |].
  assert (Hinside := Hin ltac:(simpl; lia) ltac:(simpl; lia) ltac:(simpl; lia)
                         ltac:(simpl; lia) ltac:(simpl; lia) ltac:(simpl; lia)).
  destruct Hinside as (_ & _ & Hrows & Hcols & Hcell).
  split; [exact Hrows |]. split; [exact Hcols |].
  destruct (Hcell 0%nat 2%nat 1%nat) as [Hd _]. exact Hd.
Defined.

(** ** Merged range requests *)

Lemma seek_read_inside (file : bytes) (start size : Z) :
  (0 <= start)%Z -> (0 <= size)%Z ->
  seek_read file start size
  = Ok (firstn (Z.to_nat size) (skipn (Z.to_nat start) file)).
Proof.
  intros Hs Hn. unfold seek_read.
  destruct (Z.ltb_spec start 0); [lia |].
  destruct (Z.ltb_spec size (-1)); [lia |].
  destruct (Z.eqb_spec size (-1)); [lia | reflexivity].
Qed.

Section MergedRange.
Context `{Numpy}.

(** C7. For a row of a request with [xmin <= xmax], whose first tile is
    at [first_offset] and whose last tile is at [last_offset] with
    [last_count] bytes, [_merge_range_requests] returns the pair
    [(first_offset, last_offset + last_count - first_offset - 1)], and this
    is the request issued for the row.  A range request for [start] and
    [length_minus_one], both not negative, returns from a local file the
    bytes at the positions [start] to [start + length_minus_one] and no
    other: [length_minus_one + 1] bytes when the file reaches that far. *)
Theorem merged_range_covers_row
    (ifd : IFD) (img_tiles : TileMetadata) (ytile : Z)
    (first_offset last_offset last_count : Z) (file : bytes) :
  (xmin img_tiles <= xmax img_tiles)%Z ->
  Py.getitem (TileOffsets ifd)
    (ytile * fst (tile_count ifd) + xmin img_tiles) = Ok first_offset ->
  Py.getitem (TileOffsets ifd)
    (ytile * fst (tile_count ifd) + xmax img_tiles) = Ok last_offset ->
  Py.getitem (TileByteCounts ifd)
    (ytile * fst (tile_count ifd) + xmax img_tiles) = Ok last_count ->
  let tile_indices := row_tile_indices ifd img_tiles ytile in
  let merged :=
    (first_offset, (last_offset + last_count - first_offset - 1)%Z) in
  _merge_range_requests ifd tile_indices first_offset = Ok merged
  /\ row_request ifd tile_indices = Ok (first_offset, merged)
  /\ forall start length_minus_one : Z,
       (0 <= start)%Z -> (0 <= length_minus_one)%Z ->
       exists data : bytes,
         range_request (LocalFilesystem file) start length_minus_one = Ok data
         /\ (forall i : nat,
               nth_error data i
               = if (Z.of_nat i <=? length_minus_one)%Z
                 then nth_error file (Z.to_nat start + i)
                 else None)
         /\ (Z.of_nat (length data) <= length_minus_one + 1)%Z
         /\ ((start + length_minus_one < Z.of_nat (length file))%Z ->
             Z.of_nat (length data) = (length_minus_one + 1)%Z).
Proof.
  intros Hx Hfirst Hlast Hcount tile_indices merged.
  assert (Hmerge :
            _merge_range_requests ifd tile_indices first_offset = Ok merged).
  { unfold _merge_range_requests, tile_indices.
    rewrite row_tile_indices_max by exact Hx. simpl.
    rewrite Hlast. simpl. rewrite Hcount. reflexivity. }
  split; [exact Hmerge |]. split.
  - unfold row_request. fold tile_indices. unfold tile_indices at 1.
    rewrite row_tile_indices_min by exact Hx. simpl.
    rewrite Hfirst. simpl. fold tile_indices. rewrite Hmerge. reflexivity.
  - intros start n Hs Hn. unfold range_request, _range_request.
    rewrite seek_read_inside by lia.
    eexists. split; [reflexivity |]. split; [| split].
    + intros i. rewrite nth_error_firstn, nth_error_skipn.
      destruct (Nat.ltb_spec i (Z.to_nat (n + 1)));
        destruct (Z.leb_spec (Z.of_nat i) n); try lia; reflexivity.
    + rewrite length_firstn. lia.
    + intros Hfile. rewrite length_firstn, length_skipn. lia.
Qed.

End MergedRange.

(** The second row of the example grid: the tiles 2 and 3, at the offsets
    8 and 12, four bytes each; the merged request is [(8, 7)] and returns
    the eight bytes of the two tiles. *)
Lemma merged_range_covers_row_witness :
  row_request Example.image_ifd
    (row_tile_indices Example.image_ifd Example.whole_grid 1)
  = Ok (8, (8, 7))%Z
  /\ exists data : bytes,
       range_request (LocalFilesystem Example.file) 8 7 = Ok data
       /\ Z.of_nat (length data) = 8%Z.
Proof.
  destruct (merged_range_covers_row Example.image_ifd Example.whole_grid 1
              8 12 4 Example.file) as (_ & Hrow & Hfetch);
    try reflexivity; try (simpl; lia).
  split; [exact Hrow |].
  destruct (Hfetch 8 7 ltac:(lia) ltac:(lia))%Z as (data & Hdata & _ & _ & Hlen).
  exists data. split; [exact Hdata |].
  apply Hlen. simpl. lia.
Defined.

(** ** Stitching tiles into the buffer *)

Section Stitch.
Context `{Numpy}.
Variables tile_width tile_height : Z.

Local Notation "'run'" := (run_task tile_width tile_height).
Local Notation "'covers_'" := (covers tile_width tile_height).
Local Notation "'written_'" := (written tile_width tile_height).
Local Notation "'stitch_ok_'" := (stitch_ok tile_width tile_height).

(** A stitch that returns went through, keeps the frame of the buffer
    and changes the buffer in the slot of the tile only. *)
Lemma stitch_spec (k : tile_task) (t arr r : array) :
  _stitch_image_tile t arr (tk_idx k) (tk_idy k) tile_width tile_height = Ok r ->
  stitch_ok_ (frame_of arr) k t = true
  /\ frame_of r = frame_of arr
  /\ forall b y x,
       obs r b y x
       = if covers_ (frame_of arr) k y x
         then written_ (frame_of arr) k t b y x
         else obs arr b y x.
Proof.
  unfold _stitch_image_tile, stitch_ok, covers, written, frame_of,
    slot_rows, slot_cols, obs, mask_at.
  cbn [Py.slice_indices fst snd].
  unfold setitem.
  destruct (fits t (nbands arr) _ _) eqn:Hfits; [| discriminate].
  cbn [bind]. destruct (is_masked_array t) eqn:Hmasked.
  - unfold setitem_mask. cbn [mask nbands nrows ncols dtype_of data].
    destruct (mask arr) as [fm |]; [| discriminate].
    rewrite Hfits. intros Hr. inversion Hr; subst r; clear Hr.
    cbn [mask nbands nrows ncols dtype_of data option_map negb orb andb].
    repeat split.
    intros b y x. destruct (in_region _ _ _ _ y x); reflexivity.
  - intros Hr. inversion Hr; subst r; clear Hr.
    cbn [mask nbands nrows ncols dtype_of data option_map negb orb andb].
    split; [reflexivity |]. split.
    + destruct (mask arr); reflexivity.
    + intros b y x.
      destruct (mask arr); cbn [option_map];
        destruct (in_region _ _ _ _ y x); reflexivity.
Qed.

Lemma stitch_succeeds (k : tile_task) (t arr : array) :
  stitch_ok_ (frame_of arr) k t = true ->
  exists r,
    _stitch_image_tile t arr (tk_idx k) (tk_idy k) tile_width tile_height
    = Ok r.
Proof.
  unfold _stitch_image_tile, stitch_ok, frame_of, slot_rows, slot_cols.
  cbn [Py.slice_indices fst snd].
  unfold setitem. intros Hok. apply andb_true_iff in Hok.
  destruct Hok as [Hfits Hmask]. rewrite Hfits. cbn [bind].
  destruct (is_masked_array t).
  - unfold setitem_mask. cbn [mask nbands nrows ncols].
    destruct (mask arr); [| discriminate].
    rewrite Hfits. eexists. reflexivity.
  - eexists. reflexivity.
Qed.

Lemma gather_app (l1 l2 : list (array -> result array)) (a : array) :
  gather (l1 ++ l2) a = bind (gather l1 a) (gather l2).
Proof.
  revert a. induction l1 as [| f l1 IH]; intros a; simpl; [reflexivity |].
  destruct (f a) as [a' | e]; simpl; [apply IH | reflexivity].
Qed.

Lemma gather_ext (l1 l2 : list (array -> result array)) :
  Forall2 (fun f g => forall a, f a = g a) l1 l2 ->
  forall a, gather l1 a = gather l2 a.
Proof.
  induction 1 as [| f g l1 l2 Hfg _ IH]; intros a; simpl; [reflexivity |].
  rewrite Hfg. destruct (g a); simpl; [apply IH | reflexivity].
Qed.

(** A list of tasks that returns has run every task, and left at every
    index either what the buffer held, when no task covers the index, or
    what one of the tasks that cover it wrote. *)
Lemma gather_tasks_spec (L : list tile_task) (a r : array) :
  gather (map run L) a = Ok r ->
  frame_of r = frame_of a
  /\ (forall k, In k L ->
        exists t, tk_tile k = Ok t /\ stitch_ok_ (frame_of a) k t = true)
  /\ forall b y x,
       (obs r b y x = obs a b y x
        /\ forall k, In k L -> covers_ (frame_of a) k y x = false)
       \/ exists k t,
            In k L /\ tk_tile k = Ok t
            /\ covers_ (frame_of a) k y x = true
            /\ obs r b y x = written_ (frame_of a) k t b y x.
Proof.
  revert a. induction L as [| k L IH]; intros a; simpl.
  - intros Hr. inversion Hr; subst r.
    split; [reflexivity |]. split; [intros k [] |].
    intros b y x. left. split; [reflexivity | intros k []].
  - intros Hr. apply bind_ok in Hr. destruct Hr as (a1 & Hk & Hrest).
    unfold run_task in Hk. apply bind_ok in Hk.
    destruct Hk as (t & Htile & Hstitch).
    apply stitch_spec in Hstitch. destruct Hstitch as (Hok & Hframe & Hobs).
    apply IH in Hrest. rewrite Hframe in Hrest.
    destruct Hrest as (Hframe' & Hall & Hcells).
    split; [exact Hframe' |]. split.
    + intros k' [<- | Hin]; [exists t; split; assumption | apply Hall, Hin].
    + intros b y x. destruct (Hcells b y x) as [[Hsame Hnone] | Hsome].
      * rewrite Hobs in Hsame.
        destruct (covers_ (frame_of a) k y x) eqn:Hcov.
        -- right. exists k, t. repeat split; auto.
        -- left. split; [exact Hsame |].
           intros k' [<- | Hin]; [exact Hcov | apply Hnone, Hin].
      * right. destruct Hsome as (k' & t' & Hin & Ht' & Hcov & Hw).
        exists k', t'. repeat split; auto.
Qed.

Lemma gather_tasks_succeeds (L : list tile_task) (a : array) :
  (forall k, In k L ->
     exists t, tk_tile k = Ok t /\ stitch_ok_ (frame_of a) k t = true) ->
  exists r, gather (map run L) a = Ok r.
Proof.
  revert a. induction L as [| k L IH]; intros a Hall; simpl.
  - eexists. reflexivity.
  - destruct (Hall k (or_introl eq_refl)) as (t & Ht & Hok).
    destruct (stitch_succeeds k t a Hok) as (a1 & Ha1).
    unfold run_task at 1. rewrite Ht. cbn [bind]. rewrite Ha1. cbn [bind].
    apply IH. intros k' Hin.
    apply stitch_spec in Ha1. destruct Ha1 as (_ & Hframe & _).
    rewrite Hframe. apply Hall. right. exact Hin.
Qed.

(** Arrays of one frame that agree at every index are the same. *)
Lemma same_array_intro (a b : array) :
  frame_of a = frame_of b ->
  (forall k y x, obs a k y x = obs b k y x) ->
  same_array a b.
Proof.
  unfold frame_of, obs, same_array, shape, data_tolist, mask_tolist, mask_at.
  intros Hframe Hobs. injection Hframe as Hdt Hnb Hnr Hnc Hmask.
  split; [exact Hdt |]. split; [congruence |].
  rewrite Hnb, Hnr, Hnc. split.
  - unfold tolist. apply map_ext. intros k. apply map_ext. intros y.
    apply map_ext. intros x. specialize (Hobs k y x). congruence.
  - destruct (mask a) as [ma |], (mask b) as [mb |]; try discriminate;
      [| reflexivity].
    simpl. f_equal. unfold tolist.
    apply map_ext. intros k. apply map_ext. intros y.
    apply map_ext. intros x. specialize (Hobs k y x). simpl in Hobs.
    congruence.
Qed.

(** Two lists of the same tasks, no two of which write at a common
    index, leave the same buffer or both raise. *)
Lemma gather_tasks_equiv (L1 L2 : list tile_task) (a : array) :
  (forall k, In k L1 <-> In k L2) ->
  (forall k k' y x,
      In k L1 -> In k' L1 ->
      covers_ (frame_of a) k y x = true ->
      covers_ (frame_of a) k' y x = true -> k = k') ->
  result_equiv (gather (map run L1) a) (gather (map run L2) a).
Proof.
  intros Hsame Hdisjoint.
  destruct (gather (map run L1) a) as [r1 | e1] eqn:E1;
    destruct (gather (map run L2) a) as [r2 | e2] eqn:E2; simpl; auto.
  - apply gather_tasks_spec in E1. destruct E1 as (Hf1 & _ & Hc1).
    apply gather_tasks_spec in E2. destruct E2 as (Hf2 & _ & Hc2).
    apply same_array_intro; [congruence |].
    intros b y x.
    destruct (Hc1 b y x) as [[Ho1 Hn1] | (k1 & t1 & Hin1 & Ht1 & Hcov1 & Hw1)];
      destruct (Hc2 b y x) as [[Ho2 Hn2] | (k2 & t2 & Hin2 & Ht2 & Hcov2 & Hw2)].
    + congruence.
    + apply Hsame in Hin2. rewrite (Hn1 k2 Hin2) in Hcov2. discriminate.
    + apply Hsame in Hin1. rewrite (Hn2 k1 Hin1) in Hcov1. discriminate.
    + apply Hsame in Hin2.
      assert (k1 = k2) by (eapply Hdisjoint; eauto). subst k2.
      assert (t1 = t2) by congruence. subst t2. congruence.
  - apply gather_tasks_spec in E1. destruct E1 as (_ & Hall & _).
    destruct (gather_tasks_succeeds L2 a) as (r2 & Hr2); [| congruence].
    intros k Hin. apply Hall, Hsame, Hin.
  - apply gather_tasks_spec in E2. destruct E2 as (_ & Hall & _).
    destruct (gather_tasks_succeeds L1 a) as (r1 & Hr1); [| congruence].
    intros k Hin. apply Hall, Hsame, Hin.
Qed.

End Stitch.

(** ** The mask of a tile in merged-range mode *)

Section MergedMask.
Context `{Numpy}.


End MergedMask.


(** ** Failures *)

Section FetchFailure.
Context `{Numpy}.

(** A list of tasks either returns, and then each task returned on some
    buffer, or raises the exception that one of its tasks raised. *)
Lemma gather_result (tasks : list (array -> result array)) (a : array) :
  (exists r, gather tasks a = Ok r
             /\ forall task, In task tasks -> exists a' r', task a' = Ok r')
  \/ (exists e task a', gather tasks a = Raise e
                        /\ In task tasks /\ task a' = Raise e).
Proof.
  revert a. induction tasks as [| task tasks IH]; intros a; simpl.
  - left. exists a. split; [reflexivity | intros task []].
  - destruct (task a) as [a1 | e] eqn:E; simpl.
    + destruct (IH a1) as [(r & Hr & Hall) | (e & task' & a' & Hr & Hin & He)].
      * left. exists r. split; [exact Hr |].
        intros task' [<- | Hin]; [eauto | apply Hall, Hin].
      * right. exists e, task', a'. auto.
    + right. exists e, task, a. auto.
Qed.

Lemma gather_fails (tasks : list (array -> result array)) (a : array)
    (task : array -> result array) :
  In task tasks -> (forall a', exists e, task a' = Raise e) ->
  exists e, gather tasks a = Raise e.
Proof.
  intros Hin Hfail.
  destruct (gather_result tasks a) as [(r & _ & Hall) | (e & _ & _ & Hr & _)].
  - destruct (Hall task Hin) as (a' & r' & Hok).
    destruct (Hfail a') as (e & He). congruence.
  - exists e. exact Hr.
Qed.

Lemma in_enumerate_range_tile (a b v : Z) :
  (a <= v <= b)%Z -> In ((v - a)%Z, v) (enumerate_range a b).
Proof.
  intros Hv. apply in_enumerate_range. lia.
Qed.

(** The exception that [_request_tiles] raises comes from the allocation
    or from one of its tile tasks. *)
Lemma request_tiles_raise (self : PartialReadBase) (img_tiles : TileMetadata)
    (e : exn) :
  _request_tiles self img_tiles = Raise e ->
  raised_in_request_tiles self img_tiles e.
Proof.
  unfold _request_tiles, raised_in_request_tiles.
  destruct (_init_array self img_tiles) as [a | e0]; simpl.
  - intros Hr. right.
    destruct (gather_result
                (flat_map
                   (fun '(idx, xtile) =>
                      map (fun '(idy, ytile) =>
                             _get_and_stitch_tile self xtile ytile idx idy
                               img_tiles)
                          (enumerate_range (ymin img_tiles) (ymax img_tiles)))
                   (enumerate_range (xmin img_tiles) (xmax img_tiles))) a)
      as [(r & Hok & _) | (e' & task & a' & Hraise & Hin & He)];
      [congruence |].
    assert (e' = e) by congruence. subst e'.
    apply in_flat_map in Hin. destruct Hin as ([idx xtile] & Hx & Hin).
    apply in_map_iff in Hin. destruct Hin as ([idy ytile] & <- & Hy).
    exists idx, xtile, idy, ytile, a'. auto.
  - intros Hr. left. exact Hr.
Qed.

Lemma request_tiles_fails (self : PartialReadBase) (img_tiles : TileMetadata)
    (xtile ytile : Z) (e : exn) :
  (xmin img_tiles <= xtile <= xmax img_tiles)%Z ->
  (ymin img_tiles <= ytile <= ymax img_tiles)%Z ->
  get_tile self xtile ytile (ovr_level img_tiles) = Raise e ->
  exists e', _request_tiles self img_tiles = Raise e'.
Proof.
  intros Hx Hy Hget. unfold _request_tiles.
  destruct (_init_array self img_tiles) as [a | e0]; simpl; [| eauto].
  apply gather_fails
    with (task := _get_and_stitch_tile self xtile ytile
                    (xtile - xmin img_tiles) (ytile - ymin img_tiles)
                    img_tiles).
  - apply in_flat_map. exists ((xtile - xmin img_tiles)%Z, xtile).
    split; [apply in_enumerate_range_tile, Hx |].
    apply in_map_iff. exists ((ytile - ymin img_tiles)%Z, ytile).
    split; [reflexivity | apply in_enumerate_range_tile, Hy].
  - intros a'. exists e. unfold _get_and_stitch_tile. rewrite Hget.
    reflexivity.
Qed.

(** The exception that [_request_merged_tiles] raises comes from the
    lookup of the directory, from the allocation or from one of its row
    tasks. *)
Lemma request_merged_tiles_raise (self : PartialReadInterface)
    (img_tiles : TileMetadata) (e : exn) :
  _request_merged_tiles self img_tiles = Raise e ->
  raised_in_request_merged_tiles self img_tiles e.
Proof.
  unfold _request_merged_tiles, raised_in_request_merged_tiles.
  destruct (Py.getitem (ifds self) (ovr_level img_tiles)) as [ifd | e0];
    simpl; [| intros Hr; left; congruence].
  destruct (_init_array self img_tiles) as [a | e0]; simpl;
    [| intros Hr; right; left; exact Hr].
  intros Hr. right. right.
  destruct (gather_result
              (map (fun '(idy, ytile) => fun arr =>
                      _request_merged_tile self arr
                        (row_indices ifd img_tiles idy ytile) img_tiles)
                   (enumerate_range (ymin img_tiles) (ymax img_tiles))) a)
    as [(r & Hok & _) | (e' & task & a' & Hraise & Hin & He)];
    [congruence |].
  assert (e' = e) by congruence. subst e'.
  apply in_map_iff in Hin. destruct Hin as ([idy ytile] & <- & Hy).
  exists ifd, idy, ytile, a'. auto.
Qed.

(** A row task that raises on every buffer makes the merged read raise. *)
Lemma request_merged_tiles_fails (self : PartialReadInterface)
    (img_tiles : TileMetadata) (ifd : IFD) (ytile : Z) :
  Py.getitem (ifds self) (ovr_level img_tiles) = Ok ifd ->
  (ymin img_tiles <= ytile <= ymax img_tiles)%Z ->
  (forall arr,
      exists e,
        _request_merged_tile self arr
          (row_indices ifd img_tiles (ytile - ymin img_tiles) ytile)
          img_tiles = Raise e) ->
  exists e', _request_merged_tiles self img_tiles = Raise e'.
Proof.
  intros Hifd Hy Hrow. unfold _request_merged_tiles. rewrite Hifd. simpl.
  destruct (_init_array self img_tiles) as [a | e0]; simpl; [| eauto].
  apply gather_fails
    with (task := fun arr =>
                    _request_merged_tile self arr
                      (row_indices ifd img_tiles (ytile - ymin img_tiles)
                         ytile) img_tiles).
  - apply in_map_iff. exists ((ytile - ymin img_tiles)%Z, ytile).
    split; [reflexivity | apply in_enumerate_range_tile, Hy].
  - exact Hrow.
Qed.

(** The steps of a row task up to the loop over its tiles. *)
Lemma request_merged_tile_unfold (self : PartialReadInterface) (arr : array)
    (ifd : IFD) (img_tiles : TileMetadata) (idy ytile : Z)
    (offset start len : Z) :
  Py.getitem (ifds self) (ovr_level img_tiles) = Ok ifd ->
  row_request ifd (row_tile_indices ifd img_tiles ytile)
  = Ok (offset, (start, len)) ->
  _request_merged_tile self arr (row_indices ifd img_tiles idy ytile) img_tiles
  = (mask_request <-
       (if _add_mask self then
          mask_ifd <- Py.getitem (mask_ifds self) (ovr_level img_tiles) ;;
          r <- row_request mask_ifd (row_tile_indices ifd img_tiles ytile) ;;
          Ok (Some (mask_ifd, r))
        else Ok None) ;;
     response0 <- range_request (_file_reader self) start len ;;
     mask_part <-
       match mask_request with
       | None => Ok None
       | Some (mask_ifd, (mask_offset, (mask_start, mask_len))) =>
           response1 <-
             range_request (_file_reader self) mask_start mask_len ;;
           Ok (Some (mask_ifd, response1, mask_offset))
       end ;;
     gather
       (map (fun '(tile_idx, idx, idy) => fun arr =>
               decoded <-
                 merged_tile ifd response0 offset mask_part tile_idx ;;
               _stitch_image_tile decoded arr idx idy
                 (tile_width img_tiles) (tile_height img_tiles))
            (row_indices ifd img_tiles idy ytile))
       arr).
Proof.
  intros Hifd Hrow. unfold _request_merged_tile.
  rewrite Hifd. cbn [bind]. rewrite row_indices_tiles, Hrow. reflexivity.
Qed.

End FetchFailure.

Section FailedRead.
Context `{Numpy}.

Lemma merged_tile_task_fails (self : PartialReadInterface) (arr : array)
    (ifd : IFD) (img_tiles : TileMetadata) (ytile xtile : Z)
    (response0 : bytes) (offset : Z) (mask_part : option (IFD * bytes * Z)) :
  (xmin img_tiles <= xtile <= xmax img_tiles)%Z ->
  (exists e,
      merged_tile ifd response0 offset mask_part
        (ytile * fst (tile_count ifd) + xtile) = Raise e) ->
  forall idy,
  exists e,
    gather
      (map (fun '(tile_idx, idx, idy) => fun arr =>
              decoded <- merged_tile ifd response0 offset mask_part tile_idx ;;
              _stitch_image_tile decoded arr idx idy
                (tile_width img_tiles) (tile_height img_tiles))
           (row_indices ifd img_tiles idy ytile))
      arr = Raise e.
Proof.
  intros Hx [e He] idy.
  apply gather_fails
    with (task := fun arr =>
            decoded <- merged_tile ifd response0 offset mask_part
                         (ytile * fst (tile_count ifd) + xtile) ;;
            _stitch_image_tile decoded arr (xtile - xmin img_tiles) idy
              (tile_width img_tiles) (tile_height img_tiles)).
  - apply in_map_iff.
    exists ((ytile * fst (tile_count ifd) + xtile)%Z,
            (xtile - xmin img_tiles)%Z, idy).
    split; [reflexivity |].
    unfold row_indices. apply in_map_iff.
    exists ((xtile - xmin img_tiles)%Z, xtile).
    split; [reflexivity | apply in_enumerate_range_tile, Hx].
  - intros a'. exists e. rewrite He. reflexivity.
Qed.

(** C8. A partial read in which the fetch or the decoding of one tile
    fails returns no mosaic: it raises, and the exception is the one
    raised by the allocation or by one task of the read.  Per-tile mode:
    [get_tile] raises for a tile of the request.  Merged-range mode: the
    range request of a row or of its mask raises, or the decoder raises
    on the bytes of a tile or of its mask. *)
Theorem failed_tile_fails_read :
  (forall (self : PartialReadBase) (img_tiles : TileMetadata)
          (xtile ytile : Z) (e : exn),
      (xmin img_tiles <= xtile <= xmax img_tiles)%Z ->
      (ymin img_tiles <= ytile <= ymax img_tiles)%Z ->
      get_tile self xtile ytile (ovr_level img_tiles) = Raise e ->
      exists e', _request_tiles self img_tiles = Raise e'
                 /\ raised_in_request_tiles self img_tiles e')
  /\ (forall (self : PartialReadInterface) (img_tiles : TileMetadata)
             (ifd : IFD) (ytile offset start len : Z),
        Py.getitem (ifds self) (ovr_level img_tiles) = Ok ifd ->
        (ymin img_tiles <= ytile <= ymax img_tiles)%Z ->
        row_request ifd (row_tile_indices ifd img_tiles ytile)
        = Ok (offset, (start, len)) ->
        (* the range request of the row fails *)
        ((exists e,
             range_request (_file_reader self) start len = Raise e)
         (* or the decoder fails on a tile of the row *)
         \/ (exists response0 xtile tile_bytes e,
               range_request (_file_reader self) start len = Ok response0
               /\ (xmin img_tiles <= xtile <= xmax img_tiles)%Z
               /\ _extract_tile ifd response0
                    (ytile * fst (tile_count ifd) + xtile) offset
                  = Ok tile_bytes
               /\ _decompress ifd tile_bytes = Raise e)
         (* or the range request of the mask of the row fails *)
         \/ (exists mask_ifd mask_offset mask_start mask_len e,
               _add_mask self = true
               /\ Py.getitem (mask_ifds self) (ovr_level img_tiles)
                  = Ok mask_ifd
               /\ row_request mask_ifd (row_tile_indices ifd img_tiles ytile)
                  = Ok (mask_offset, (mask_start, mask_len))
               /\ range_request (_file_reader self) mask_start mask_len
                  = Raise e)
         (* or the decoder fails on the mask of a tile of the row *)
         \/ (exists mask_ifd mask_offset mask_start mask_len response1
                    xtile mask_bytes e,
               _add_mask self = true
               /\ Py.getitem (mask_ifds self) (ovr_level img_tiles)
                  = Ok mask_ifd
               /\ row_request mask_ifd (row_tile_indices ifd img_tiles ytile)
                  = Ok (mask_offset, (mask_start, mask_len))
               /\ range_request (_file_reader self) mask_start mask_len
                  = Ok response1
               /\ (xmin img_tiles <= xtile <= xmax img_tiles)%Z
               /\ _extract_tile mask_ifd response1
                    (ytile * fst (tile_count ifd) + xtile) mask_offset
                  = Ok mask_bytes
               /\ _decompress_mask ifd mask_bytes = Raise e)) ->
        exists e', _request_merged_tiles self img_tiles = Raise e'
                   /\ raised_in_request_merged_tiles self img_tiles e').
Proof.
  split.
  - intros self img_tiles xtile ytile e Hx Hy Hget.
    destruct (request_tiles_fails self img_tiles xtile ytile e Hx Hy Hget)
      as [e' He'].
    exists e'. split; [exact He' | apply request_tiles_raise, He'].
  - intros self img_tiles ifd ytile offset start len Hifd Hy Hrow Hfail.
    assert (Hraise : exists e', _request_merged_tiles self img_tiles = Raise e').
    { apply (request_merged_tiles_fails self img_tiles ifd ytile Hifd Hy).
      intros arr.
      rewrite (request_merged_tile_unfold self arr ifd img_tiles _ ytile
                 offset start len Hifd Hrow).
      destruct Hfail as [Hfetch | [Hdecode | [Hmfetch | Hmdecode]]].
      - destruct Hfetch as [e He].
        destruct (if _add_mask self then _ else _) as [mr | e0];
          cbn [bind]; [| eauto].
        rewrite He. cbn [bind]. eauto.
      - destruct Hdecode as (response0 & xtile & tile_bytes & e
                             & Hresp & Hx & Hextract & Hdec).
        destruct (if _add_mask self then _ else _) as [mr | e0];
          cbn [bind]; [| eauto].
        rewrite Hresp. cbn [bind].
        destruct (match mr with Some _ => _ | None => _ end) as [mp | e0];
          cbn [bind]; [| eauto].
        apply merged_tile_task_fails with (xtile := xtile);
          [exact self | exact Hx |].
        exists e. unfold merged_tile. rewrite Hextract. cbn [bind].
        rewrite Hdec. reflexivity.
      - destruct Hmfetch as (mask_ifd & mask_offset & mask_start & mask_len
                             & e & Hadd & Hmifd & Hmrow & Hmresp).
        rewrite Hadd, Hmifd. cbn [bind]. rewrite Hmrow. cbn [bind].
        destruct (range_request (_file_reader self) start len) as [r0 | e0];
          cbn [bind]; [| eauto].
        rewrite Hmresp. cbn [bind]. eauto.
      - destruct Hmdecode as (mask_ifd & mask_offset & mask_start & mask_len
                              & response1 & xtile & mask_bytes & e & Hadd
                              & Hmifd & Hmrow & Hmresp & Hx & Hextract & Hdec).
        rewrite Hadd, Hmifd. cbn [bind]. rewrite Hmrow. cbn [bind].
        destruct (range_request (_file_reader self) start len) as [r0 | e0];
          cbn [bind]; [| eauto].
        rewrite Hmresp. cbn [bind].
        apply merged_tile_task_fails with (xtile := xtile);
          [exact self | exact Hx |].
        unfold merged_tile.
        destruct (_extract_tile ifd r0 _ offset) as [tb | e0];
          cbn [bind]; [| eauto].
        destruct (_decompress ifd tb) as [d | e0]; cbn [bind]; [| eauto].
        rewrite Hextract. cbn [bind]. rewrite Hdec. cbn [bind]. eauto. }
    destruct Hraise as [e' He'].
    exists e'. split; [exact He' | apply request_merged_tiles_raise, He'].
Qed.

End FailedRead.

(** The example reader has a [get_tile] that always raises, and a server
    that answers no range request makes the merged read of the example
    raise. *)
Lemma failed_tile_fails_read_witness :
  (exists e',
      _request_tiles (Example.reader false Example.image_ifd
                        (LocalFilesystem Example.file)) Example.whole_grid
      = Raise e')
  /\ (exists e',
        _request_merged_tiles
          (Example.reader false Example.image_ifd
             (HttpFilesystem (fun _ _ => None))) Example.whole_grid
        = Raise e').
Proof.
  destruct (@failed_tile_fails_read Example.numpy) as [Hper_tile Hmerged].
  split.
  - destruct (Hper_tile (Example.reader false Example.image_ifd
                           (LocalFilesystem Example.file)) Example.whole_grid
                0%Z 0%Z FileNotFoundError) as (e' & He' & _);
      [simpl; lia | simpl; lia | reflexivity |].
    exists e'. exact He'.
  - destruct (Hmerged (Example.reader false Example.image_ifd
                         (HttpFilesystem (fun _ _ => None))) Example.whole_grid
                Example.image_ifd 0%Z 0%Z 0%Z 7%Z) as (e' & He' & _);
      [reflexivity | simpl; lia | reflexivity | |].
    + left. exists FileNotFoundError. reflexivity.
    + exists e'. exact He'.
Defined.

(** ** The bytes of a tile, fetched alone or cut out of a merged range *)

(** A tile that lies inside the merged range is cut out of the response
    as the bytes that its own range request returns. *)
Lemma slice_of_response (file : bytes) (offset n o c : Z) :
  (0 <= offset <= o)%Z -> (0 <= c)%Z -> (o + c <= offset + n)%Z ->
  Py.slice (firstn (Z.to_nat n) (skipn (Z.to_nat offset) file))
    (o - offset) (o - offset + c)
  = firstn (Z.to_nat c) (skipn (Z.to_nat o) file).
Proof.
  intros Ho Hc Hn. apply nth_error_ext. intros i.
  unfold Py.slice, Py.slice_indices.
  rewrite !clamp_nonneg by lia.
  rewrite length_firstn, length_skipn.
  rewrite !nth_error_firstn, !nth_error_skipn, nth_error_firstn,
    nth_error_skipn.
  set (N := Z.to_nat n). set (F := Z.to_nat offset).
  set (S0 := Z.to_nat (o - offset)). set (E0 := Z.to_nat (o - offset + c)).
  set (m := Nat.min N (length file - F)).
  assert (HO : Z.to_nat o = (F + S0)%nat) by (subst F S0; lia).
  assert (HC : Z.to_nat c = (E0 - S0)%nat) by (subst E0 S0; lia).
  assert (HE : (S0 <= E0 <= N)%nat) by (subst E0 S0 N; lia).
  rewrite HO, HC.
  destruct (Nat.ltb_spec i (Nat.min E0 m - Nat.min S0 m)) as [Hi | Hi].
  - destruct (Nat.ltb_spec (Nat.min S0 m + i) N) as [Hj | Hj]; [| lia].
    destruct (Nat.ltb_spec i (E0 - S0)) as [Hk | Hk]; [| lia].
    f_equal. lia.
  - destruct (Nat.ltb_spec i (E0 - S0)) as [Hk | Hk]; [| reflexivity].
    symmetry. apply nth_error_None. subst m. lia.
Qed.

Lemma local_serves (file : bytes) : serves (LocalFilesystem file) file.
Proof.
  intros start offset Hs Ho. unfold range_request, _range_request.
  apply seek_read_inside; lia.
Qed.

(** A server that answers [Range: bytes=first-last] with those bytes of a
    file serves the file. *)
Lemma http_serves (file : bytes) :
  serves (HttpFilesystem
            (fun first last =>
               Some (firstn (Z.to_nat (last - first + 1))
                            (skipn (Z.to_nat first) file)))) file.
Proof.
  intros start offset Hs Ho. unfold range_request, _range_request.
  replace (start + offset - start + 1)%Z with (offset + 1)%Z by lia.
  reflexivity.
Qed.

Section TileBytes.
Context `{Numpy}.
Variables (fs : Filesystem) (file : bytes).
Hypothesis Hserves : serves fs file.

Lemma row_request_start (ifd : IFD) (tile_indices : list Z)
    (offset start len : Z) :
  row_request ifd tile_indices = Ok (offset, (start, len)) -> start = offset.
Proof.
  unfold row_request. intros Hr.
  apply bind_ok in Hr. destruct Hr as (first & _ & Hr).
  apply bind_ok in Hr. destruct Hr as (offset' & _ & Hr).
  apply bind_ok in Hr. destruct Hr as (rng & Hmerge & Hr).
  injection Hr as -> ->.
  unfold _merge_range_requests in Hmerge.
  apply bind_ok in Hmerge. destruct Hmerge as (last & _ & Hmerge).
  apply bind_ok in Hmerge. destruct Hmerge as (last_offset & _ & Hmerge).
  apply bind_ok in Hmerge. destruct Hmerge as (last_count & _ & Hmerge).
  injection Hmerge as -> _. reflexivity.
Qed.

(** In a row that is in order, the merged range request returns, and
    what is cut out of its response for a tile of the row is what the
    range request of that tile alone returns. *)
Lemma row_in_order_bytes (ifd : IFD) (tile_indices : list Z) :
  row_in_order ifd tile_indices = true ->
  exists offset len response,
    row_request ifd tile_indices = Ok (offset, (offset, len))
    /\ range_request fs offset len = Ok response
    /\ forall i, In i tile_indices ->
         exists o c tile_bytes,
           Py.getitem (TileOffsets ifd) i = Ok o
           /\ Py.getitem (TileByteCounts ifd) i = Ok c
           /\ _extract_tile ifd response i offset = Ok tile_bytes
           /\ range_request fs o (c - 1) = Ok tile_bytes.
Proof.
  unfold row_in_order.
  destruct (row_request ifd tile_indices) as [[offset [start len]] | e] eqn:Er;
    [| discriminate].
  pose proof (row_request_start _ _ _ _ _ Er) as ->.
  intros Hok. apply andb_true_iff in Hok. destruct Hok as [Hoff Hall].
  apply Z.leb_le in Hoff. rewrite forallb_forall in Hall.
  assert (Htiles : forall i, In i tile_indices ->
            exists o c,
              Py.getitem (TileOffsets ifd) i = Ok o
              /\ Py.getitem (TileByteCounts ifd) i = Ok c
              /\ (offset <= o)%Z /\ (0 <= c)%Z
              /\ (o + c <= offset + len + 1)%Z).
  { intros i Hi. specialize (Hall i Hi).
    destruct (Py.getitem (TileOffsets ifd) i) as [o | ?]; [| discriminate].
    destruct (Py.getitem (TileByteCounts ifd) i) as [c | ?]; [| discriminate].
    apply andb_true_iff in Hall. destruct Hall as [Hall H3].
    apply andb_true_iff in Hall. destruct Hall as [H1 H2].
    apply Z.leb_le in H1, H2, H3. exists o, c. auto. }
  assert (Hlen : (0 <= len + 1)%Z).
  { unfold row_request in Er. apply bind_ok in Er.
    destruct Er as (first & Hmin & _).
    destruct tile_indices as [| i l]; [discriminate |].
    destruct (Htiles i (or_introl eq_refl)) as (o & c & _ & _ & ? & ? & ?).
    lia. }
  exists offset, len,
    (firstn (Z.to_nat (len + 1)) (skipn (Z.to_nat offset) file)).
  split; [reflexivity |]. split.
  { apply Hserves; lia. }
  intros i Hi. destruct (Htiles i Hi) as (o & c & Ho & Hc & H1 & H2 & H3).
  exists o, c, (firstn (Z.to_nat c) (skipn (Z.to_nat o) file)).
  split; [exact Ho |]. split; [exact Hc |]. split.
  - unfold _extract_tile. rewrite Hc, Ho. cbn [bind]. apply f_equal.
    apply slice_of_response; lia.
  - rewrite Hserves by lia.
    replace (c - 1 + 1)%Z with c by lia. reflexivity.
Qed.

End TileBytes.

(** ** Per-tile mode and merged-range mode *)

Lemma Forall2_map_same {A B : Type} (R : B -> B -> Prop) (f g : A -> B)
    (l : list A) :
  (forall x, In x l -> R (f x) (g x)) -> Forall2 R (map f l) (map g l).
Proof.
  induction l as [| x l IH]; intros HR; simpl; constructor.
  - apply HR. left. reflexivity.
  - apply IH. intros y Hy. apply HR. right. exact Hy.
Qed.

Lemma map_flat_map {A B C : Type} (g : B -> C) (f : A -> list B) (l : list A) :
  map g (flat_map f l) = flat_map (fun x => map g (f x)) l.
Proof.
  induction l as [| x l IH]; simpl; [reflexivity |].
  rewrite map_app, IH. reflexivity.
Qed.

Lemma slot_unique (a b t y : Z) :
  (a * t <= y < (a + 1) * t)%Z -> (b * t <= y < (b + 1) * t)%Z -> a = b.
Proof.
  intros Ha Hb.
  assert (Ht : (0 < t)%Z) by lia.
  destruct (Z.lt_trichotomy a b) as [Hlt | [Heq | Hgt]]; [| exact Heq |].
  - assert ((a + 1) * t <= b * t)%Z by (apply Z.mul_le_mono_nonneg_r; lia).
    lia.
  - assert ((b + 1) * t <= a * t)%Z by (apply Z.mul_le_mono_nonneg_r; lia).
    lia.
Qed.

Section Refinement.
Context `{Numpy}.

Lemma gather_flat_map {X : Type} (tile_width tile_height : Z)
    (f : X -> list tile_task) (l : list X) (a : array) :
  gather (map (fun x => gather (map (run_task tile_width tile_height) (f x))) l) a
  = gather (map (run_task tile_width tile_height) (flat_map f l)) a.
Proof.
  revert a. induction l as [| x l IH]; intros a; simpl; [reflexivity |].
  rewrite map_app, gather_app.
  destruct (gather (map _ (f x)) a); simpl; [apply IH | reflexivity].
Qed.

Lemma per_tile_as_tasks (self : PartialReadBase) (img_tiles : TileMetadata) :
  _request_tiles self img_tiles
  = (img_arr <- _init_array self img_tiles ;;
     gather (map (run_task (tile_width img_tiles) (tile_height img_tiles))
                 (per_tile_tasks self img_tiles)) img_arr).
Proof.
  unfold _request_tiles, per_tile_tasks.
  destruct (_init_array self img_tiles) as [a | e]; simpl; [| reflexivity].
  f_equal. rewrite map_flat_map. apply flat_map_ext. intros [idx xtile].
  rewrite map_map. apply map_ext. intros [idy ytile]. reflexivity.
Qed.

Lemma in_per_tile_tasks (self : PartialReadBase) (img_tiles : TileMetadata)
    (k : tile_task) :
  In k (per_tile_tasks self img_tiles) <->
  exists idx xtile idy ytile,
    In (idx, xtile) (enumerate_range (xmin img_tiles) (xmax img_tiles))
    /\ In (idy, ytile) (enumerate_range (ymin img_tiles) (ymax img_tiles))
    /\ k = {| tk_tile := get_tile self xtile ytile (ovr_level img_tiles);
              tk_idx := idx; tk_idy := idy |}.
Proof.
  unfold per_tile_tasks. rewrite in_flat_map. split.
  - intros ([idx xtile] & Hx & Hin). apply in_map_iff in Hin.
    destruct Hin as ([idy ytile] & <- & Hy).
    exists idx, xtile, idy, ytile. auto.
  - intros (idx & xtile & idy & ytile & Hx & Hy & ->).
    exists (idx, xtile). split; [exact Hx |].
    apply in_map_iff. exists (idy, ytile). auto.
Qed.

Lemma in_row_major_tasks (self : PartialReadBase) (img_tiles : TileMetadata)
    (k : tile_task) :
  In k (row_major_tasks self img_tiles) <->
  exists idx xtile idy ytile,
    In (idx, xtile) (enumerate_range (xmin img_tiles) (xmax img_tiles))
    /\ In (idy, ytile) (enumerate_range (ymin img_tiles) (ymax img_tiles))
    /\ k = {| tk_tile := get_tile self xtile ytile (ovr_level img_tiles);
              tk_idx := idx; tk_idy := idy |}.
Proof.
  unfold row_major_tasks. rewrite in_flat_map. split.
  - intros ([idy ytile] & Hy & Hin). apply in_map_iff in Hin.
    destruct Hin as ([idx xtile] & <- & Hx).
    exists idx, xtile, idy, ytile. auto.
  - intros (idx & xtile & idy & ytile & Hx & Hy & ->).
    exists (idy, ytile). split; [exact Hy |].
    apply in_map_iff. exists (idx, xtile). auto.
Qed.

(** With tiles of non-negative size, an index covered by the slot at
    position [(idx, idy)] lies in the rows [idy * tile_height] to
    [(idy + 1) * tile_height] and in the columns likewise. *)
Lemma covers_slot (tile_width tile_height : Z) (f : frame) (k : tile_task)
    (y x : nat) :
  (0 <= tile_width)%Z -> (0 <= tile_height)%Z ->
  (0 <= tk_idx k)%Z -> (0 <= tk_idy k)%Z ->
  covers tile_width tile_height f k y x = true ->
  (tk_idy k * tile_height <= Z.of_nat y < (tk_idy k + 1) * tile_height)%Z
  /\ (tk_idx k * tile_width <= Z.of_nat x < (tk_idx k + 1) * tile_width)%Z.
Proof.
  intros Hw Hh Hx Hy. destruct f as [[[[dt nb] h] w] masked].
  unfold covers, slot_rows, slot_cols, Py.slice_indices, in_region.
  cbn [fst snd].
  rewrite !clamp_nonneg by (apply Z.mul_nonneg_nonneg; lia).
  rewrite !andb_true_iff, !Nat.leb_le, !Nat.ltb_lt.
  assert (0 <= tk_idy k * tile_height)%Z by (apply Z.mul_nonneg_nonneg; lia).
  assert (0 <= tk_idx k * tile_width)%Z by (apply Z.mul_nonneg_nonneg; lia).
  assert (0 <= (tk_idy k + 1) * tile_height)%Z
    by (apply Z.mul_nonneg_nonneg; lia).
  assert (0 <= (tk_idx k + 1) * tile_width)%Z
    by (apply Z.mul_nonneg_nonneg; lia).
  lia.
Qed.

Lemma init_array_dims (self : PartialReadBase) (img_tiles : TileMetadata)
    (a : array) :
  _init_array self img_tiles = Ok a ->
  (0 <= (ymax img_tiles + 1 - ymin img_tiles) * tile_height img_tiles)%Z
  /\ (0 <= (xmax img_tiles + 1 - xmin img_tiles) * tile_width img_tiles)%Z.
Proof.
  unfold _init_array, np_zeros.
  destruct (Z.ltb_spec (bands img_tiles) 0); [discriminate |].
  destruct (Z.ltb_spec ((ymax img_tiles + 1 - ymin img_tiles)
                        * tile_height img_tiles) 0); [discriminate |].
  destruct (Z.ltb_spec ((xmax img_tiles + 1 - xmin img_tiles)
                        * tile_width img_tiles) 0); [discriminate |].
  intros _. split; assumption.
Qed.

(** No two tasks of a request write at a common index of its buffer. *)
Lemma tasks_disjoint (self : PartialReadBase) (img_tiles : TileMetadata)
    (a : array) (k k' : tile_task) (y x : nat) :
  _init_array self img_tiles = Ok a ->
  In k (per_tile_tasks self img_tiles) ->
  In k' (per_tile_tasks self img_tiles) ->
  covers (tile_width img_tiles) (tile_height img_tiles) (frame_of a) k y x
  = true ->
  covers (tile_width img_tiles) (tile_height img_tiles) (frame_of a) k' y x
  = true ->
  k = k'.
Proof.
  intros Hinit Hk Hk' Hc Hc'.
  apply init_array_dims in Hinit. destruct Hinit as [Hrows Hcols].
  apply in_per_tile_tasks in Hk, Hk'.
  destruct Hk as (idx & xtile & idy & ytile & Hx & Hy & ->).
  destruct Hk' as (idx' & xtile' & idy' & ytile' & Hx' & Hy' & ->).
  apply in_enumerate_range in Hx, Hy, Hx', Hy'.
  assert (Hw : (0 <= tile_width img_tiles)%Z) by nia.
  assert (Hh : (0 <= tile_height img_tiles)%Z) by nia.
  apply covers_slot in Hc, Hc'; cbn [tk_idx tk_idy] in *; try lia.
  assert (idx = idx') by (eapply slot_unique; [apply Hc | apply Hc']).
  assert (idy = idy') by (eapply slot_unique; [apply Hc | apply Hc']).
  subst idx' idy'.
  replace xtile' with xtile by lia. replace ytile' with ytile by lia.
  reflexivity.
Qed.

End Refinement.

Section MergedAsTasks.
Context `{Numpy}.
Variables (self : PartialReadInterface) (img_tiles : TileMetadata)
          (file : bytes) (ifd : IFD).
Hypothesis Hserves : serves (_file_reader self) file.
Hypothesis Hnodata : nodata self = None.
Hypothesis Hifd : Py.getitem (ifds self) (ovr_level img_tiles) = Ok ifd.

Lemma in_row_tile_indices (ytile idx xtile : Z) :
  In (idx, xtile) (enumerate_range (xmin img_tiles) (xmax img_tiles)) ->
  In (ytile * fst (tile_count ifd) + xtile)%Z
     (row_tile_indices ifd img_tiles ytile).
Proof.
  intros Hin. apply in_enumerate_range in Hin.
  unfold row_tile_indices. apply in_map_iff.
  exists xtile. split; [reflexivity | apply in_range; lia].
Qed.

(** The tile of the spec's per-tile mode and the tile that the merged
    mode cuts out of the responses of a row that is in order. *)
Lemma merged_tile_is_get_tile (ytile idx xtile : Z)
    (offset len : Z) (response0 : bytes)
    (mask_part : option (IFD * bytes * Z)) :
  In (idx, xtile) (enumerate_range (xmin img_tiles) (xmax img_tiles)) ->
  (forall i, In i (row_tile_indices ifd img_tiles ytile) ->
     exists o c tile_bytes,
       Py.getitem (TileOffsets ifd) i = Ok o
       /\ Py.getitem (TileByteCounts ifd) i = Ok c
       /\ _extract_tile ifd response0 i offset = Ok tile_bytes
       /\ range_request (_file_reader self) o (c - 1) = Ok tile_bytes) ->
  match mask_part with
  | None => is_masked self = false
  | Some (mask_ifd, response1, mask_offset) =>
      is_masked self = true
      /\ Py.getitem (mask_ifds self) (ovr_level img_tiles) = Ok mask_ifd
      /\ forall i, In i (row_tile_indices ifd img_tiles ytile) ->
           exists o c mask_bytes,
             Py.getitem (TileOffsets mask_ifd) i = Ok o
             /\ Py.getitem (TileByteCounts mask_ifd) i = Ok c
             /\ _extract_tile mask_ifd response1 i mask_offset = Ok mask_bytes
             /\ range_request (_file_reader self) o (c - 1) = Ok mask_bytes
  end ->
  merged_tile ifd response0 offset mask_part
    (ytile * fst (tile_count ifd) + xtile)
  = get_tile_spec self xtile ytile (ovr_level img_tiles).
Proof.
  intros Hin Htiles Hmask.
  pose proof (in_row_tile_indices ytile idx xtile Hin) as Hi.
  destruct (Htiles _ Hi) as (o & c & tile_bytes & Ho & Hc & Hcut & Hfetch).
  unfold merged_tile, get_tile_spec.
  rewrite Hifd, Hcut. cbn [bind]. rewrite Ho, Hc. cbn [bind].
  destruct mask_part as [[[mask_ifd response1] mask_offset] |].
  - destruct Hmask as (Hmasked & Hmifd & Hmtiles).
    destruct (Hmtiles _ Hi)
      as (mo & mc & mask_bytes & Hmo & Hmc & Hmcut & Hmfetch).
    rewrite Hmasked, Hmifd. cbn [bind]. rewrite Hmo, Hmc. cbn [bind].
    rewrite Hfetch. cbn [bind].
    destruct (_decompress ifd tile_bytes); cbn [bind]; [| reflexivity].
    rewrite Hmcut, Hmfetch. reflexivity.
  - rewrite Hmask. cbn [bind]. rewrite Hfetch. cbn [bind].
    destruct (_decompress ifd tile_bytes); reflexivity.
Qed.

(** A row task of the merged mode is the list of the tile tasks of its
    row, with the tiles of the spec's per-tile mode. *)
Lemma merged_row_as_tasks (arr : array) (idy ytile : Z) :
  row_in_order ifd (row_tile_indices ifd img_tiles ytile) = true ->
  (is_masked self = true ->
   exists mask_ifd,
     Py.getitem (mask_ifds self) (ovr_level img_tiles) = Ok mask_ifd
     /\ row_in_order mask_ifd (row_tile_indices ifd img_tiles ytile) = true) ->
  _request_merged_tile self arr (row_indices ifd img_tiles idy ytile) img_tiles
  = gather
      (map (run_task (tile_width img_tiles) (tile_height img_tiles))
           (map (fun '(idx, xtile) =>
                   {| tk_tile :=
                        get_tile_spec self xtile ytile (ovr_level img_tiles);
                      tk_idx := idx; tk_idy := idy |})
                (enumerate_range (xmin img_tiles) (xmax img_tiles))))
      arr.
Proof.
  intros Hrow Hmask.
  destruct (row_in_order_bytes (_file_reader self) file Hserves ifd _ Hrow)
    as (offset & len & response0 & Hreq & Hfetch & Htiles).
  rewrite (request_merged_tile_unfold self arr ifd img_tiles idy ytile
             offset offset len Hifd Hreq).
  assert (Hadd : _add_mask self = is_masked self).
  { unfold _add_mask. rewrite Hnodata. destruct (is_masked self); reflexivity. }
  rewrite Hadd.
  destruct (is_masked self) eqn:Emasked.
  - destruct (Hmask eq_refl) as (mask_ifd & Hmifd & Hmrow).
    destruct (row_in_order_bytes (_file_reader self) file Hserves mask_ifd _ Hmrow)
      as (mask_offset & mask_len & response1 & Hmreq & Hmfetch & Hmtiles).
    rewrite Hmifd. cbn [bind]. rewrite Hmreq. cbn [bind].
    rewrite Hfetch. cbn [bind]. rewrite Hmfetch. cbn [bind].
    unfold row_indices. rewrite !map_map.
    apply gather_ext. apply Forall2_map_same.
    intros [idx xtile] Hin a. unfold run_task. cbn [tk_tile tk_idx tk_idy].
    rewrite (merged_tile_is_get_tile ytile idx xtile offset len response0
               (Some (mask_ifd, response1, mask_offset)) Hin Htiles);
      [reflexivity |].
    split; [exact Emasked |]. split; [exact Hmifd | exact Hmtiles].
  - cbn [bind]. rewrite Hfetch. cbn [bind].
    unfold row_indices. rewrite !map_map.
    apply gather_ext. apply Forall2_map_same.
    intros [idx xtile] Hin a. unfold run_task. cbn [tk_tile tk_idx tk_idy].
    rewrite (merged_tile_is_get_tile ytile idx xtile offset len response0
               None Hin Htiles); [reflexivity | exact Emasked].
Qed.

End MergedAsTasks.

Section Agreement.
Context `{Numpy}.

Lemma merged_as_tasks (self : PartialReadInterface) (img_tiles : TileMetadata)
    (file : bytes) :
  serves (_file_reader self) file ->
  nodata self = None ->
  request_in_order self img_tiles ->
  _request_merged_tiles self img_tiles
  = (img_arr <- _init_array self img_tiles ;;
     gather (map (run_task (tile_width img_tiles) (tile_height img_tiles))
                 (row_major_tasks (per_tile_reader self) img_tiles))
            img_arr).
Proof.
  intros Hfile Hnodata (ifd & Hifd & Hrows & Hmask).
  unfold _request_merged_tiles. rewrite Hifd. cbn [bind].
  destruct (_init_array self img_tiles) as [a | e]; cbn [bind];
    [| reflexivity].
  unfold row_major_tasks. rewrite <- gather_flat_map.
  apply gather_ext. apply Forall2_map_same.
  intros [idy ytile] Hin arr.
  apply in_enumerate_range in Hin.
  apply (merged_row_as_tasks self img_tiles file ifd Hfile Hnodata Hifd).
  - apply Hrows. lia.
  - intros Hmasked. destruct (Hmask Hmasked) as (mask_ifd & Hmifd & Hmrows).
    exists mask_ifd. split; [exact Hmifd | apply Hmrows; lia].
Qed.


End Agreement.



(** * Further properties of the code *)

(** ** Overview selection under the named strategies *)

Lemma qualifies_upper (res : list Q) (t : Q) (i : nat) :
  level_qualifies res t 0 i <-> nth i res 0 <= t.
Proof.
  unfold level_qualifies.
  assert (E : inject_Z 0 / 100 == 0) by reflexivity.
  rewrite E. split.
  - intros [Hlt | Heq]; [lra | rewrite Heq; apply Qle_refl].
  - intros Hle.
    destruct (Qlt_le_dec (nth i res 0) t) as [Hlt | Hge]; [left; lra |].
    right. apply Qle_antisym; assumption.
Qed.

Lemma qualifies_lower (res : list Q) (t : Q) (i : nat) :
  level_qualifies res t 100 i <-> nth (i - 1) res 0 < t \/ t == nth i res 0.
Proof.
  unfold level_qualifies.
  assert (E : inject_Z 100 / 100 == 1) by reflexivity.
  rewrite E. split; (intros [Hlt | Heq]; [left; lra | right; exact Heq]).
Qed.

(** X1. With the strategy UPPER (percentage 0) and a request of non-zero
    width and height, the selection returns the coarsest level whose
    resolution is at most the target resolution, and level 0 when every
    overview is coarser than the target. *)
Theorem get_overview_level_upper
    (src_res : Q) (overviews : list Z) (bounds : bbox) (width height : Z) :
  width <> 0%Z -> height <> 0%Z ->
  let res := available_resolutions src_res overviews in
  let t := target_res bounds width in
  exists l : nat,
    _get_overview_level src_res overviews UPPER bounds width height = Ok l
    /\ ((l = 0%nat /\ forall i, (1 <= i < length res)%nat -> t < nth i res 0)
        \/ ((1 <= l < length res)%nat /\ nth l res 0 <= t
            /\ forall j, (l < j < length res)%nat -> t < nth j res 0)).
Proof.
  intros Hw Hh res t.
  rewrite get_overview_level_walk by (simpl; lia || assumption).
  fold res. fold t. cbn [strategy_percentage].
  assert (Hlen : (1 <= length res)%nat) by (unfold res; simpl; lia).
  eexists. split; [reflexivity |].
  assert (Hnot : forall i, ~ level_qualifies res t 0 i -> t < nth i res 0).
  { intros i Hn. apply Qnot_le_lt. intro Hle. apply Hn, qualifies_upper, Hle. }
  destruct (walk_first res 0 t (length res - 1))
    as [[Hr Hall] | (Hr & Hq & Hall)]; cbn zeta in *.
  - left. split; [exact Hr |]. intros i Hi. apply Hnot, Hall. lia.
  - right. split; [lia |]. split; [apply qualifies_upper, Hq |].
    intros j Hj. apply Hnot, Hall. lia.
Qed.

(** Resolutions 10, 20, 40 and the target 35: level 1. *)
Lemma get_overview_level_upper_witness :
  exists l : nat,
    _get_overview_level 10 [2; 4]%Z UPPER (0, 0, 350, 350) 10 10 = Ok l
    /\ ((l = 0%nat
         /\ forall i, (1 <= i < 3)%nat ->
              target_res (0, 0, 350, 350) 10
              < nth i (available_resolutions 10 [2; 4]%Z) 0)
        \/ ((1 <= l < 3)%nat
            /\ nth l (available_resolutions 10 [2; 4]%Z) 0
               <= target_res (0, 0, 350, 350) 10
            /\ forall j, (l < j < 3)%nat ->
                 target_res (0, 0, 350, 350) 10
                 < nth j (available_resolutions 10 [2; 4]%Z) 0)).
Proof.
  apply (get_overview_level_upper 10 [2; 4]%Z (0, 0, 350, 350) 10 10);
    discriminate.
Defined.



Lemma nondecreasing_first (res : list Q) (i : nat) :
  nondecreasing res -> (i < length res)%nat -> nth 0 res 0 <= nth i res 0.
Proof.
  intros Hs. induction i as [| i IH]; intros Hi; [apply Qle_refl |].
  eapply Qle_trans; [apply IH; lia |].
  specialize (Hs (S i)). replace (S i - 1)%nat with i in Hs by lia.
  apply Hs. lia.
Qed.

(** The threshold between two levels is not below the finer one. *)
Lemma threshold_above_finer (c h : Q) (p : Z) :
  (0 <= p <= 100)%Z -> h <= c -> h <= c - (c - h) * (inject_Z p / 100).
Proof.
  intros Hp Hhc.
  assert (Hq : inject_Z p / 100 <= 1).
  { apply Qle_shift_div_r; [reflexivity |].
    change (1 * 100) with (inject_Z 100). rewrite <- Zle_Qle. lia. }
  assert (0 <= (c - h) * (1 - inject_Z p / 100))
    by (apply Qmult_le_0_compat; lra).
  lra.
Qed.



(** X4. For a percentage in [0, 100] and at least one overview, whose
    coarsest level is at least as coarse as the level before it, a target
    resolution at or above the coarsest resolution selects the coarsest
    level. *)
Theorem get_overview_level_coarsest
    (src_res : Q) (overviews : list Z) (strategy : zoom_level_strategy)
    (bounds : bbox) (width height : Z) :
  (0 <= strategy_percentage strategy <= 100)%Z ->
  width <> 0%Z -> height <> 0%Z ->
  overviews <> [] ->
  let res := available_resolutions src_res overviews in
  nth (length overviews - 1) res 0 <= nth (length overviews) res 0 ->
  nth (length overviews) res 0 <= target_res bounds width ->
  _get_overview_level src_res overviews strategy bounds width height
  = Ok (length overviews).
Proof.
  intros Hp Hw Hh Hne res Hsorted Ht.
  rewrite get_overview_level_walk by assumption. f_equal. fold res.
  assert (Hlen : length res = S (length overviews))
    by (unfold res; simpl; rewrite length_map; reflexivity).
  rewrite Hlen. replace (S (length overviews) - 1)%nat
    with (S (length overviews - 1)).
  2:{ destruct overviews; [contradiction | simpl; lia]. }
  rewrite walk_step.
  replace (S (length overviews - 1)) with (length overviews)
    by (destruct overviews; [contradiction | simpl; lia]).
  replace (Qlt_bool _ _ || Qeq_bool _ _) with true; [reflexivity |].
  symmetry. apply qualifies_reflect. unfold level_qualifies.
  set (c := nth (length overviews) res 0) in *.
  set (h := nth (length overviews - 1) res 0) in *.
  set (t := target_res bounds width) in *.
  assert (Hq : 0 <= inject_Z (strategy_percentage strategy) / 100).
  { apply Qle_shift_div_l; [reflexivity |].
    change (0 * 100) with (inject_Z 0). rewrite <- Zle_Qle. lia. }
  assert (0 <= (c - h) * (inject_Z (strategy_percentage strategy) / 100))
    by (apply Qmult_le_0_compat; [lra | exact Hq]).
  destruct (Qlt_le_dec
              (c - (c - h) * (inject_Z (strategy_percentage strategy) / 100)) t)
    as [Hlt | Hge]; [left; exact Hlt |].
  right. apply Qle_antisym; lra.
Qed.

(** Resolutions 10, 20, 40 and the target 50: level 2. *)
Lemma get_overview_level_coarsest_witness :
  _get_overview_level 10 [2; 4]%Z AUTO (0, 0, 500, 500) 10 10 = Ok 2%nat.
Proof.
  apply (get_overview_level_coarsest 10 [2; 4]%Z AUTO (0, 0, 500, 500) 10 10);
    try (simpl; lia); try discriminate;
    unfold Qle; simpl; lia.
Defined.

(** ** Tile indices and the window of a request *)

Lemma tile_index_inside (coord : Q) (tile_dim idx : Z) :
  (0 < tile_dim)%Z ->
  tile_index coord tile_dim = Ok idx ->
  inject_Z (idx * tile_dim) <= coord + epsilon
  /\ coord + epsilon < inject_Z ((idx + 1) * tile_dim).
Proof.
  intros Hpos. unfold tile_index.
  destruct (Z.eqb_spec tile_dim 0) as [-> | _]; [lia |].
  assert (Hd : 0 < inject_Z tile_dim).
  { change 0 with (inject_Z 0). rewrite <- Zlt_Qlt. exact Hpos. }
  remember ((coord + epsilon) / inject_Z tile_dim) as q eqn:Eq.
  assert (Hq : coord + epsilon == q * inject_Z tile_dim).
  { subst q. field. intro Hz. rewrite Hz in Hd. apply (Qlt_irrefl 0 Hd). }
  clear Eq. intros Hidx.
  assert (Hfloor : idx = Qfloor q) by congruence.
  clear Hidx. subst idx.
  rewrite !inject_Z_mult, Hq. split.
  - apply Qmult_le_compat_r; [apply Qfloor_le | apply Qlt_le_weak, Hd].
  - apply Qmult_lt_compat_r; [exact Hd | apply Qlt_floor].
Qed.

Lemma tile_index_positive (coord : Q) (tile_dim : Z) :
  (0 < tile_dim)%Z ->
  tile_index coord tile_dim
  = Ok (Qfloor ((coord + epsilon) / inject_Z tile_dim)).
Proof.
  intros Hpos. unfold tile_index.
  destruct (Z.eqb_spec tile_dim 0); [lia | reflexivity].
Qed.

(** X5. With a positive tile dimension, the tile index computed for a
    pixel coordinate is the tile that holds the coordinate moved right by
    the epsilon: [idx * tile_dim <= coord + 1e-6 < (idx + 1) * tile_dim]. *)
Theorem tile_index_holds_coordinate (coord : Q) (tile_dim : Z) :
  (0 < tile_dim)%Z ->
  exists idx : Z,
    tile_index coord tile_dim = Ok idx
    /\ inject_Z (idx * tile_dim) <= coord + epsilon
    /\ coord + epsilon < inject_Z ((idx + 1) * tile_dim).
Proof.
  intros Hpos.
  exists (Qfloor ((coord + epsilon) / inject_Z tile_dim)).
  pose proof (tile_index_positive coord tile_dim Hpos) as E.
  split; [exact E |]. apply tile_index_inside; assumption.
Qed.

(** The coordinate 1000.5 with tiles of 256 pixels lies in tile 3. *)
Lemma tile_index_holds_coordinate_witness :
  exists idx : Z,
    tile_index (2001 # 2) 256 = Ok idx
    /\ inject_Z (idx * 256) <= (2001 # 2) + epsilon
    /\ (2001 # 2) + epsilon < inject_Z ((idx + 1) * 256).
Proof.
  apply (tile_index_holds_coordinate (2001 # 2) 256). reflexivity.
Defined.

Lemma tile_index_monotone (c1 c2 : Q) (tile_dim i1 i2 : Z) :
  (0 < tile_dim)%Z -> c1 <= c2 ->
  tile_index c1 tile_dim = Ok i1 -> tile_index c2 tile_dim = Ok i2 ->
  (i1 <= i2)%Z.
Proof.
  intros Hpos Hc. unfold tile_index.
  destruct (Z.eqb_spec tile_dim 0) as [-> | _]; [lia |].
  intros H1 H2.
  assert (E1 : i1 = Qfloor ((c1 + epsilon) / inject_Z tile_dim)) by congruence.
  assert (E2 : i2 = Qfloor ((c2 + epsilon) / inject_Z tile_dim)) by congruence.
  rewrite E1, E2. apply Qfloor_resp_le.
  assert (Hd : 0 < inject_Z tile_dim).
  { change 0 with (inject_Z 0). rewrite <- Zlt_Qlt. exact Hpos. }
  apply Qmult_le_compat_r; [lra |].
  apply Qlt_le_weak, Qinv_lt_0_compat, Hd.
Qed.

(** X6. With positive tile dimensions, a request whose top-left pixel
    coordinates do not exceed its bottom-right ones gets an ordered tile
    range: [xmin <= xmax] and [ymin <= ymax]. *)
Theorem calculate_tiles_ordered (tlx tly brx bry : Q) (tile_width tile_height : Z) :
  (0 < tile_width)%Z -> (0 < tile_height)%Z ->
  tlx <= brx -> tly <= bry ->
  exists xmin xmax ymax ymin : Z,
    calculate_tiles tlx tly brx bry tile_width tile_height
    = Ok (xmin, xmax, ymax, ymin)
    /\ (xmin <= xmax)%Z /\ (ymin <= ymax)%Z.
Proof.
  intros Hw Hh Hx Hy.
  pose proof (tile_index_positive tlx tile_width Hw) as E1.
  pose proof (tile_index_positive brx tile_width Hw) as E2.
  pose proof (tile_index_positive bry tile_height Hh) as E3.
  pose proof (tile_index_positive tly tile_height Hh) as E4.
  eexists. eexists. eexists. eexists. split.
  - unfold calculate_tiles. rewrite E1, E2, E3, E4. reflexivity.
  - split.
    + exact (tile_index_monotone tlx brx tile_width _ _ Hw Hx E1 E2).
    + exact (tile_index_monotone tly bry tile_height _ _ Hh Hy E4 E3).
Qed.

(** A window from pixel (300, 100) to pixel (700, 520), tiles of 256. *)
Lemma calculate_tiles_ordered_witness :
  exists xmin xmax ymax ymin : Z,
    calculate_tiles 300 100 700 520 256 256 = Ok (xmin, xmax, ymax, ymin)
    /\ (xmin <= xmax)%Z /\ (ymin <= ymax)%Z.
Proof.
  apply (calculate_tiles_ordered 300 100 700 520 256 256);
    try reflexivity; unfold Qle; simpl; lia.
Defined.

Lemma py_round_bounds (x : Q) :
  x - (1 # 2) <= inject_Z (py_round x) /\ inject_Z (py_round x) <= x + (1 # 2).
Proof.
  unfold py_round.
  pose proof (Qfloor_le x) as Hlo. pose proof (Qlt_floor x) as Hhi.
  rewrite inject_Z_plus in Hhi. change (inject_Z 1) with 1 in Hhi.
  remember (Qfloor x) as f eqn:Ef. clear Ef.
  destruct (Qlt_bool (x - inject_Z f) (1 # 2)) eqn:E1.
  - apply Qlt_bool_iff in E1. split; lra.
  - apply Qlt_bool_false_iff in E1.
    assert (Hup : inject_Z (f + 1) == inject_Z f + 1)
      by (rewrite inject_Z_plus; reflexivity).
    destruct (Qlt_bool (1 # 2) (x - inject_Z f)) eqn:E2.
    + rewrite Hup. split; lra.
    + apply Qlt_bool_false_iff in E2.
      destruct (Z.even f); [| rewrite Hup]; split; lra.
Qed.

Lemma Qlt_inject_Z_le (a b : Z) (x : Q) :
  inject_Z a <= x -> x < inject_Z (b + 1) -> (a <= b)%Z.
Proof.
  intros H1 H2.
  assert (H3 : inject_Z a < inject_Z (b + 1)) by (eapply Qle_lt_trans; eauto).
  rewrite <- Zlt_Qlt in H3. lia.
Qed.

(** The inverse of the transform moved to the corner [(xm, ym)] of the
    tile range maps a point to its pixel coordinates less that corner. *)
Lemma fused_inverse (gt invgt : Affine) (xm ym : Q) (p : Q * Q) :
  affine_invert gt = Some invgt ->
  exists inv_fused,
    affine_invert
      {| af_a := af_a gt; af_b := af_b gt;
         af_c := fst (affine_apply gt (xm, ym));
         af_d := af_d gt; af_e := af_e gt;
         af_f := snd (affine_apply gt (xm, ym)) |} = Some inv_fused
    /\ fst (affine_apply inv_fused p) == fst (affine_apply invgt p) - xm
    /\ snd (affine_apply inv_fused p) == snd (affine_apply invgt p) - ym.
Proof.
  unfold affine_invert, determinant. cbn [af_a af_b af_c af_d af_e af_f].
  destruct (Qeq_bool (af_a gt * af_e gt - af_b gt * af_d gt) 0) eqn:Edet;
    [discriminate |].
  apply Qeq_bool_neq in Edet.
  intros Hinv. injection Hinv as <-.
  eexists. split; [reflexivity |].
  unfold affine_apply. cbn [af_a af_b af_c af_d af_e af_f fst snd].
  split; field; exact Edet.
Qed.

Section Window.
Context `{Numpy}.

(** X7. With positive tile dimensions, the window that
    [_calculate_image_tiles] returns lies inside the buffer of its tile
    range: its origin is not negative and its last column and row are within
    [(xmax - xmin + 1) * tile_width] columns and
    [(ymax - ymin + 1) * tile_height] rows. *)
Theorem calculate_image_tiles_window_inside
    (geotransform : Affine) (bounds : bbox) (tile_width tile_height : Z)
    (band_count ovr_level : Z) (dt : dtype) (m : TileMetadata) :
  (0 < tile_width)%Z -> (0 < tile_height)%Z ->
  _calculate_image_tiles geotransform bounds tile_width tile_height
    band_count ovr_level dt = Computed m ->
  (0 <= tlx m)%Z
  /\ (tlx m + width m <= (xmax m - xmin m + 1) * tile_width)%Z
  /\ (0 <= tly m)%Z
  /\ (tly m + height m <= (ymax m - ymin m + 1) * tile_height)%Z.
Proof.
  intros Hw Hh. unfold _calculate_image_tiles.
  destruct (affine_invert geotransform) as [invgt |] eqn:Einv; [| discriminate].
  destruct (affine_apply invgt (b0 bounds, b3 bounds)) as [px py] eqn:Etl.
  destruct (affine_apply invgt (b2 bounds, b1 bounds)) as [qx qy] eqn:Ebr.
  destruct (calculate_tiles px py qx qy tile_width tile_height)
    as [[[[x0 x1] y1] y0] | e] eqn:Etiles; [| discriminate].
  unfold calculate_tiles in Etiles.
  apply bind_ok in Etiles. destruct Etiles as (x0' & Ex0 & Etiles).
  apply bind_ok in Etiles. destruct Etiles as (x1' & Ex1 & Etiles).
  apply bind_ok in Etiles. destruct Etiles as (y1' & Ey1 & Etiles).
  apply bind_ok in Etiles. destruct Etiles as (y0' & Ey0 & Etiles).
  injection Etiles as -> -> -> ->.
  apply tile_index_inside in Ex0, Ex1, Ey1, Ey0; try assumption.
  destruct (fused_inverse geotransform invgt
              (inject_Z (x0 * tile_width)) (inject_Z (y0 * tile_height))
              (b0 bounds, b3 bounds) Einv) as (inv_fused & Efused & Hox & Hoy).
  rewrite Etl in Hox, Hoy. cbn [fst snd] in Hox, Hoy.
  destruct (affine_apply geotransform
              (inject_Z (x0 * tile_width), inject_Z (y0 * tile_height)))
    as [fx fy] eqn:Efx.
  cbn [fst snd] in Efused. rewrite Efused.
  intros Hm. injection Hm as <-.
  cbn [tlx tly width height xmin xmax ymin ymax].
  destruct (py_round_bounds (fst (affine_apply inv_fused (b0 bounds, b3 bounds))))
    as [Hx_lo Hx_hi].
  destruct (py_round_bounds (snd (affine_apply inv_fused (b0 bounds, b3 bounds))))
    as [Hy_lo Hy_hi].
  destruct (py_round_bounds (qx - px)) as [_ Hw_hi].
  destruct (py_round_bounds (qy - py)) as [_ Hh_hi].
  set (ox := fst (affine_apply inv_fused (b0 bounds, b3 bounds))) in *.
  set (oy := snd (affine_apply inv_fused (b0 bounds, b3 bounds))) in *.
  set (xo := py_round ox) in *. set (yo := py_round oy) in *.
  set (w := py_round (qx - px)) in *. set (h := py_round (qy - py)) in *.
  unfold epsilon in *.
  repeat split.
  - apply (Qlt_inject_Z_le 0 xo (inject_Z xo + (3 # 4))).
    + change (inject_Z 0) with 0. lra.
    + rewrite inject_Z_plus. change (inject_Z 1) with 1. lra.
  - apply (Qlt_inject_Z_le _ _ (inject_Z (xo + w))); [apply Qle_refl |].
    replace ((x1 - x0 + 1) * tile_width + 1)%Z
      with ((x1 + 1) * tile_width + (- (x0 * tile_width) + 1))%Z by ring.
    rewrite !inject_Z_plus, inject_Z_opp.
    change (inject_Z 1) with 1. lra.
  - apply (Qlt_inject_Z_le 0 yo (inject_Z yo + (3 # 4))).
    + change (inject_Z 0) with 0. lra.
    + rewrite inject_Z_plus. change (inject_Z 1) with 1. lra.
  - apply (Qlt_inject_Z_le _ _ (inject_Z (yo + h))); [apply Qle_refl |].
    replace ((y1 - y0 + 1) * tile_height + 1)%Z
      with ((y1 + 1) * tile_height + (- (y0 * tile_height) + 1))%Z by ring.
    rewrite !inject_Z_plus, inject_Z_opp.
    change (inject_Z 1) with 1. lra.
Qed.

End Window.

(** The window of the rectangle from pixel (300, 100) to pixel (700, 520)
    of a north-up image, tiles of 256 pixels. *)
Lemma calculate_image_tiles_window_inside_witness :
  exists m : @TileMetadata Example.numpy,
    @_calculate_image_tiles Example.numpy GeoExample.north_up (3100, -(4300), 7100, -(100))
      256 256 1 0 Example.uint8 = Computed m
    /\ (0 <= tlx m)%Z
    /\ (tlx m + width m <= (xmax m - xmin m + 1) * 256)%Z
    /\ (0 <= tly m)%Z
    /\ (tly m + height m <= (ymax m - ymin m + 1) * 256)%Z.
Proof.
  assert (E : { m : @TileMetadata Example.numpy |
                @_calculate_image_tiles Example.numpy GeoExample.north_up
                  (3100, -(4300), 7100, -(100)) 256 256 1 0 Example.uint8
                = Computed m })
    by (eexists; vm_compute; reflexivity).
  destruct E as [m E]. exists m. split; [exact E |].
  apply (@calculate_image_tiles_window_inside Example.numpy
           GeoExample.north_up
           (3100, -(4300), 7100, -(100)) 256 256 1 0 Example.uint8 m);
    [reflexivity | reflexivity | exact E].
Defined.

Lemma nth_map_seq {A : Type} (h : nat -> A) (d : A) (n i : nat) :
  (i < n)%nat -> nth i (map h (seq 0 n)) d = h i.
Proof.
  intros Hi. rewrite (nth_indep _ d (h 0%nat)) by (rewrite length_map, length_seq; exact Hi).
  rewrite map_nth, seq_nth by exact Hi. reflexivity.
Qed.

Lemma coordinates_step (c o a : Q) (n : Z) (i : nat) :
  let coords :=
    map (fun q => c + (o + (1 # 2) + inject_Z q) * a) (Py.range 0 n) in
  length coords = Z.to_nat n
  /\ ((S i < length coords)%nat -> nth (S i) coords 0 - nth i coords 0 == a).
Proof.
  intros coords. unfold coords, Py.range. rewrite map_map.
  split.
  - rewrite length_map, length_seq. f_equal. lia.
  - rewrite length_map, length_seq. intros Hi.
    rewrite !nth_map_seq by lia.
    replace (0 + Z.of_nat (S i))%Z with (Z.of_nat i + 1)%Z by lia.
    replace (0 + Z.of_nat i)%Z with (Z.of_nat i) by lia.
    rewrite inject_Z_plus. change (inject_Z 1) with 1. ring.
Qed.

Section Coordinates.
Context `{Numpy}.

(** X8. The metadata that [_calculate_image_tiles] returns has one x
    coordinate for each of the [width] columns of the window and one y
    coordinate for each of its [height] rows, and the coordinates are
    regularly spaced: neighbours differ by the pixel sizes [a] and [e] of the
    geotransform. *)
Theorem calculate_image_tiles_coordinates
    (geotransform : Affine) (bounds : bbox) (tile_width tile_height : Z)
    (band_count ovr_level : Z) (dt : dtype) (m : TileMetadata) :
  _calculate_image_tiles geotransform bounds tile_width tile_height
    band_count ovr_level dt = Computed m ->
  length (x_coord m) = Z.to_nat (width m)
  /\ length (y_coord m) = Z.to_nat (height m)
  /\ (forall i, (S i < length (x_coord m))%nat ->
        nth (S i) (x_coord m) 0 - nth i (x_coord m) 0 == af_a geotransform)
  /\ (forall i, (S i < length (y_coord m))%nat ->
        nth (S i) (y_coord m) 0 - nth i (y_coord m) 0 == af_e geotransform).
Proof.
  unfold _calculate_image_tiles.
  destruct (affine_invert geotransform) as [invgt |]; [| discriminate].
  destruct (affine_apply invgt (b0 bounds, b3 bounds)) as [px py].
  destruct (affine_apply invgt (b2 bounds, b1 bounds)) as [qx qy].
  destruct (calculate_tiles px py qx qy tile_width tile_height)
    as [[[[x0 x1] y1] y0] | e]; [| discriminate].
  destruct (affine_apply geotransform _) as [fx fy].
  destruct (affine_invert _) as [inv_fused |]; [| discriminate].
  intros Hm. injection Hm as <-.
  cbn [x_coord y_coord width height].
  split; [apply (coordinates_step fx _ (af_a geotransform) _ 0) |].
  split; [apply (coordinates_step fy _ (af_e geotransform) _ 0) |].
  split; intros i; [apply (coordinates_step fx _ (af_a geotransform) _ i)
                   | apply (coordinates_step fy _ (af_e geotransform) _ i)].
Qed.

End Coordinates.

(** The same window: 400 columns of 10 units, 420 rows of -10 units. *)
Lemma calculate_image_tiles_coordinates_witness :
  exists m : @TileMetadata Example.numpy,
    @_calculate_image_tiles Example.numpy GeoExample.north_up (3100, -(4300), 7100, -(100))
      256 256 1 0 Example.uint8 = Computed m
    /\ length (x_coord m) = Z.to_nat (width m)
    /\ length (y_coord m) = Z.to_nat (height m).
Proof.
  assert (E : { m : @TileMetadata Example.numpy |
                @_calculate_image_tiles Example.numpy GeoExample.north_up
                  (3100, -(4300), 7100, -(100)) 256 256 1 0 Example.uint8
                = Computed m })
    by (eexists; vm_compute; reflexivity).
  destruct E as [m E]. exists m. split; [exact E |].
  destruct (@calculate_image_tiles_coordinates Example.numpy
              GeoExample.north_up
              (3100, -(4300), 7100, -(100)) 256 256 1 0 Example.uint8 m E)
    as (Hx & Hy & _).
  split; assumption.
Defined.

(** ** What a stitch writes *)

Section StitchProperties.
Context `{Numpy}.

(** X9. A stitch that returns keeps the element type, the shape and the
    masked or plain kind of the buffer, and with position and tile sizes
    that are not negative it changes nothing outside the slot of rows
    [idy * tile_height] to [(idy + 1) * tile_height] and columns
    [idx * tile_width] to [(idx + 1) * tile_width]. *)
Theorem stitch_writes_only_its_slot
    (arr fused r : array) (idx idy tile_width tile_height : Z) :
  (0 <= idx)%Z -> (0 <= idy)%Z -> (0 <= tile_width)%Z -> (0 <= tile_height)%Z ->
  _stitch_image_tile arr fused idx idy tile_width tile_height = Ok r ->
  dtype_of r = dtype_of fused
  /\ shape r = shape fused
  /\ (mask r = None <-> mask fused = None)
  /\ forall b y x,
       ~ ((idy * tile_height <= Z.of_nat y < (idy + 1) * tile_height)%Z
          /\ (idx * tile_width <= Z.of_nat x < (idx + 1) * tile_width)%Z) ->
       data r b y x = data fused b y x
       /\ mask_at r b y x = mask_at fused b y x.
Proof.
  intros Hidx Hidy Hw Hh Hstitch.
  set (k := {| tk_tile := Ok arr; tk_idx := idx; tk_idy := idy |}).
  apply (stitch_spec tile_width tile_height k) in Hstitch.
  destruct Hstitch as (_ & Hframe & Hobs).
  unfold frame_of in Hframe. injection Hframe as Hdt Hnb Hnr Hnc Hmask.
  split; [exact Hdt |]. split; [unfold shape; congruence |]. split.
  - destruct (mask r), (mask fused); split; intros; congruence.
  - intros b y x Hout. specialize (Hobs b y x).
    destruct (covers tile_width tile_height (frame_of fused) k y x) eqn:Hcov.
    + exfalso. apply Hout.
      apply (covers_slot tile_width tile_height (frame_of fused) k y x);
        assumption.
    + unfold obs in Hobs. injection Hobs as Hd Hm. split; assumption.
Qed.

(** X10. A tile of the shape [(bands, tile_height, tile_width)] of a slot
    that lies inside the buffer, which has no masked pixel unless the
    buffer is masked, is stitched, and is read back from the buffer: the
    element at row [idy * tile_height + i], column [idx * tile_width + j]
    is the element [(i, j)] of the tile converted to the element type of
    the buffer, and in a masked buffer its mask bit is that of the tile. *)
Theorem stitch_then_read
    (arr fused : array) (idx idy tile_width tile_height : Z) :
  (0 <= idx)%Z -> (0 <= idy)%Z -> (0 <= tile_width)%Z -> (0 <= tile_height)%Z ->
  ((idx + 1) * tile_width <= Z.of_nat (ncols fused))%Z ->
  ((idy + 1) * tile_height <= Z.of_nat (nrows fused))%Z ->
  shape arr = (nbands fused, Z.to_nat tile_height, Z.to_nat tile_width) ->
  (is_masked_array arr = true -> mask fused <> None) ->
  exists r,
    _stitch_image_tile arr fused idx idy tile_width tile_height = Ok r
    /\ forall b i j,
         (i < Z.to_nat tile_height)%nat -> (j < Z.to_nat tile_width)%nat ->
         data r b (Z.to_nat (idy * tile_height) + i)
                  (Z.to_nat (idx * tile_width) + j)
         = cast (dtype_of fused) (data arr b i j)
         /\ (mask fused <> None ->
             mask_at r b (Z.to_nat (idy * tile_height) + i)
                         (Z.to_nat (idx * tile_width) + j)
             = Some (match mask arr with
                     | Some m => m b i j
                     | None => false
                     end)).
Proof.
  intros Hidx Hidy Hw Hh Hcols Hrows Hshape Hmasked.
  set (k := {| tk_tile := Ok arr; tk_idx := idx; tk_idy := idy |}).
  unfold shape in Hshape. injection Hshape as Hnb Hnr Hnc.
  assert (Hy0 : (0 <= idy * tile_height)%Z) by (apply Z.mul_nonneg_nonneg; lia).
  assert (Hx0 : (0 <= idx * tile_width)%Z) by (apply Z.mul_nonneg_nonneg; lia).
  assert (Hrows' : slot_rows tile_height (nrows fused) k
                   = (Z.to_nat (idy * tile_height),
                      Z.to_nat ((idy + 1) * tile_height))).
  { unfold slot_rows, Py.slice_indices. cbn [tk_idy k].
    rewrite !clamp_inside by lia. reflexivity. }
  assert (Hcols' : slot_cols tile_width (ncols fused) k
                   = (Z.to_nat (idx * tile_width),
                      Z.to_nat ((idx + 1) * tile_width))).
  { unfold slot_cols, Py.slice_indices. cbn [tk_idx k].
    rewrite !clamp_inside by lia. reflexivity. }
  assert (Hh' : (Z.to_nat ((idy + 1) * tile_height)
                 - Z.to_nat (idy * tile_height))%nat = Z.to_nat tile_height)
    by lia.
  assert (Hw' : (Z.to_nat ((idx + 1) * tile_width)
                 - Z.to_nat (idx * tile_width))%nat = Z.to_nat tile_width)
    by lia.
  assert (Hok : stitch_ok tile_width tile_height (frame_of fused) k arr = true).
  { unfold stitch_ok, frame_of. rewrite Hrows', Hcols', Hh', Hw'.
    apply andb_true_iff. split.
    - unfold fits, can_bcast. rewrite Hnb, Hnr, Hnc, !Nat.eqb_refl. reflexivity.
    - destruct (is_masked_array arr); [| reflexivity].
      destruct (mask fused); [reflexivity |].
      exfalso. apply (Hmasked eq_refl). reflexivity. }
  destruct (stitch_succeeds tile_width tile_height k arr fused Hok) as [r Hr].
  exists r. split; [exact Hr |].
  intros b i j Hi Hj.
  apply (stitch_spec tile_width tile_height k) in Hr.
  destruct Hr as (_ & _ & Hobs).
  specialize (Hobs b (Z.to_nat (idy * tile_height) + i)%nat
                     (Z.to_nat (idx * tile_width) + j)%nat).
  assert (Hcov : covers tile_width tile_height (frame_of fused) k
                   (Z.to_nat (idy * tile_height) + i)
                   (Z.to_nat (idx * tile_width) + j) = true).
  { unfold covers, frame_of. rewrite Hrows', Hcols'. cbn [fst snd].
    unfold in_region.
    repeat (apply andb_true_iff; split);
      first [apply Nat.leb_le | apply Nat.ltb_lt]; lia. }
  rewrite Hcov in Hobs. unfold obs, written, frame_of in Hobs.
  cbv beta iota zeta in Hobs. rewrite Hrows', Hcols' in Hobs.
  cbv beta iota zeta in Hobs. rewrite Hh', Hw' in Hobs.
  injection Hobs as Hd Hm.
  unfold bcast in Hd. rewrite Hnb, Hnr, Hnc, !Nat.eqb_refl in Hd.
  replace (Z.to_nat (idy * tile_height) + i - Z.to_nat (idy * tile_height))%nat
    with i in Hd, Hm by lia.
  replace (Z.to_nat (idx * tile_width) + j - Z.to_nat (idx * tile_width))%nat
    with j in Hd, Hm by lia.
  split; [exact Hd |].
  intros Hfm. rewrite Hm. destruct (mask fused); [| contradiction].
  unfold mask_bits, bcast. rewrite Hnb, Hnr, Hnc, !Nat.eqb_refl. reflexivity.
Qed.

(** X11. A tile with a masked pixel cannot be stitched into a plain
    buffer: the stitch raises AttributeError, or ValueError when the shape
    of the tile does not fit the slot. *)
Theorem stitch_masked_into_plain
    (arr fused : array) (idx idy tile_width tile_height : Z) :
  is_masked_array arr = true -> mask fused = None ->
  _stitch_image_tile arr fused idx idy tile_width tile_height
  = Raise AttributeError
  \/ _stitch_image_tile arr fused idx idy tile_width tile_height
     = Raise ValueError.
Proof.
  intros Hmasked Hplain. unfold _stitch_image_tile.
  cbn [Py.slice_indices]. unfold setitem.
  destruct (fits arr (nbands fused) _ _); [left | right; reflexivity].
  cbn [bind]. rewrite Hmasked. unfold setitem_mask. cbn [mask].
  rewrite Hplain. reflexivity.
Qed.

End StitchProperties.

(** A tile stitched at position (1, 0) of a buffer of 4 by 4 pixels leaves
    the element at row 3, column 0 as it was. *)
Lemma stitch_writes_only_its_slot_witness :
  exists r : array,
    _stitch_image_tile TileExample.tile Example.ramp 1 0 2 2 = Ok r
    /\ shape r = shape Example.ramp
    /\ data r 0%nat 3%nat 0%nat = data Example.ramp 0%nat 3%nat 0%nat.
Proof.
  assert (E : { r : array |
                _stitch_image_tile TileExample.tile Example.ramp 1 0 2 2 = Ok r })
    by (eexists; vm_compute; reflexivity).
  destruct E as [r E]. exists r. split; [exact E |].
  destruct (stitch_writes_only_its_slot TileExample.tile Example.ramp r 1 0 2 2
              ltac:(lia) ltac:(lia) ltac:(lia) ltac:(lia) E)
    as (_ & Hshape & _ & Hout).
  split; [exact Hshape |].
  apply (Hout 0%nat 3%nat 0%nat). simpl. lia.
Defined.

(** The same stitch, read back at row 1, column 2: the element (1, 0) of
    the tile. *)
Lemma stitch_then_read_witness :
  exists r : array,
    _stitch_image_tile TileExample.tile Example.ramp 1 0 2 2 = Ok r
    /\ data r 0%nat 1%nat 2%nat = 102%Z.
Proof.
  destruct (stitch_then_read TileExample.tile Example.ramp 1 0 2 2)
    as (r & Hr & Hread);
    try (simpl; lia); try reflexivity; try discriminate.
  exists r. split; [exact Hr |].
  destruct (Hread 0%nat 1%nat 0%nat ltac:(simpl; lia) ltac:(simpl; lia))
    as [Hd _].
  exact Hd.
Defined.

(** The tile with a masked pixel and the plain buffer. *)
Lemma stitch_masked_into_plain_witness :
  _stitch_image_tile TileExample.masked_tile Example.ramp 1 0 2 2
  = Raise AttributeError
  \/ _stitch_image_tile TileExample.masked_tile Example.ramp 1 0 2 2
     = Raise ValueError.
Proof.
  apply (stitch_masked_into_plain TileExample.masked_tile Example.ramp 1 0 2 2);
    reflexivity.
Defined.

(** ** The mosaic of a request *)


Section MosaicProperties.
Context `{Numpy}.


Lemma enumerate_range_empty (a b : Z) : (b < a)%Z -> enumerate_range a b = [].
Proof.
  intros Hab. unfold enumerate_range. rewrite range_nil by lia. reflexivity.
Qed.

Lemma enumerate_range_first (a b : Z) :
  (a <= b)%Z -> exists rest, enumerate_range a b = (0%Z, a) :: rest.
Proof.
  intros Hab. unfold enumerate_range. rewrite (range_cons a (b + 1)) by lia.
  unfold Py.enumerate. simpl. eexists. reflexivity.
Qed.

(** X13. A per-tile read of an empty tile range ([xmax < xmin] or
    [ymax < ymin]) fetches no tile: it returns what [_init_array] returns,
    whatever [get_tile] does. *)
Theorem request_tiles_empty_range
    (self : PartialReadBase) (img_tiles : TileMetadata) :
  (xmax img_tiles < xmin img_tiles)%Z \/ (ymax img_tiles < ymin img_tiles)%Z ->
  _request_tiles self img_tiles = _init_array self img_tiles.
Proof.
  intros Hempty. unfold _request_tiles.
  destruct (_init_array self img_tiles) as [a | e]; cbn [bind]; [| reflexivity].
  destruct Hempty as [Hx | Hy].
  - rewrite (enumerate_range_empty (xmin img_tiles)) by exact Hx. reflexivity.
  - rewrite (enumerate_range_empty (ymin img_tiles)) by exact Hy.
    induction (enumerate_range (xmin img_tiles) (xmax img_tiles))
      as [| [idx xtile] l IH]; [reflexivity | exact IH].
Qed.

(** X14. A merged-range read of a request with rows but no column
    ([xmax < xmin], [ymin <= ymax]) raises ValueError once the directory is
    found and the buffer allocated: the tile indices of its first row are
    empty and have no minimum. *)
Theorem request_merged_tiles_no_column
    (self : PartialReadInterface) (img_tiles : TileMetadata) (ifd : IFD)
    (a : array) :
  Py.getitem (ifds self) (ovr_level img_tiles) = Ok ifd ->
  _init_array self img_tiles = Ok a ->
  (xmax img_tiles < xmin img_tiles)%Z ->
  (ymin img_tiles <= ymax img_tiles)%Z ->
  _request_merged_tiles self img_tiles = Raise ValueError.
Proof.
  intros Hifd Hinit Hx Hy. unfold _request_merged_tiles.
  rewrite Hifd. cbn [bind]. rewrite Hinit. cbn [bind].
  destruct (enumerate_range_first _ _ Hy) as [rest ->].
  cbn [map gather].
  unfold _request_merged_tile, row_indices.
  rewrite (enumerate_range_empty (xmin img_tiles)) by exact Hx.
  rewrite Hifd. reflexivity.
Qed.

Lemma gather_frame (tasks : list (array -> result array)) (a r : array) :
  (forall task, In task tasks ->
     forall a' r', task a' = Ok r' -> frame_of r' = frame_of a') ->
  gather tasks a = Ok r -> frame_of r = frame_of a.
Proof.
  revert a. induction tasks as [| task tasks IH]; intros a Hall; simpl.
  - intros Hr. injection Hr as <-. reflexivity.
  - intros Hr. apply bind_ok in Hr. destruct Hr as (a1 & Ha1 & Hr).
    rewrite (IH a1); [apply (Hall task (or_introl eq_refl)), Ha1 | | exact Hr].
    intros task' Hin. apply Hall. right. exact Hin.
Qed.

Lemma stitch_frame (t arr r : array) (idx idy tile_width tile_height : Z) :
  _stitch_image_tile t arr idx idy tile_width tile_height = Ok r ->
  frame_of r = frame_of arr.
Proof.
  intros Hr.
  apply (stitch_spec tile_width tile_height
           {| tk_tile := Ok t; tk_idx := idx; tk_idy := idy |}) in Hr.
  tauto.
Qed.

Lemma init_array_frame (self : PartialReadBase) (img_tiles : TileMetadata)
    (a : array) :
  _init_array self img_tiles = Ok a ->
  frame_of a
  = (dtype_ img_tiles, Z.to_nat (bands img_tiles),
     Z.to_nat ((ymax img_tiles + 1 - ymin img_tiles) * tile_height img_tiles),
     Z.to_nat ((xmax img_tiles + 1 - xmin img_tiles) * tile_width img_tiles),
     _add_mask self).
Proof.
  unfold _init_array, np_zeros.
  destruct (_ || _ || _)%bool; [discriminate |]. cbn [bind].
  intros Ha. injection Ha as <-.
  destruct (_add_mask self); reflexivity.
Qed.

Lemma request_merged_tile_frame (self : PartialReadInterface) (arr r : array)
    (indices : list (Z * Z * Z)) (img_tiles : TileMetadata) :
  _request_merged_tile self arr indices img_tiles = Ok r ->
  frame_of r = frame_of arr.
Proof.
  unfold _request_merged_tile. intros Hr.
  apply bind_ok in Hr. destruct Hr as (ifd & _ & Hr).
  apply bind_ok in Hr. destruct Hr as ([offset [start len]] & _ & Hr).
  apply bind_ok in Hr. destruct Hr as (mask_request & _ & Hr).
  apply bind_ok in Hr. destruct Hr as (response0 & _ & Hr).
  apply bind_ok in Hr. destruct Hr as (mask_part & _ & Hr).
  apply gather_frame in Hr; [exact Hr |].
  intros task Hin a' r' Htask.
  apply in_map_iff in Hin. destruct Hin as ([[tile_idx idx] idy] & <- & _).
  apply bind_ok in Htask. destruct Htask as (decoded & _ & Hstitch).
  apply stitch_frame in Hstitch. exact Hstitch.
Qed.

(** X15. Whatever the tiles hold, the array that a read returns, in
    either mode, has the element type of the metadata and the shape
    [(bands, (ymax + 1 - ymin) * tile_height, (xmax + 1 - xmin) * tile_width)],
    and is a masked array exactly when the source has an internal mask or a
    nodata value. *)
Theorem request_returns_the_frame_of_the_buffer
    (self : PartialReadInterface) (img_tiles : TileMetadata) (r : array) :
  _request_tiles self img_tiles = Ok r
  \/ _request_merged_tiles self img_tiles = Ok r ->
  dtype_of r = dtype_ img_tiles
  /\ Z.of_nat (nbands r) = bands img_tiles
  /\ Z.of_nat (nrows r)
     = ((ymax img_tiles + 1 - ymin img_tiles) * tile_height img_tiles)%Z
  /\ Z.of_nat (ncols r)
     = ((xmax img_tiles + 1 - xmin img_tiles) * tile_width img_tiles)%Z
  /\ (mask r <> None <-> _add_mask self = true).
Proof.
  intros Hr.
  assert (Hframe : exists a, _init_array self img_tiles = Ok a
                             /\ frame_of r = frame_of a).
  { destruct Hr as [Hr | Hr].
    - unfold _request_tiles in Hr. apply bind_ok in Hr.
      destruct Hr as (a & Ha & Hr). exists a. split; [exact Ha |].
      apply gather_frame in Hr; [exact Hr |].
      intros task Hin a' r' Htask.
      apply in_flat_map in Hin. destruct Hin as ([idx xtile] & _ & Hin).
      apply in_map_iff in Hin. destruct Hin as ([idy ytile] & <- & _).
      unfold _get_and_stitch_tile in Htask. apply bind_ok in Htask.
      destruct Htask as (tile & _ & Hstitch).
      apply stitch_frame in Hstitch. exact Hstitch.
    - unfold _request_merged_tiles in Hr. apply bind_ok in Hr.
      destruct Hr as (ifd & _ & Hr). apply bind_ok in Hr.
      destruct Hr as (a & Ha & Hr). exists a. split; [exact Ha |].
      apply gather_frame in Hr; [exact Hr |].
      intros task Hin a' r' Htask.
      apply in_map_iff in Hin. destruct Hin as ([idy ytile] & <- & _).
      apply request_merged_tile_frame in Htask. exact Htask. }
  destruct Hframe as (a & Ha & Hframe).
  pose proof (init_array_dims self img_tiles a Ha) as [Hrows Hcols].
  assert (Hbands : (0 <= bands img_tiles)%Z).
  { unfold _init_array, np_zeros in Ha.
    destruct (Z.ltb_spec (bands img_tiles) 0); [discriminate | assumption]. }
  rewrite (init_array_frame self img_tiles a Ha) in Hframe.
  unfold frame_of in Hframe. injection Hframe as Hdt Hnb Hnr Hnc Hmask.
  split; [exact Hdt |]. split; [lia |]. split; [lia |]. split; [lia |].
  rewrite <- Hmask. destruct (mask r); split; intros; congruence.
Qed.

End MosaicProperties.


(** The request without columns, read per tile. *)
Lemma request_tiles_empty_range_witness :
  _request_tiles
    (Example.reader false Example.image_ifd (LocalFilesystem Example.file))
    TileExample.no_column
  = _init_array
      (Example.reader false Example.image_ifd (LocalFilesystem Example.file))
      TileExample.no_column.
Proof.
  apply (request_tiles_empty_range
           (Example.reader false Example.image_ifd
              (LocalFilesystem Example.file)) TileExample.no_column).
  left. simpl. lia.
Defined.

(** The request without columns, read by merged ranges. *)
Lemma request_merged_tiles_no_column_witness :
  _request_merged_tiles
    (Example.reader false Example.image_ifd (LocalFilesystem Example.file))
    TileExample.no_column
  = Raise ValueError.
Proof.
  assert (E : { a : array |
                _init_array
                  (Example.reader false Example.image_ifd
                     (LocalFilesystem Example.file))
                  TileExample.no_column = Ok a })
    by (eexists; vm_compute; reflexivity).
  destruct E as [a E].
  apply (request_merged_tiles_no_column
           (Example.reader false Example.image_ifd
              (LocalFilesystem Example.file))
           TileExample.no_column Example.image_ifd a);
    [reflexivity | exact E | simpl; lia | simpl; lia].
Defined.

(** The merged read of the whole masked example grid: one band of 4 by 4
    pixels, masked. *)
Lemma request_returns_the_frame_of_the_buffer_witness :
  exists r : array,
    _request_merged_tiles
      (Example.reader true Example.image_ifd (LocalFilesystem Example.file))
      Example.whole_grid = Ok r
    /\ Z.of_nat (nbands r) = 1%Z
    /\ Z.of_nat (nrows r) = 4%Z
    /\ Z.of_nat (ncols r) = 4%Z
    /\ mask r <> None.
Proof.
  assert (E : { r : array |
                _request_merged_tiles
                  (Example.reader true Example.image_ifd
                     (LocalFilesystem Example.file))
                  Example.whole_grid = Ok r })
    by (eexists; vm_compute; reflexivity).
  destruct E as [r E]. exists r. split; [exact E |].
  destruct (request_returns_the_frame_of_the_buffer
              (Example.reader true Example.image_ifd
                 (LocalFilesystem Example.file))
              Example.whole_grid r (or_intror E))
    as (_ & Hb & Hr & Hc & Hm).
  split; [exact Hb |]. split; [exact Hr |]. split; [exact Hc |].
  apply Hm. reflexivity.
Defined.

(** ** Tiles cut out of a merged response *)

Lemma getitem_raises_index_error {A : Type} (l : list A) (i : Z) (e : exn) :
  Py.getitem l i = Raise e -> e = IndexError.
Proof.
  unfold Py.getitem.
  destruct (_ <? 0)%Z; [intros Hr; congruence |].
  destruct (nth_error l _); intros Hr; congruence.
Qed.

Lemma slice_length {A : Type} (l : list A) (s e : Z) :
  ((s <= e)%Z -> (length (Py.slice l s e) <= Z.to_nat (e - s))%nat)
  /\ (length (Py.slice l s e) <= length l)%nat.
Proof.
  unfold Py.slice, Py.slice_indices, Py.clamp.
  rewrite length_firstn, length_skipn.
  destruct (Z.ltb_spec s 0); destruct (Z.ltb_spec e 0); lia.
Qed.

Section ExtractTile.
Context `{Numpy}.

(** X16. [_extract_tile] raises IndexError when the tile index is missing
    from the byte-count or the offset table, and nothing else; otherwise it
    returns no more bytes than the response holds, and at most
    [TileByteCounts[tile_index]] of them when that count is not negative. *)
Theorem extract_tile_bounded
    (ifd : IFD) (img_bytes : bytes) (tile_index offset : Z) :
  (_extract_tile ifd img_bytes tile_index offset = Raise IndexError
   /\ (Py.getitem (TileByteCounts ifd) tile_index = Raise IndexError
       \/ Py.getitem (TileOffsets ifd) tile_index = Raise IndexError))
  \/ exists byte_count tile_bytes,
       Py.getitem (TileByteCounts ifd) tile_index = Ok byte_count
       /\ _extract_tile ifd img_bytes tile_index offset = Ok tile_bytes
       /\ ((0 <= byte_count)%Z ->
           (length tile_bytes <= Z.to_nat byte_count)%nat)
       /\ (length tile_bytes <= length img_bytes)%nat.
Proof.
  unfold _extract_tile.
  destruct (Py.getitem (TileByteCounts ifd) tile_index) as [c | e] eqn:Ec.
  - destruct (Py.getitem (TileOffsets ifd) tile_index) as [o | e] eqn:Eo.
    + right. exists c. eexists. split; [reflexivity |].
      split; [reflexivity |]. cbn [bind].
      destruct (slice_length img_bytes (o - offset) (o - offset + c))
        as [Hc Hl].
      split; [| exact Hl].
      intros Hpos.
      replace (o - offset + c - (o - offset))%Z with c in Hc by lia.
      apply Hc. lia.
    + left. apply getitem_raises_index_error in Eo. subst e.
      split; [reflexivity | right; reflexivity].
  - left. apply getitem_raises_index_error in Ec. subst e.
    split; [reflexivity | left; reflexivity].
Qed.

Lemma sum_contiguous (off cnt : Z -> Z) (base : Z) (n : nat) (a : Z) :
  (forall x, (a <= x < a + Z.of_nat n)%Z ->
     off (base + (x + 1))%Z = (off (base + x) + cnt (base + x))%Z) ->
  sum_list (map cnt (map (fun x => (base + x)%Z)
                         (Py.range a (a + Z.of_nat n + 1))))
  = (off (base + (a + Z.of_nat n)) + cnt (base + (a + Z.of_nat n))
     - off (base + a))%Z.
Proof.
  revert a. induction n as [| n IH]; intros a Hstep.
  - rewrite range_cons by lia. rewrite range_nil by lia. simpl.
    replace (a + 0)%Z with a by lia. lia.
  - rewrite range_cons by lia. cbn [map sum_list fold_right].
    fold (sum_list (map cnt (map (fun x => (base + x)%Z)
                               (Py.range (a + 1) (a + Z.of_nat (S n) + 1))))).
    replace (a + Z.of_nat (S n) + 1)%Z with (a + 1 + Z.of_nat n + 1)%Z by lia.
    rewrite IH by (intros x Hx; apply Hstep; lia).
    rewrite (Hstep a) by lia.
    replace (a + 1 + Z.of_nat n)%Z with (a + Z.of_nat (S n))%Z by lia.
    lia.
Qed.

(** X17. When the tiles of a row follow one another in the file without a
    gap (each tile starts where the one before ends), the merged request
    of the row asks for exactly the bytes of its tiles: it starts at the
    offset of the first tile and its length, [length_minus_one + 1], is the
    sum of the byte counts of the row. *)
Theorem merged_request_of_contiguous_row
    (ifd : IFD) (img_tiles : TileMetadata) (ytile : Z) (off cnt : Z -> Z) :
  (xmin img_tiles <= xmax img_tiles)%Z ->
  (forall i, In i (row_tile_indices ifd img_tiles ytile) ->
     Py.getitem (TileOffsets ifd) i = Ok (off i)
     /\ Py.getitem (TileByteCounts ifd) i = Ok (cnt i)) ->
  (forall x, (xmin img_tiles <= x < xmax img_tiles)%Z ->
     off (ytile * fst (tile_count ifd) + (x + 1))%Z
     = (off (ytile * fst (tile_count ifd) + x)
        + cnt (ytile * fst (tile_count ifd) + x))%Z) ->
  let first := (ytile * fst (tile_count ifd) + xmin img_tiles)%Z in
  row_request ifd (row_tile_indices ifd img_tiles ytile)
  = Ok (off first,
        (off first,
         (sum_list (map cnt (row_tile_indices ifd img_tiles ytile)) - 1)%Z)).
Proof.
  intros Hx Htables Hstep first.
  set (base := (ytile * fst (tile_count ifd))%Z) in *.
  assert (Hfirst : In first (row_tile_indices ifd img_tiles ytile)).
  { unfold row_tile_indices. apply in_map_iff. exists (xmin img_tiles).
    split; [reflexivity | apply in_range; lia]. }
  assert (Hlast : In (base + xmax img_tiles)%Z
                     (row_tile_indices ifd img_tiles ytile)).
  { unfold row_tile_indices. apply in_map_iff. exists (xmax img_tiles).
    split; [reflexivity | apply in_range; lia]. }
  unfold row_request, _merge_range_requests.
  rewrite row_tile_indices_min, row_tile_indices_max by exact Hx.
  cbn [bind]. fold base. fold first.
  destruct (Htables _ Hfirst) as [Ho _]. rewrite Ho. cbn [bind].
  destruct (Htables _ Hlast) as [Ho' Hc']. rewrite Ho', Hc'. cbn [bind].
  do 3 f_equal.
  unfold row_tile_indices. fold base.
  pose proof (sum_contiguous off cnt base
                (Z.to_nat (xmax img_tiles - xmin img_tiles)) (xmin img_tiles))
    as Hsum.
  replace (xmin img_tiles
           + Z.of_nat (Z.to_nat (xmax img_tiles - xmin img_tiles)))%Z
    with (xmax img_tiles) in Hsum by lia.
  rewrite Hsum by (intros x Hx'; apply Hstep; lia).
  unfold first. lia.
Qed.

(** X18. Clipping never raises; for a window whose origin and size are
    not negative it keeps the element type, the bands and the masked or
    plain kind of the mosaic, and returns the rows and columns of the window
    that the mosaic has: the window is cut at the last row and column. *)
Theorem clip_array_is_cut_at_the_edges (arr : array) (img_tiles : TileMetadata) :
  (0 <= tly img_tiles)%Z -> (0 <= height img_tiles)%Z ->
  (0 <= tlx img_tiles)%Z -> (0 <= width img_tiles)%Z ->
  let clipped := _clip_array arr img_tiles in
  dtype_of clipped = dtype_of arr
  /\ nbands clipped = nbands arr
  /\ (mask clipped = None <-> mask arr = None)
  /\ Z.of_nat (nrows clipped)
     = (Z.min (tly img_tiles + height img_tiles) (Z.of_nat (nrows arr))
        - Z.min (tly img_tiles) (Z.of_nat (nrows arr)))%Z
  /\ Z.of_nat (ncols clipped)
     = (Z.min (tlx img_tiles + width img_tiles) (Z.of_nat (ncols arr))
        - Z.min (tlx img_tiles) (Z.of_nat (ncols arr)))%Z.
Proof.
  intros Hy Hh Hx Hw clipped.
  unfold clipped, _clip_array, getitem_slices, Py.slice_indices.
  rewrite !clamp_nonneg by lia. cbn [dtype_of nbands nrows ncols mask].
  split; [reflexivity |]. split; [reflexivity |]. split.
  - destruct (mask arr); simpl; split; intros; congruence.
  - split; lia.
Qed.

End ExtractTile.

(** The tile of index 1 of the example, cut out of the whole file. *)
Lemma extract_tile_bounded_witness :
  exists tile_bytes : bytes,
    _extract_tile Example.image_ifd Example.file 1 0 = Ok tile_bytes
    /\ (length tile_bytes <= 4)%nat.
Proof.
  destruct (extract_tile_bounded Example.image_ifd Example.file 1 0)
    as [[Hraise _] | (c & tile_bytes & Hc & Hcut & Hlen & _)].
  - vm_compute in Hraise. discriminate.
  - exists tile_bytes. split; [exact Hcut |].
    vm_compute in Hc. injection Hc as <-. apply Hlen. lia.
Defined.

(** The second row of the example grid: the tiles 2 and 3 of four bytes
    each, stored one after the other from the offset 8. *)
Lemma merged_request_of_contiguous_row_witness :
  row_request Example.image_ifd
    (row_tile_indices Example.image_ifd Example.whole_grid 1)
  = Ok (8, (8, 8 - 1))%Z.
Proof.
  apply (merged_request_of_contiguous_row Example.image_ifd Example.whole_grid
           1 (fun i => 4 * i)%Z (fun _ => 4%Z)).
  - simpl. lia.
  - intros i Hi. simpl in Hi.
    destruct Hi as [<- | [<- | []]]; split; reflexivity.
  - intros x Hx. simpl in Hx. assert (x = 0%Z) by lia. subst x. reflexivity.
Defined.

(** The window that reaches past the mosaic of 4 by 4 pixels keeps one row
    and two columns. *)
Lemma clip_array_is_cut_at_the_edges_witness :
  Z.of_nat (nrows (_clip_array Example.ramp TileExample.overhang)) = 1%Z
  /\ Z.of_nat (ncols (_clip_array Example.ramp TileExample.overhang)) = 2%Z.
Proof.
  destruct (clip_array_is_cut_at_the_edges Example.ramp TileExample.overhang
              ltac:(simpl; lia) ltac:(simpl; lia) ltac:(simpl; lia)
              ltac:(simpl; lia))
    as (_ & _ & _ & Hr & Hc).
  split; [exact Hr | exact Hc].
Defined.

(** ** The read cursor *)

Lemma slice_nonneg {A : Type} (l : list A) (o c : Z) :
  (0 <= o)%Z -> (0 <= c)%Z ->
  Py.slice l o (o + c) = firstn (Z.to_nat c) (skipn (Z.to_nat o) l).
Proof.
  intros Ho Hc. apply nth_error_ext. intros i.
  unfold Py.slice, Py.slice_indices.
  rewrite !clamp_nonneg by lia.
  rewrite !nth_error_firstn, !nth_error_skipn.
  destruct (Nat.ltb_spec i (Nat.min (Z.to_nat (o + c)) (length l)
                            - Nat.min (Z.to_nat o) (length l))) as [Hi | Hi];
    destruct (Nat.ltb_spec i (Z.to_nat c)) as [Hk | Hk]; try lia.
  - f_equal. lia.
  - symmetry. apply nth_error_None. lia.
  - reflexivity.
Qed.

Lemma firstn_add {A : Type} (m n : nat) (l : list A) :
  firstn m l ++ firstn n (skipn m l) = firstn (m + n) l.
Proof.
  revert l. induction m as [| m IH]; intros l; [reflexivity |].
  destruct l as [| x l]; simpl.
  - rewrite firstn_nil. reflexivity.
  - f_equal. apply IH.
Qed.

(** X19. Two reads of bytes one after the other, of [m] then [n] bytes
    from a cursor at a non-negative offset, return together what one read
    of [m + n] bytes returns, and leave the cursor at the same offset. *)
Theorem read_then_read (self : Cursor) (m n : Z) :
  (0 <= _offset self)%Z -> (0 <= m)%Z -> (0 <= n)%Z ->
  exists data1 data2 : bytes,
    fst (read self m false) = ReadBytes data1
    /\ fst (read (snd (read self m false)) n false) = ReadBytes data2
    /\ fst (read self (m + n) false) = ReadBytes (data1 ++ data2)
    /\ snd (read (snd (read self m false)) n false)
       = snd (read self (m + n) false).
Proof.
  intros Ho Hm Hn. unfold read, incr.
  cbn [fst snd cur_data _offset _endian].
  eexists. eexists. split; [reflexivity |]. split; [reflexivity |]. split.
  - f_equal. rewrite !slice_nonneg by lia.
    replace (Z.to_nat (_offset self + m))
      with (Z.to_nat m + Z.to_nat (_offset self))%nat by lia.
    rewrite <- skipn_skipn, firstn_add. f_equal. lia.
  - f_equal. lia.
Qed.

(** Two bytes, then two bytes, of a cursor over four bytes. *)
Lemma read_then_read_witness :
  exists data1 data2 : bytes,
    fst (read GeoExample.cursor 2 false) = ReadBytes data1
    /\ fst (read (snd (read GeoExample.cursor 2 false)) 2 false)
       = ReadBytes data2
    /\ fst (read GeoExample.cursor (2 + 2) false) = ReadBytes (data1 ++ data2)
    /\ snd (read (snd (read GeoExample.cursor 2 false)) 2 false)
       = snd (read GeoExample.cursor (2 + 2) false).
Proof.
  apply (read_then_read GeoExample.cursor 2 2); simpl; lia.
Defined.

(** X20. A read at or past the end of the bytes held returns no byte, or
    the integer 0, and still moves the cursor forward by the size asked
    for. *)
Theorem read_past_the_end (self : Cursor) (n : Z) (cast_to_int : bool) :
  (Z.of_nat (length (cur_data self)) <= _offset self)%Z -> (0 <= n)%Z ->
  fst (read self n cast_to_int)
  = (if cast_to_int then ReadInt 0 else ReadBytes [])
  /\ tell (snd (read self n cast_to_int)) = (tell self + n)%Z
  /\ cur_data (snd (read self n cast_to_int)) = cur_data self.
Proof.
  intros Hend Hn. unfold read, incr, tell.
  cbn [fst snd cur_data _offset _endian].
  rewrite slice_nonneg by lia.
  rewrite skipn_all2 by lia. rewrite firstn_nil.
  split; [| split; reflexivity].
  destruct cast_to_int; [| reflexivity].
  destruct (String.eqb _ _); reflexivity.
Qed.

(** The cursor over four bytes, moved to the offset 4, read for 8 bytes. *)
Lemma read_past_the_end_witness :
  fst (read (seek GeoExample.cursor 4) 8 true) = ReadInt 0
  /\ tell (snd (read (seek GeoExample.cursor 4) 8 true)) = 12%Z.
Proof.
  destruct (read_past_the_end (seek GeoExample.cursor 4) 8 true)
    as (Hv & Ht & _); try (simpl; lia).
  split; [exact Hv | exact Ht].
Defined.

(** ** The request counters *)

(** X21. After a sequence of range requests on a local file that all
    return, there is one response for each request, the count of requests
    has grown by their number, the recorded ranges are the pairs
    [(start, start + offset)] of the requests in their order, after those
    recorded before, and the count of bytes has grown by the sum of
    [offset - start + 1] over the requests. *)
Theorem local_range_requests_counters
    (file : bytes) (c c' : Counters) (requests : list (Z * Z))
    (responses : list bytes) :
  local_range_requests file c requests = Ok (responses, c') ->
  length responses = length requests
  /\ _total_requests c' = (_total_requests c + Z.of_nat (length requests))%Z
  /\ _requested_ranges c'
     = _requested_ranges c
       ++ map (fun r => (fst r, (fst r + snd r)%Z)) requests
  /\ _total_bytes_requested c'
     = (_total_bytes_requested c
        + sum_list (map (fun r => snd r - fst r + 1) requests))%Z.
Proof.
  revert c responses. induction requests as [| [start offset] requests IH];
    intros c responses; cbn [local_range_requests].
  - intros Hr. injection Hr as <- <-. cbn [length map sum_list fold_right].
    rewrite app_nil_r. repeat split; lia.
  - intros Hr. apply bind_ok in Hr. destruct Hr as ([data c1] & Hreq & Hr).
    apply bind_ok in Hr. destruct Hr as ([rest c2] & Hrest & Hr).
    injection Hr as <- <-.
    unfold local_range_request in Hreq. apply bind_ok in Hreq.
    destruct Hreq as (data' & _ & Hreq). injection Hreq as _ <-.
    apply IH in Hrest. destruct Hrest as (Hlen & Hn & Hranges & Hbytes).
    cbn [_total_requests _requested_ranges _total_bytes_requested] in *.
    cbn [length map sum_list fold_right fst snd].
    fold (sum_list (map (fun r : Z * Z => (snd r - fst r + 1)%Z) requests)).
    split; [lia |]. split; [lia |]. split.
    + rewrite Hranges, <- app_assoc. reflexivity.
    + lia.
Qed.

(** Two requests on the example file, from the counters of a new file
    system. *)
Lemma local_range_requests_counters_witness :
  exists (responses : list bytes) (c' : Counters),
    local_range_requests Example.file post_init [(0, 3); (8, 7)]%Z
    = Ok (responses, c')
    /\ _total_requests c' = 2%Z
    /\ _requested_ranges c' = [(0, 3); (8, 15)]%Z
    /\ _total_bytes_requested c' = 4%Z.
Proof.
  assert (E : { p : list bytes * Counters |
                local_range_requests Example.file post_init [(0, 3); (8, 7)]%Z
                = Ok p })
    by (eexists; vm_compute; reflexivity).
  destruct E as [[responses c'] E]. exists responses, c'.
  split; [exact E |].
  destruct (local_range_requests_counters Example.file post_init c'
              [(0, 3); (8, 7)]%Z responses E) as (_ & Hn & Hranges & Hbytes).
  split; [exact Hn |]. split; [exact Hranges | exact Hbytes].
Defined.

(** X22. A range request on a local file that lies inside the file
    delivers [offset + 1] bytes, while its count of bytes requested grows
    by [offset - start + 1]: by the number of bytes delivered less the start
    of the range. *)
Theorem local_range_request_bytes_counted
    (file : bytes) (c : Counters) (start offset : Z) :
  (0 <= start)%Z -> (0 <= offset)%Z ->
  (start + offset < Z.of_nat (length file))%Z ->
  exists (data : bytes) (c' : Counters),
    local_range_request file c start offset = Ok (data, c')
    /\ Z.of_nat (length data) = (offset + 1)%Z
    /\ (_total_bytes_requested c' - _total_bytes_requested c)%Z
       = (Z.of_nat (length data) - start)%Z.
Proof.
  intros Hs Ho Hin. unfold local_range_request.
  rewrite seek_read_inside by lia. cbn [bind].
  eexists. eexists. split; [reflexivity |].
  cbn [_total_bytes_requested].
  rewrite length_firstn, length_skipn. split; lia.
Qed.

(** The eight bytes from the offset 8 of the example file: the count grows
    by 0. *)
Lemma local_range_request_bytes_counted_witness :
  exists (data : bytes) (c' : Counters),
    local_range_request Example.file post_init 8 7 = Ok (data, c')
    /\ Z.of_nat (length data) = 8%Z
    /\ _total_bytes_requested c' = 0%Z.
Proof.
  destruct (local_range_request_bytes_counted Example.file post_init 8 7)
    as (data & c' & Hreq & Hlen & Hcount); try (simpl; lia).
  exists data, c'. split; [exact Hreq |]. split; [exact Hlen |].
  rewrite Hlen in Hcount. simpl in Hcount. lia.
Defined.
